(** * BibReview (revsys): retrieval and normalisation engine

    A shallow embedding of the parts of [src/revsys] that fetch, normalise
    and aggregate bibliographic records, and the properties of the
    specification that concern them.

    Conventions of the embedding.
    - A Python [str] is a [string]; its characters are read as the code
      points U+0000..U+00FF.
    - A decoded JSON value (and any other Python value the adapters handle)
      is a [pyval]; a JSON object is the list of its members in document
      order, looked up by key (first binding).  Floating-point numbers do
      not occur in the modelled fields and are left out.
    - A record under construction ([registro]) is a Python [dict] with
      string keys: a [gmap string pyval].
    - A [pandas.DataFrame] is the list of its rows.
    - An operation that can raise returns a [result]; [Raise e] carries
      the exception class. *)

From Stdlib Require Import ZArith String Ascii List Bool Lia QArith.
From stdpp Require Import gmap strings list pretty.

Open Scope string_scope.
Open Scope nat_scope.
Open Scope list_scope.

(** ** Exceptions and fallible computations *)

Module Py.

(** The exception classes that occur.  The first four are
    [requests.exceptions.RequestException] and subclasses of it;
    [HTTPError] carries the status code of the response it was raised
    for.  [PlainException] is [Exception(...)] itself (its message is not
    modelled). *)
Inductive exn : Type :=
| RequestException
| ConnectionError
| Timeout
| HTTPError (status : Z)
| PlainException
| AttributeError
| TypeError
| KeyError
| IndexError
| ValueError
| UnboundLocalError
| RuntimeError.

Inductive result (A : Type) : Type :=
| Ok (a : A)
| Raise (e : exn).

Arguments Ok {A} a.
Arguments Raise {A} e.

Definition bind {A B} (m : result A) (k : A -> result B) : result B :=
  match m with
  | Ok a => k a
  | Raise e => Raise e
  end.

Definition is_ok {A} (m : result A) : bool :=
  match m with Ok _ => true | Raise _ => false end.

(** [isinstance(e, requests.exceptions.RequestException)] *)
Definition is_RequestException (e : exn) : bool :=
  match e with
  | RequestException | ConnectionError | Timeout | HTTPError _ => true
  | _ => false
  end.

(** [for x in xs: body] where the body may raise: the first exception
    leaves the loop. *)
Fixpoint mapM {A B} (f : A -> result B) (l : list A) : result (list B) :=
  match l with
  | [] => Ok []
  | x :: l' => bind (f x) (fun y => bind (mapM f l') (fun ys => Ok (y :: ys)))
  end.

End Py.

Export Py.

#[global] Instance result_ret : MRet result := @Ok.
#[global] Instance result_bind : MBind result := fun A B k m => bind m k.

(** ** src/revsys/http_retry.py *)

Module HttpRetry.

(** [response.raise_for_status()] of the requests library: a status in
    400..599 raises [HTTPError]. *)
Definition raise_for_status (status : Z) : result unit :=
  if ((400 <=? status) && (status <? 600))%Z then Raise (HTTPError status) else Ok tt.

(** [stop_after_attempt(3)] *)
Definition max_attempt_number : nat := 3.

Definition stop (attempt_number : nat) : bool :=
  max_attempt_number <=? attempt_number.

(** [wait_exponential(multiplier=1, min=1, max=10)] of tenacity, in
    seconds: [max(max(0, min), min(multiplier * 2 ** (attempt - 1), max))]. *)
Definition wait_exponential (multiplier min max : Z) (attempt_number : nat) : Z :=
  Z.max (Z.max 0 min) (Z.min (multiplier * 2 ^ (Z.of_nat attempt_number - 1)) max).

Definition wait (attempt_number : nat) : Z := wait_exponential 1 1 10 attempt_number.

(** [retry_if_exception_type(requests.exceptions.RequestException)] *)
Definition retry (e : exn) : bool := is_RequestException e.

(** What one run of the decorated function did: its outcome, the number
    of times the wrapped function was called, and the sleeps between
    the calls. *)
Record run (A : Type) : Type := Run {
  outcome : result A;
  calls : nat;
  sleeps : list Z
}.

Arguments Run {A} _ _ _.
Arguments outcome {A} _.
Arguments calls {A} _.
Arguments sleeps {A} _.

(** The loop of tenacity's [Retrying.__call__] under [reraise=True].
    [op n] is what the [n]-th call of the wrapped function does (the
    network may answer differently each time).  [fuel] bounds the
    iterations of [while True]. *)
Fixpoint retrying {A} (fuel : nat) (op : nat -> result A)
    (attempt_number : nat) (slept : list Z) : option (run A) :=
  match fuel with
  | O => None
  | S fuel' =>
    match op attempt_number with
    | Ok v => Some (Run (Ok v) attempt_number slept)
    | Raise e =>
      if negb (retry e) then Some (Run (Raise e) attempt_number slept)
      else if stop attempt_number then Some (Run (Raise e) attempt_number slept)
      else retrying fuel' op (S attempt_number) (slept ++ [wait attempt_number])
    end
  end.

(** [retry_on_fail(f)()]: attempts are numbered from 1. *)
Definition retry_on_fail {A} (fuel : nat) (op : nat -> result A) : option (run A) :=
  retrying fuel op 1 [].

(** [PlosAPI.fetch_data] (src/revsys/clients/plos.py), a wrapped
    operation that calls [raise_for_status]: [requests.get] either
    raises or answers with a status and a decoded body. *)
Definition plos_fetch_data {A} (get : result (Z * A)) : result A :=
  '(status, body) ← get;
  _ ← raise_for_status status;
  Ok body.

(** [ScopusFetcher._fetch_scopus_page] and [ArxivFetcher._fetch_arxiv_page]:
    every status other than 200 raises a plain [Exception]. *)
Definition scopus_fetch_page {A} (get : result (Z * A)) : result A :=
  '(status, body) ← get;
  if (status =? 200)%Z then Ok body else Raise PlainException.

End HttpRetry.

(** ** Python text operations *)

Module PyStr.

Definition code (c : ascii) : N := N_of_ascii c.

(** [str.isspace] on one character, which is also what [str.strip()],
    [str.split()] and the regular expression class [\s] use: the code
    points 9-13, 28-32, 133 and 160. *)
Definition isspace (c : ascii) : bool :=
  let n := code c in
  ((9 <=? n) && (n <=? 13) || (28 <=? n) && (n <=? 32) || (n =? 133) || (n =? 160))%N.

Definition chr_eqb (a b : ascii) : bool := Ascii.eqb a b.

(** [c in s] for a one-character [c] *)
Fixpoint contains_char (c : ascii) (s : string) : bool :=
  match s with
  | EmptyString => false
  | String a s' => chr_eqb a c || contains_char c s'
  end.

(** [s.lstrip()], [s.rstrip()], [s.strip()] *)
Fixpoint lstrip (s : string) : string :=
  match s with
  | EmptyString => EmptyString
  | String a s' => if isspace a then lstrip s' else s
  end.

Fixpoint rstrip (s : string) : string :=
  match s with
  | EmptyString => EmptyString
  | String a s' =>
    match rstrip s' with
    | EmptyString => if isspace a then EmptyString else String a EmptyString
    | r => String a r
    end
  end.

Definition strip (s : string) : string := rstrip (lstrip s).

(** [s.split(sep)] for a one-character separator: the fields between
    the separators, empty ones included; never an empty list. *)
Fixpoint split_on (sep : ascii) (s : string) : list string :=
  match s with
  | EmptyString => [EmptyString]
  | String a s' =>
    if chr_eqb a sep then EmptyString :: split_on sep s'
    else match split_on sep s' with
         | [] => [String a EmptyString]
         | w :: ws => String a w :: ws
         end
  end.

(** [s.split()]: the maximal runs of non-whitespace characters.
    [split_ws_go s] returns the run that starts at the head of [s] (empty
    if [s] starts with whitespace) and the runs after it. *)
Fixpoint split_ws_go (s : string) : string * list string :=
  match s with
  | EmptyString => (EmptyString, [])
  | String a s' =>
    let '(w, ws) := split_ws_go s' in
    if isspace a then
      (EmptyString, match w with EmptyString => ws | _ => w :: ws end)
    else (String a w, ws)
  end.

Definition split_ws (s : string) : list string :=
  let '(w, ws) := split_ws_go s in
  match w with EmptyString => ws | _ => w :: ws end.

(** [sep.join(l)] for a list of [str] *)
Fixpoint join (sep : string) (l : list string) : string :=
  match l with
  | [] => EmptyString
  | [x] => x
  | x :: l' => x +:+ sep +:+ join sep l'
  end.

(** [l[0]] and [l[-1]] *)
Definition first {A} (l : list A) : result A :=
  match l with
  | [] => Raise IndexError
  | x :: _ => Ok x
  end.

Definition last {A} (l : list A) : result A :=
  match List.rev l with
  | [] => Raise IndexError
  | x :: _ => Ok x
  end.

(** [s.lower()] on U+0000..U+00FF: A-Z, and the letters U+00C0..U+00DE
    other than the multiplication sign U+00D7. *)
Definition lower_char (c : ascii) : ascii :=
  let n := code c in
  if ((65 <=? n) && (n <=? 90) || (192 <=? n) && (n <=? 222) && negb (n =? 215))%N
  then ascii_of_N (n + 32) else c.

Fixpoint lower (s : string) : string :=
  match s with
  | EmptyString => EmptyString
  | String a s' => String (lower_char a) (lower s')
  end.

(** [s.upper() == t] for a literal [t] made of ASCII characters.  Among
    all characters only a-z map to an ASCII capital (the others keep a
    non-ASCII image, or become "SS"), so the comparison is decided by
    mapping a-z alone. *)
Definition upper_ascii_char (c : ascii) : ascii :=
  let n := code c in
  if ((97 <=? n) && (n <=? 122))%N then ascii_of_N (n - 32) else c.

Fixpoint upper_ascii (s : string) : string :=
  match s with
  | EmptyString => EmptyString
  | String a s' => String (upper_ascii_char a) (upper_ascii s')
  end.

Definition upper_is (s t : string) : bool := String.eqb (upper_ascii s) t.

(** [s.startswith(p)] *)
Fixpoint startswith (p s : string) : bool :=
  match p, s with
  | EmptyString, _ => true
  | String a p', String b s' => chr_eqb a b && startswith p' s'
  | _, _ => false
  end.

(** [p in s] for strings *)
Fixpoint contains (p s : string) : bool :=
  startswith p s ||
  match s with
  | EmptyString => false
  | String _ s' => contains p s'
  end.

End PyStr.


(** ** Python values *)

Module PyVal.

Import PyStr.

(** [None], [bool], [int], [str], [list] and [dict] with [str] keys.  A
    dict value lists its items in insertion order, with distinct keys. *)
#[warnings="-register-all"]
Inductive pyval : Type :=
| PNone
| PBool (b : bool)
| PInt (z : Z)
| PStr (s : string)
| PList (l : list pyval)
| PDict (d : list (string * pyval)).

(** Structural equality.  On [str] values it is Python's [==]. *)
Fixpoint pyval_eqb (x y : pyval) : bool :=
  let fix list_eqb (l1 l2 : list pyval) : bool :=
    match l1, l2 with
    | [], [] => true
    | a :: l1', b :: l2' => pyval_eqb a b && list_eqb l1' l2'
    | _, _ => false
    end in
  let fix dict_eqb (d1 d2 : list (string * pyval)) : bool :=
    match d1, d2 with
    | [], [] => true
    | (k1, a) :: d1', (k2, b) :: d2' => String.eqb k1 k2 && pyval_eqb a b && dict_eqb d1' d2'
    | _, _ => false
    end in
  match x, y with
  | PNone, PNone => true
  | PBool a, PBool b => Bool.eqb a b
  | PInt a, PInt b => Z.eqb a b
  | PStr a, PStr b => String.eqb a b
  | PList a, PList b => list_eqb a b
  | PDict a, PDict b => dict_eqb a b
  | _, _ => false
  end.

(** [bool(v)] *)
Definition truthy (v : pyval) : bool :=
  match v with
  | PNone => false
  | PBool b => b
  | PInt z => negb (z =? 0)%Z
  | PStr s => negb (String.eqb s "")
  | PList l => match l with [] => false | _ => true end
  | PDict d => match d with [] => false | _ => true end
  end.

(** [v == "lit"] and [v != "lit"] *)
Definition eq_str (v : pyval) (lit : string) : bool :=
  match v with
  | PStr s => String.eqb s lit
  | _ => false
  end.

Definition ne_str (v : pyval) (lit : string) : bool := negb (eq_str v lit).

(** [isinstance(v, str)], [isinstance(v, list)] *)
Definition is_str (v : pyval) : bool :=
  match v with PStr _ => true | _ => false end.

Definition is_list (v : pyval) : bool :=
  match v with PList _ => true | _ => false end.

(** Lookup in the items of a dict *)
Fixpoint lookup_item (k : string) (d : list (string * pyval)) : option pyval :=
  match d with
  | [] => None
  | (k', v) :: d' => if String.eqb k k' then Some v else lookup_item k d'
  end.

(** [v.get(k, default)]: only a dict has the method. *)
Definition get (v : pyval) (k : string) (default : pyval) : result pyval :=
  match v with
  | PDict d => Ok (match lookup_item k d with Some x => x | None => default end)
  | _ => Raise AttributeError
  end.

(** [v.get(k)] *)
Definition get_none (v : pyval) (k : string) : result pyval := get v k PNone.

(** [v[k]] for a [str] key *)
Definition getitem (v : pyval) (k : string) : result pyval :=
  match v with
  | PDict d => match lookup_item k d with Some x => Ok x | None => Raise KeyError end
  | _ => Raise TypeError
  end.

(** [v[0]]: the first element of a list, the first character of a
    string; the key [0] is in no dict with [str] keys. *)
Definition getitem0 (v : pyval) : result pyval :=
  match v with
  | PList (x :: _) => Ok x
  | PList [] => Raise IndexError
  | PStr (String a _) => Ok (PStr (String a EmptyString))
  | PStr EmptyString => Raise IndexError
  | PDict _ => Raise KeyError
  | _ => Raise TypeError
  end.

(** [len(v)] *)
Definition len (v : pyval) : result nat :=
  match v with
  | PStr s => Ok (String.length s)
  | PList l => Ok (List.length l)
  | PDict d => Ok (List.length d)
  | _ => Raise TypeError
  end.

Fixpoint chars (s : string) : list pyval :=
  match s with
  | EmptyString => []
  | String a s' => PStr (String a EmptyString) :: chars s'
  end.

(** [for x in v]: the elements of a list, the characters of a string,
    the keys of a dict. *)
Definition iter (v : pyval) : result (list pyval) :=
  match v with
  | PList l => Ok l
  | PStr s => Ok (chars s)
  | PDict d => Ok (map (fun kv => PStr (fst kv)) d)
  | _ => Raise TypeError
  end.

(** ["k" in v] *)
Definition contains_key (k : string) (v : pyval) : result bool :=
  match v with
  | PDict d => Ok (match lookup_item k d with Some _ => true | None => false end)
  | PStr s => Ok (contains k s)
  | PList l => Ok (existsb (fun x => eq_str x k) l)
  | _ => Raise TypeError
  end.

(** *** [repr] and [str] *)

Definition hex_digit (n : N) : ascii :=
  if (n <? 10)%N then ascii_of_N (48 + n) else ascii_of_N (87 + n).

(** [\xhh] *)
Definition hex_escape (c : ascii) : string :=
  let n := code c in
  String "\" (String "x" (String (hex_digit (n / 16)) (String (hex_digit (n mod 16)) EmptyString))).

(** [str.isprintable] on U+0000..U+00FF *)
Definition isprintable (c : ascii) : bool :=
  let n := code c in
  ((32 <=? n) && (n <=? 126) || (161 <=? n) && (n <=? 172) || (174 <=? n))%N.

Definition repr_char (quote c : ascii) : string :=
  if chr_eqb c quote || chr_eqb c "\" then String "\" (String c EmptyString)
  else if chr_eqb c "009" then "\t"
  else if chr_eqb c "010" then "\n"
  else if chr_eqb c "013" then "\r"
  else if isprintable c then String c EmptyString
  else hex_escape c.

Fixpoint repr_chars (quote : ascii) (s : string) : string :=
  match s with
  | EmptyString => EmptyString
  | String a s' => repr_char quote a +:+ repr_chars quote s'
  end.

(** [repr(s)]: double quotes when [s] has a single quote and no double
    quote, single quotes otherwise. *)
Definition squote : ascii := "039"%char.
Definition dquote : ascii := "034"%char.

Definition repr_str (s : string) : string :=
  let quote : ascii :=
    if contains_char squote s && negb (contains_char dquote s) then dquote else squote in
  String quote (repr_chars quote s +:+ String quote EmptyString).

Fixpoint repr (v : pyval) : string :=
  match v with
  | PNone => "None"
  | PBool true => "True"
  | PBool false => "False"
  | PInt z => pretty z
  | PStr s => repr_str s
  | PList l => "[" +:+ join ", " (map repr l) +:+ "]"
  | PDict d =>
    "{" +:+ join ", " (map (fun kv => match kv with (k, x) => repr_str k +:+ ": " +:+ repr x end) d) +:+ "}"
  end.

(** [str(v)], which is also how an f-string renders [{v}] *)
Definition str (v : pyval) : string :=
  match v with
  | PStr s => s
  | _ => repr v
  end.

(** [sep.join(l)]: every element has to be a [str]. *)
Definition as_str (v : pyval) : result string :=
  match v with
  | PStr s => Ok s
  | _ => Raise TypeError
  end.

Definition join_vals (sep : string) (l : list pyval) : result string :=
  ss ← mapM as_str l; Ok (join sep ss).

End PyVal.

Export PyVal.

(** A server that answers every request of [PlosAPI.fetch_data] with
    the status 401. *)
Definition plos_always_401 (attempt_number : nat) : result pyval :=
  HttpRetry.plos_fetch_data (Ok (401%Z, PNone)).

(** A wrapped operation that fails twice with a time-out and then
    answers. *)
Definition flaky_then_ok (attempt_number : nat) : result pyval :=
  if attempt_number <? 3 then Raise Timeout else Ok (PStr "page").

(** ** The standard columns (the same in every client module) *)

Module Columns.

Definition STANDARD_COLUMNS : list string := [
  "ID"; "Authors"; "Authors Year"; "Title"; "Journal"; "Publication Year";
  "Publication Date"; "Abstract"; "DOI"; "Language"; "Is Accepted"; "Is Published";
  "Type"; "Type Crossref"; "Indexed In"; "Is Open Access"; "OA Status";
  "Download URL"; "Cited By Count"; "API"
].

Definition NA : pyval := PStr "N/A".

(** [padroniza_registro]:
    [for coluna in STANDARD_COLUMNS: if coluna not in registro: registro[coluna] = "N/A"] *)
Definition padroniza_step (registro : gmap string pyval) (coluna : string) : gmap string pyval :=
  match registro !! coluna with
  | Some _ => registro
  | None => <[coluna := NA]> registro
  end.

Definition padroniza_registro (registro : gmap string pyval) : gmap string pyval :=
  fold_left padroniza_step STANDARD_COLUMNS registro.

(** [pd.DataFrame(records).reindex(columns=STANDARD_COLUMNS)]: one row
    per record, holding the standard columns of the record.  (A column
    that no record has would be filled with NaN; after
    [padroniza_registro] there is none.) *)
Definition reindex_row (registro : gmap string pyval) : gmap string pyval :=
  list_to_map (omap (fun c => match registro !! c with
                              | Some v => Some (c, v)
                              | None => None
                              end) STANDARD_COLUMNS).

Definition DataFrame (records : list (gmap string pyval)) : list (gmap string pyval) :=
  map reindex_row records.

(** [df.empty] *)
Definition empty (df : list (gmap string pyval)) : bool :=
  match df with [] => true | _ => false end.

End Columns.

Export Columns.

(** ** The library function [html.unescape]

    The development is parametric in it wherever it is used and relies
    on one fact only, the first line of the library function:
    [if '&' not in s: return s].  For closed examples, [Html.unescape]
    follows the library on named character references
    ([&name;] or [&name], longest known prefix first) over an excerpt of
    its entity table.  It is not the library function on other texts:
    a named reference outside the excerpt and a numeric reference
    ([&#38;], [&#x26;]) are left as written, where the library decodes
    them; the examples use the references of the excerpt only. *)

Module Html.

Import PyStr.

Definition html5_excerpt : list (string * string) := [
  ("amp;", "&"); ("amp", "&"); ("lt;", "<"); ("lt", "<"); ("gt;", ">"); ("gt", ">");
  ("quot;", String dquote EmptyString); ("quot", String dquote EmptyString);
  ("apos;", "'"); ("nbsp;", String (ascii_of_N 160) EmptyString);
  ("nbsp", String (ascii_of_N 160) EmptyString)
].

Fixpoint assoc (k : string) (t : list (string * string)) : option string :=
  match t with
  | [] => None
  | (k', v) :: t' => if String.eqb k k' then Some v else assoc k t'
  end.

(** The characters of a reference name: [[^\t\n\f <&#;]] *)
Definition name_char (c : ascii) : bool :=
  let n := code c in
  negb ((n =? 9) || (n =? 10) || (n =? 12) || (n =? 32) || (n =? 60) || (n =? 38)
        || (n =? 35) || (n =? 59))%N.

(** The longest prefix of [s] of at most [n] name characters, and the
    rest of [s]. *)
Fixpoint take_name (n : nat) (s : string) : string * string :=
  match n, s with
  | S n', String a s' =>
    if name_char a then let '(w, r) := take_name n' s' in (String a w, r)
    else (EmptyString, s)
  | _, _ => (EmptyString, s)
  end.

(** [for x in range(len(s)-1, 1, -1): if s[:x] in html5: return html5[s[:x]] + s[x:]] *)
Fixpoint longest_prefix (x : nat) (s : string) : option string :=
  match x with
  | O | 1 => None
  | S x' =>
    match assoc (substring 0 x s) html5_excerpt with
    | Some v => Some (v +:+ substring x (String.length s - x) s)
    | None => longest_prefix x' s
    end
  end.

Definition replace_charref (s : string) : string :=
  match assoc s html5_excerpt with
  | Some v => v
  | None =>
    match longest_prefix (String.length s - 1) s with
    | Some r => r
    | None => String "&" s
    end
  end.

Fixpoint unescape_go (fuel : nat) (s : string) : string :=
  match fuel with
  | O => s
  | S fuel' =>
    match s with
    | EmptyString => EmptyString
    | String a s' =>
      if chr_eqb a "&" then
        match take_name 32 s' with
        | (EmptyString, _) => String a (unescape_go fuel' s')
        | (name, String ";" rest) => replace_charref (name +:+ ";") +:+ unescape_go fuel' rest
        | (name, rest) => replace_charref name +:+ unescape_go fuel' rest
        end
      else String a (unescape_go fuel' s')
    end
  end.

Definition unescape (s : string) : string :=
  if contains_char "&" s then unescape_go (String.length s) s else s.

End Html.

(** ** src/revsys/clients/crossref.py *)

Module Crossref.

Import PyStr.

(** [re.sub(r'<[^>]+>', '', s)].  [until_gt s] splits [s] at its first
    ['>']: the text before it and the text after it. *)
Fixpoint until_gt (s : string) : option (string * string) :=
  match s with
  | EmptyString => None
  | String a s' =>
    if chr_eqb a ">" then Some (EmptyString, s')
    else match until_gt s' with
         | Some (body, tail) => Some (String a body, tail)
         | None => None
         end
  end.

(** A match starts at a ['<'] that is followed by at least one character
    other than ['>'] and then by a ['>']; the scan goes on after the
    match.  A match is at least three characters long, so [fuel] equal
    to the length of the text is enough. *)
Fixpoint strip_tags_go (fuel : nat) (s : string) : string :=
  match fuel with
  | O => s
  | S fuel' =>
    match s with
    | EmptyString => EmptyString
    | String a s' =>
      if chr_eqb a "<" then
        match until_gt s' with
        | Some (String _ _, tail) => strip_tags_go fuel' tail
        | _ => String a (strip_tags_go fuel' s')
        end
      else String a (strip_tags_go fuel' s')
    end
  end.

Definition strip_tags (s : string) : string := strip_tags_go (String.length s) s.

(** [re.sub(r'\s+', ' ', s)]: the first character of a run of whitespace
    is replaced by a space, the rest of the run is dropped. *)
Fixpoint collapse_go (in_run : bool) (s : string) : string :=
  match s with
  | EmptyString => EmptyString
  | String a s' =>
    if isspace a then
      if in_run then collapse_go true s' else String " " (collapse_go true s')
    else String a (collapse_go false s')
  end.

Definition collapse_ws (s : string) : string := collapse_go false s.

Section WithUnescape.

(** [html.unescape] *)
Variable unescape : string -> string.

(** Lines 124-137 of [process_data]: the abstract of an item. *)
Definition clean_abstract (raw_abstract : pyval) : string :=
  match raw_abstract with
  | PStr raw =>
    if negb (String.eqb (strip raw) "") && negb (upper_is (strip raw) "N/A")
    then strip (collapse_ws (unescape (strip_tags raw)))
    else "N/A"
  | _ => "N/A"
  end.

(** [f"{given} {family}".strip()] of one author *)
Definition full_name (author : pyval) : result string :=
  given ← get author "given" (PStr "");
  family ← get author "family" (PStr "");
  Ok (strip (str given +:+ " " +:+ str family)).

(** The non-empty full names of the authors, in order *)
Definition author_names (authors_data : pyval) : result (list string) :=
  authors ← iter authors_data;
  names ← mapM full_name authors;
  Ok (List.filter (fun n => negb (String.eqb n "")) names).

(** [name.split()[-1]] *)
Definition last_token (name : string) : result string := last (split_ws name).

(** [CrossrefAPI._format_authors_year] *)
Definition _format_authors_year (authors_data : pyval) (pub_year : string) : result string :=
  if negb (truthy authors_data) then Ok ("Unknown " +:+ pub_year)
  else
    names ← author_names authors_data;
    match names with
    | [] => Ok pub_year
    | [n] =>
      last_name ← last_token n;
      Ok (last_name +:+ " " +:+ pub_year)
    | [n1; n2] =>
      last_name1 ← last_token n1;
      last_name2 ← last_token n2;
      Ok (last_name1 +:+ " and " +:+ last_name2 +:+ " " +:+ pub_year)
    | n1 :: _ =>
      last_name ← last_token n1;
      Ok (last_name +:+ " et al. " +:+ pub_year)
    end.

(** [v[0] if v else "N/A"] *)
Definition first_or_na (v : pyval) : result pyval :=
  if truthy v then getitem0 v else Ok NA.

(** [issued and len(issued) > 0 and len(issued[0]) > 0] *)
Definition has_date_parts (issued : pyval) : result bool :=
  if negb (truthy issued) then Ok false
  else
    n ← len issued;
    if negb (0 <? n) then Ok false
    else
      first_parts ← getitem0 issued;
      m ← len first_parts;
      Ok (0 <? m).

(** The publication year and date of an item *)
Definition pub_year_date (issued : pyval) : result (string * string) :=
  dated ← has_date_parts issued;
  if dated : bool then
    first_parts ← getitem0 issued;
    year ← getitem0 first_parts;
    parts ← iter first_parts;
    Ok (str year, join "-" (map str parts))
  else Ok ("N/A", "N/A").

(** [license_info and isinstance(license_info, list) and len(license_info) > 0] *)
Definition has_license (license_info : pyval) : result bool :=
  if negb (truthy license_info) then Ok false
  else if negb (is_list license_info) then Ok false
  else n ← len license_info; Ok (0 <? n).

(** The body of the loop of [CrossrefAPI.process_data]: the record of
    one item. *)
Definition process_item (item : pyval) : result (gmap string pyval) :=
  doi ← get item "DOI" NA;
  title_list ← get item "title" (PList []);
  title ← first_or_na title_list;
  container_list ← get item "container-title" (PList []);
  journal ← first_or_na container_list;
  issued_obj ← get item "issued" (PDict []);
  issued ← get issued_obj "date-parts" (PList []);
  '(pub_year, pub_date) ← pub_year_date issued;
  authors_data ← get item "author" (PList []);
  authors_list ← (if truthy authors_data then author_names authors_data else Ok []);
  let authors := match authors_list with [] => "N/A" | _ => join ", " authors_list end in
  authors_year ← _format_authors_year authors_data pub_year;
  raw_abstract ← get item "abstract" (PStr "");
  let abstract := clean_abstract raw_abstract in
  language ← get item "language" NA;
  let is_accepted := "N/A" in
  let is_published := if negb (String.eqb pub_date "N/A") then "Yes" else "No" in
  type_val ← get item "type" NA;
  let type_crossref := type_val in
  let indexed_in := "Crossref" in
  license_info ← get item "license" (PList []);
  licensed ← has_license license_info;
  let '(is_oa, oa_status) :=
    if licensed : bool then ("Yes", "License available") else ("N/A", "N/A") in
  download_url ← get item "URL" NA;
  cited_by_count ← get item "is-referenced-by-count" NA;
  let registro : gmap string pyval := list_to_map [
    ("ID", doi);
    ("Authors", PStr authors);
    ("Authors Year", PStr authors_year);
    ("Title", title);
    ("Journal", journal);
    ("Publication Year", PStr pub_year);
    ("Publication Date", PStr pub_date);
    ("Abstract", PStr abstract);
    ("DOI", doi);
    ("Language", language);
    ("Is Accepted", PStr is_accepted);
    ("Is Published", PStr is_published);
    ("Type", type_val);
    ("Type Crossref", type_crossref);
    ("Indexed In", PStr indexed_in);
    ("Is Open Access", PStr is_oa);
    ("OA Status", PStr oa_status);
    ("Download URL", download_url);
    ("Cited By Count", cited_by_count);
    ("API", PStr "crossref")
  ] in
  Ok (padroniza_registro registro).

(** [CrossrefAPI.process_data] *)
Definition process_data (data : pyval) : result (list (gmap string pyval)) :=
  message ← get data "message" (PDict []);
  items_val ← get message "items" (PList []);
  items ← iter items_val;
  mapM process_item items.

(** [offset >= total_results]: [total_results] has to be a number. *)
Definition as_int (v : pyval) : result Z :=
  match v with
  | PInt z => Ok z
  | PBool b => Ok (if b then 1 else 0)%Z
  | _ => Raise TypeError
  end.

(** [l[:n]] *)
Definition slice_to {A} (n : Z) (l : list A) : list A :=
  if (0 <=? n)%Z then firstn (Z.to_nat n) l
  else firstn (List.length l - Z.to_nat (- n)) l.

(** [max_records and len(all_records) >= max_records] *)
Definition reached (max_records : option Z) (n : nat) : bool :=
  match max_records with
  | Some m => negb (m =? 0)%Z && (m <=? Z.of_nat n)%Z
  | None => false
  end.

(** The loop of [CrossrefAPI.run_pipeline].  [fetch_data offset] is the
    answer of the service to the request at [offset] (the call may
    raise); [rows] is [self.rows].  [None] when [fuel] iterations of
    [while True] were not enough. *)
Fixpoint run_pipeline_loop (fuel : nat) (fetch_data : Z -> result pyval) (rows : Z)
    (max_records : option Z) (offset : Z) (all_records : list (gmap string pyval))
    : option (result (list (gmap string pyval))) :=
  match fuel with
  | O => None
  | S fuel' =>
    match fetch_data offset with
    | Raise e => Some (Raise e)
    | Ok data =>
      match process_data data with
      | Raise e => Some (Raise e)
      | Ok [] => Some (Ok all_records)
      | Ok records =>
        let all_records := all_records ++ records in
        if reached max_records (List.length all_records) then
          Some (Ok (match max_records with
                    | Some m => slice_to m all_records
                    | None => all_records
                    end))
        else
          match (message ← get data "message" (PDict []);
                 total ← get message "total-results" (PInt 0);
                 as_int total) with
          | Raise e => Some (Raise e)
          | Ok total_results =>
            let offset := (offset + rows)%Z in
            if (total_results <=? offset)%Z then Some (Ok all_records)
            else run_pipeline_loop fuel' fetch_data rows max_records offset all_records
          end
      end
    end
  end.

(** [CrossrefAPI(rows=rows).run_pipeline(query, max_records, ...)] *)
Definition run_pipeline (fuel : nat) (fetch_data : Z -> result pyval) (rows : Z)
    (max_records : option Z) : option (result (list (gmap string pyval))) :=
  match run_pipeline_loop fuel fetch_data rows max_records 0 [] with
  | Some (Ok all_records) => Some (Ok (DataFrame all_records))
  | r => r
  end.

End WithUnescape.

End Crossref.

(** ** src/revsys/clients/scopus.py *)

Module Scopus.

Import PyStr.

(** [v.split(sep)], a method of [str] only *)
Definition split_method (v : pyval) (sep : ascii) : result (list string) :=
  match v with
  | PStr s => Ok (split_on sep s)
  | _ => Raise AttributeError
  end.

(** The body of the [for result in entries] loop of
    [ScopusFetcher.fetch_references]: the record of one entry. *)
Definition process_entry (entry : pyval) : result (gmap string pyval) :=
  title ← get entry "dc:title" NA;
  authors ← get entry "dc:creator" NA;
  cover_date ← get entry "prism:coverDate" NA;
  publication_year ←
    (if ne_str cover_date "N/A" then fields ← split_method cover_date "-"; first fields
     else Ok "N/A");
  doi ← get entry "prism:doi" NA;
  journal ← get entry "prism:publicationName" NA;
  eid ← get entry "eid" NA;
  abstract ← get entry "dc:description" NA;
  cited_by_count ← get entry "citedby-count" NA;
  first_author ←
    (if ne_str authors "N/A" then fields ← split_method authors ","; a ← first fields; Ok (strip a)
     else Ok "unknown");
  let authors_year := first_author +:+ " " +:+ publication_year in
  let language := "N/A" in
  let is_accepted := "N/A" in
  let is_published := if ne_str journal "N/A" then "Yes" else "No" in
  let type_ := "Scopus" in
  let type_crossref := "N/A" in
  let indexed_in := "Scopus" in
  let is_oa := "N/A" in
  let oa_status := "N/A" in
  let download_url := "N/A" in
  let registro : gmap string pyval := list_to_map [
    ("ID", eid);
    ("Authors", authors);
    ("Authors Year", PStr authors_year);
    ("Title", title);
    ("Journal", journal);
    ("Publication Year", PStr publication_year);
    ("Publication Date", cover_date);
    ("Abstract", abstract);
    ("DOI", doi);
    ("Language", PStr language);
    ("Is Accepted", PStr is_accepted);
    ("Is Published", PStr is_published);
    ("Type", PStr type_);
    ("Type Crossref", PStr type_crossref);
    ("Indexed In", PStr indexed_in);
    ("Is Open Access", PStr is_oa);
    ("OA Status", PStr oa_status);
    ("Download URL", PStr download_url);
    ("Cited By Count", cited_by_count);
    ("API", PStr "scopus")
  ] in
  Ok (padroniza_registro registro).

(** The loop of [ScopusFetcher.fetch_references].  [_fetch_scopus_page
    start] is the outcome of the decorated page request at offset
    [start]; the request no longer sends [count] (the parameter is
    commented out), so the service chooses the size of the page. *)
Fixpoint fetch_references_loop (fuel : nat) (_fetch_scopus_page : Z -> result pyval)
    (count : Z) (start : Z) (all_articles : list (gmap string pyval))
    : option (result (list (gmap string pyval))) :=
  match fuel with
  | O => None
  | S fuel' =>
    match _fetch_scopus_page start with
    | Raise _ => Some (Ok all_articles)
    | Ok data =>
      match (results ← get data "search-results" (PDict []);
             get results "entry" (PList [])) with
      | Raise e => Some (Raise e)
      | Ok entries =>
        if negb (truthy entries) then Some (Ok all_articles)
        else
          match (es ← iter entries; mapM process_entry es) with
          | Raise e => Some (Raise e)
          | Ok registros =>
            let all_articles := all_articles ++ registros in
            match len entries with
            | Raise e => Some (Raise e)
            | Ok n =>
              if (Z.of_nat n <=? count)%Z then Some (Ok all_articles)
              else fetch_references_loop fuel' _fetch_scopus_page count (start + count)%Z
                     all_articles
            end
          end
      end
    end
  end.

(** [ScopusFetcher.fetch_references(query, count, date_research)] *)
Definition fetch_references (fuel : nat) (_fetch_scopus_page : Z -> result pyval)
    (count : Z) : option (result (list (gmap string pyval))) :=
  match fetch_references_loop fuel _fetch_scopus_page count 0 [] with
  | Some (Ok all_articles) => Some (Ok (DataFrame all_articles))
  | r => r
  end.

End Scopus.

(** ** src/revsys/clients/pubmed_api.py *)

Module PubMed.

Import PyStr.


(** One [<ArticleId IdType="...">text</ArticleId>] element: the
    attribute (if present) and the text (if any). *)
Record ArticleId : Type := {
  IdType : option string;
  text : option string
}.

(** Lines 411-423 of [_parse_pubmed_article]: the last [ArticleId] of
    type "pmc" gives [pmc_id]; [is_oa = bool(pmc_id)]. *)
Definition pmc_step (pmc_id : option string) (article_id : ArticleId) : option string :=
  let id_type := lower (match IdType article_id with Some t => t | None => "" end) in
  if String.eqb id_type "pmc" then text article_id else pmc_id.

Definition pmc_id_of (article_ids : list ArticleId) : option string :=
  fold_left pmc_step article_ids (Some "").

Definition is_oa_of (article_ids : list ArticleId) : bool :=
  match pmc_id_of article_ids with
  | Some s => negb (String.eqb s "")
  | None => false
  end.

(** [v.lower()], a method of [str] only *)
Definition lower_method (v : pyval) : result string :=
  match v with
  | PStr s => Ok (lower s)
  | _ => Raise AttributeError
  end.

(** The body of the loop of [PubMedAPI._parse_data]: the record of one
    parsed article.  ([reference_vancouver] is computed from further
    [entry.get] calls and not used.) *)
Definition parse_entry (entry : pyval) : result (gmap string pyval) :=
  pmid ← get entry "pmid" (PStr "");
  doi ← get entry "doi" (PStr "");
  let final_id := if truthy doi then doi else pmid in
  authors_str ← get entry "authors_str" (PStr "");
  authors_year ← get entry "authors_year" (PStr "");
  title_str ← get entry "title" (PStr "");
  journal ← get entry "journal" (PStr "");
  pub_year ← get entry "year" (PStr "");
  pub_date ← get entry "publication_date" (PStr "");
  abstract ← get entry "abstract" (PStr "");
  status ← get entry "publication_status" (PStr "");
  pub_status ← lower_method status;
  let is_published :=
    if existsb (String.eqb pub_status) ["epublish"; "ppublish"; "pubmed"; "medline"]
    then "Yes" else "No" in
  is_oa ← get entry "is_oa" (PBool false);
  let oa_status := if truthy is_oa then "PMC - Possibly OA" else "N/A" in
  download_url ← get entry "download_url" (PStr "");
  language ← get entry "language" NA;
  content_type ← get entry "contentType" NA;
  let registro : gmap string pyval := list_to_map [
    ("ID", final_id);
    ("Authors", authors_str);
    ("Authors Year", authors_year);
    ("Title", title_str);
    ("Journal", journal);
    ("Publication Year", pub_year);
    ("Publication Date", pub_date);
    ("Abstract", abstract);
    ("DOI", doi);
    ("Language", language);
    ("Is Accepted", PStr "N/A");
    ("Is Published", PStr is_published);
    ("Type", PStr "article");
    ("Type Crossref", content_type);
    ("Indexed In", PStr "PubMed");
    ("Is Open Access", PStr (if truthy is_oa then "Yes" else "No"));
    ("OA Status", PStr oa_status);
    ("Download URL", download_url);
    ("Cited By Count", PInt 0);
    ("API", PStr "pubmed")
  ] in
  Ok (padroniza_registro registro).

(** [PubMedAPI._parse_data] *)
Definition _parse_data (raw_data : list pyval) : result (list (gmap string pyval)) :=
  records ← mapM parse_entry raw_data;
  Ok (DataFrame records).

End PubMed.

(** ** src/revsys/clients/springernature.py *)

Module SpringerNature.

Import PyStr.

(** ["," in nome_completo] and the two branches after it: a [str] is
    split or stripped; [None] and numbers have no [in]; a list or dict
    has [in] but neither [split] nor [strip]. *)
Definition surname (nome_completo : pyval) : result string :=
  match nome_completo with
  | PStr s =>
    if contains_char "," s then a ← first (split_on "," s); Ok (strip a)
    else Ok (strip s)
  | PList _ | PDict _ => Raise AttributeError
  | _ => Raise TypeError
  end.

(** [SpringerNature._format_authors_year] *)
Definition _format_authors_year (creators : pyval) (publication_date : pyval) : result string :=
  year ← (if truthy publication_date
          then fields ← Scopus.split_method publication_date "-"; first fields
          else Ok "");
  cs ← iter creators;
  surnames ← mapM (fun creator => nome ← get creator "creator" (PStr ""); surname nome) cs;
  match surnames with
  | [] => Ok year
  | [s] => Ok (s +:+ " " +:+ year)
  | [s1; s2] => Ok (s1 +:+ " and " +:+ s2 +:+ " " +:+ year)
  | s1 :: _ => Ok (s1 +:+ " et al. " +:+ year)
  end.

(** [", ".join([creator.get("creator", "") for creator in creators]) if creators else "N/A"] *)
Definition authors_of (creators : pyval) : result string :=
  if truthy creators then
    cs ← iter creators;
    names ← mapM (fun creator => get creator "creator" (PStr "")) cs;
    join_vals ", " names
  else Ok "N/A".

(** [pub_date.split("-")[0] if pub_date != "N/A" and "-" in pub_date else "N/A"] *)
Definition publication_year_of (pub_date : pyval) : result pyval :=
  if ne_str pub_date "N/A" then
    dashed ← contains_key "-" pub_date;
    if dashed : bool then
      fields ← Scopus.split_method pub_date "-"; y ← first fields; Ok (PStr y)
    else Ok NA
  else Ok NA.

(** [url_list[0].get("value") if url_list and isinstance(url_list, list)
    and "value" in url_list[0] else "N/A"] *)
Definition download_url_of (url_list : pyval) : result pyval :=
  if truthy url_list && is_list url_list then
    u ← getitem0 url_list;
    valued ← contains_key "value" u;
    if valued : bool then get_none u "value" else Ok NA
  else Ok NA.

(** The body of the loop of [SpringerNature.process_data]: the record of
    one [rec]. *)
Definition process_record (rec : pyval) : result (gmap string pyval) :=
  creators ← get rec "creators" (PList []);
  authors_str ← authors_of creators;
  pub_date ← get rec "publicationDate" NA;
  authors_year ←
    (if ne_str pub_date "N/A" then s ← _format_authors_year creators pub_date; Ok (PStr s)
     else Ok NA);
  publication_year ← publication_year_of pub_date;
  url_list ← get rec "url" (PList []);
  download_url ← download_url_of url_list;
  openaccess ← get rec "openaccess" (PStr "false");
  let is_oa := String.eqb (lower (str openaccess)) "true" in
  doi ← get rec "doi" NA;
  title ← get rec "title" NA;
  journal ← get rec "publicationName" NA;
  abstract ← get rec "abstract" NA;
  language ← get rec "language" NA;
  content_type ← get rec "contentType" NA;
  let registro : gmap string pyval := list_to_map [
    ("ID", doi);
    ("Authors", PStr authors_str);
    ("Authors Year", authors_year);
    ("Title", title);
    ("Journal", journal);
    ("Publication Year", publication_year);
    ("Publication Date", pub_date);
    ("Abstract", abstract);
    ("DOI", doi);
    ("Language", language);
    ("Is Accepted", NA);
    ("Is Published", NA);
    ("Type", content_type);
    ("Type Crossref", content_type);
    ("Indexed In", PStr "SpringerNature");
    ("Is Open Access", PStr (if is_oa then "Yes" else "No"));
    ("OA Status", NA);
    ("Download URL", download_url);
    ("Cited By Count", NA);
    ("API", PStr "springernature")
  ] in
  Ok (padroniza_registro registro).

(** [SpringerNature.process_data] *)
Definition process_data (data : pyval) : result (list (gmap string pyval)) :=
  records_val ← get data "records" (PList []);
  records ← iter records_val;
  mapM process_record records.

End SpringerNature.

(** ** src/revsys/clients/scholar.py *)

Module Scholar.

Import PyStr.

(** [authors_str.split(',')[0].split()[-1]] *)
Definition first_author_last (authors_str : pyval) : result string :=
  fields ← Scopus.split_method authors_str ",";
  a ← first fields;
  last (split_ws a).

(** One pass through the body of the loop of [ScholarClient.search].
    [url] is the local variable of that name: unbound ([None]) until a
    publication with a ['pub_url'] has been seen, and kept from an
    earlier publication when the current one has none
    ([try: url = pub['pub_url'] / except: pass]). *)
Definition process_pub (url : option pyval) (pub : pyval)
    : result (gmap string pyval * option pyval) :=
  bib ← getitem pub "bib";
  title ← getitem bib "title";
  authors ← getitem bib "author";
  authors_str ←
    (match authors with
     | PList l => s ← join_vals ", " l; Ok (PStr s)
     | _ => Ok (if truthy authors then authors else NA)
     end);
  pub_year ← getitem bib "pub_year";
  let year := str pub_year in
  abstract ← getitem bib "abstract";
  journal ← getitem bib "venue";
  let url := match getitem pub "pub_url" with Ok u => Some u | Raise _ => url end in
  cited_count ← getitem pub "num_citations";
  authors_year ←
    (if truthy authors_str && negb (String.eqb year "N/A")
     then l ← first_author_last authors_str; Ok (l +:+ " " +:+ year)
     else Ok ("N/A " +:+ year));
  download_url ← (match url with Some u => Ok u | None => Raise UnboundLocalError end);
  let registro : gmap string pyval := list_to_map [
    ("Authors", authors_str);
    ("Authors Year", PStr authors_year);
    ("Title", title);
    ("Journal", journal);
    ("Publication Year", PStr year);
    ("Publication Date", PStr year);
    ("Abstract", abstract);
    ("Language", NA);
    ("Is Accepted", NA);
    ("Is Published", PStr (if negb (String.eqb year "N/A") then "Yes" else "No"));
    ("Type", PStr "scholar");
    ("Type Crossref", NA);
    ("Indexed In", PStr "Google Scholar");
    ("Is Open Access", NA);
    ("OA Status", NA);
    ("Download URL", download_url);
    ("Cited By Count", cited_count);
    ("API", PStr "scholar")
  ] in
  Ok (padroniza_registro registro, url).

(** [for idx, pub in enumerate(generator): if idx >= max_records: break; ...] *)
Fixpoint search_loop (generator : list pyval) (idx : Z) (max_records : Z)
    (url : option pyval) : result (list (gmap string pyval)) :=
  match generator with
  | [] => Ok []
  | pub :: rest =>
    if (max_records <=? idx)%Z then Ok []
    else
      '(registro, url) ← process_pub url pub;
      records ← search_loop rest (idx + 1)%Z max_records url;
      Ok (registro :: records)
  end.

(** [ScholarClient.search(query, max_records)]; [generator] is what
    [scholarly.search_pubs(query)] yields. *)
Definition search (generator : list pyval) (max_records : Z) : result (list (gmap string pyval)) :=
  records ← search_loop generator 0 max_records None;
  Ok (DataFrame records).

End Scholar.

(** ** src/revsys/clients/openalex.py *)

Module OpenAlex.

Import PyStr.

(** *** [words.sort(key=lambda x: x[0])]

    A stable sort by position.  Sorting fewer than two words compares
    nothing.  Otherwise the positions have to be comparable with [<]:
    all integers, or all strings; anything else is reported as
    [TypeError] (positions that are lists are not modelled). *)
Fixpoint insert_by {K A} (leb : K -> K -> bool) (x : K * A) (l : list (K * A)) : list (K * A) :=
  match l with
  | [] => [x]
  | y :: l' => if leb (fst x) (fst y) then x :: l else y :: insert_by leb x l'
  end.

Definition sort_by {K A} (leb : K -> K -> bool) (l : list (K * A)) : list (K * A) :=
  fold_right (insert_by leb) [] l.

Definition str_leb (a b : string) : bool :=
  match String.compare a b with
  | Gt => false
  | _ => true
  end.

Definition int_key (w : pyval * string) : option (Z * string) :=
  match fst w with
  | PInt z => Some (z, snd w)
  | PBool b => Some ((if b then 1 else 0)%Z, snd w)
  | _ => None
  end.

Definition str_key (w : pyval * string) : option (string * string) :=
  match fst w with
  | PStr s => Some (s, snd w)
  | _ => None
  end.

Fixpoint all_some {A B} (f : A -> option B) (l : list A) : option (list B) :=
  match l with
  | [] => Some []
  | x :: l' =>
    match f x, all_some f l' with
    | Some y, Some ys => Some (y :: ys)
    | _, _ => None
    end
  end.

Definition sorted_words (words : list (pyval * string)) : result (list string) :=
  match words with
  | [] | [_] => Ok (map snd words)
  | _ =>
    match all_some int_key words with
    | Some ws => Ok (map snd (sort_by Z.leb ws))
    | None =>
      match all_some str_key words with
      | Some ws => Ok (map snd (sort_by str_leb ws))
      | None => Raise TypeError
      end
    end
  end.

(** [inverted_index.items()], a method of [dict] only *)
Definition items (v : pyval) : result (list (string * pyval)) :=
  match v with
  | PDict d => Ok d
  | _ => Raise AttributeError
  end.

(** [PyAlexFetcher._convert_inverted_index] *)
Definition _convert_inverted_index (inverted_index : pyval) : result string :=
  its ← items inverted_index;
  words ← mapM (fun it : string * pyval =>
                  positions ← iter (snd it);
                  Ok (map (fun pos => (pos, fst it)) positions)) its;
  ordered_words ← sorted_words (concat words);
  Ok (join " " ordered_words).

(** ["k" in w and w["k"]]: is the key there with a truthy value? *)
Definition has_truthy (k : string) (w : pyval) : result bool :=
  present ← contains_key k w;
  if present : bool then v ← getitem w k; Ok (truthy v) else Ok false.

(** Lines 59-65 of [_process_works]: the abstract of a work, or [None]
    where the loop goes on to the next work ([continue]). *)
Definition abstract_of (w : pyval) : result (option pyval) :=
  direct ← has_truthy "abstract" w;
  if direct : bool then a ← getitem w "abstract"; Ok (Some a)
  else
    inverted ← has_truthy "abstract_inverted_index" w;
    if inverted : bool then
      idx ← getitem w "abstract_inverted_index";
      a ← _convert_inverted_index idx;
      Ok (Some (PStr a))
    else Ok None.

(** [v.split(sep)[-1]] *)
Definition last_field (v : pyval) (sep : ascii) : result string :=
  fields ← Scopus.split_method v sep; last fields.

(** [sep.join(v)] for any iterable [v] *)
Definition join_iter (sep : string) (v : pyval) : result string :=
  l ← iter v; join_vals sep l.

(** Lines 80-90: the "Authors Year" field, from the display names *)
Definition authors_year_of (authors_list_ : list pyval) (publication_year : pyval) : string :=
  match authors_list_ with
  | [] => "N/A " +:+ str publication_year
  | [first_author] => str first_author +:+ " " +:+ str publication_year
  | [first_author; second_author] =>
    str first_author +:+ " and " +:+ str second_author +:+ " " +:+ str publication_year
  | first_author :: _ => str first_author +:+ " et al. " +:+ str publication_year
  end.

(** [x or ""] *)
Definition or_empty (v : pyval) : pyval := if truthy v then v else PStr "".

(** The rest of the body of the loop, for a work with an abstract *)
Definition work_record (w : pyval) (abstract : pyval) : result (gmap string pyval) :=
  id ← getitem w "id";
  unique_id ← last_field id "/";
  publication_year ← get w "publication_year" NA;
  publication_date ← get w "publication_date" NA;
  doi ← get w "doi" NA;
  language ← get w "language" NA;
  authored ← contains_key "authorships" w;
  authors_list_ ←
    (if authored : bool then
       authorships ← getitem w "authorships";
       l ← iter authorships;
       mapM (fun a => author ← getitem a "author"; getitem author "display_name") l
     else Ok []);
  authors_str ←
    (match authors_list_ with
     | [] => Ok "N/A"
     | _ => join_vals ", " authors_list_
     end);
  let authors_year := authors_year_of authors_list_ publication_year in
  title ← get w "display_name" NA;
  location ← get_none w "primary_location";
  journal ←
    (if truthy location then
       source ← get_none location "source";
       if truthy source then
         loc ← getitem w "primary_location";
         src ← getitem loc "source";
         get src "display_name" NA
       else Ok (PStr "")
     else Ok (PStr ""));
  primary ← get w "primary_location" (PDict []);
  is_accepted ← get primary "is_accepted" NA;
  is_published ← get primary "is_published" NA;
  pdf_url ← get primary "pdf_url" (PStr "");
  let download_url := or_empty pdf_url in
  best_oa ← get_none w "best_oa_location";
  download_url ←
    (if negb (truthy download_url) && truthy best_oa then get best_oa "pdf_url" (PStr "")
     else Ok download_url);
  type_ ← get w "type" NA;
  type_crossref ← get w "type_crossref" NA;
  indexed_in ← get w "indexed_in" (PList []);
  indexed_in_str ← (if truthy indexed_in then join_iter ", " indexed_in else Ok "N/A");
  oa_info ← get w "open_access" (PDict []);
  is_oa ← get oa_info "is_oa" (PBool false);
  oa_status ← get oa_info "oa_status" NA;
  cited_by_count ← get w "cited_by_count" NA;
  let registro : gmap string pyval := list_to_map [
    ("ID", PStr unique_id);
    ("Authors", PStr authors_str);
    ("Authors Year", PStr authors_year);
    ("Title", title);
    ("Journal", journal);
    ("Publication Year", publication_year);
    ("Publication Date", publication_date);
    ("Abstract", abstract);
    ("DOI", doi);
    ("Language", language);
    ("Is Accepted", is_accepted);
    ("Is Published", is_published);
    ("Type", type_);
    ("Type Crossref", type_crossref);
    ("Indexed In", PStr indexed_in_str);
    ("Is Open Access", PStr (if truthy is_oa then "Yes" else "No"));
    ("OA Status", oa_status);
    ("Download URL", download_url);
    ("Cited By Count", cited_by_count);
    ("API", PStr "openalex")
  ] in
  Ok (padroniza_registro registro).

(** One pass through the body of the loop: the record of the work, or
    [None] where the work was skipped. *)
Definition process_work (w : pyval) : result (option (gmap string pyval)) :=
  abstract ← abstract_of w;
  match abstract with
  | None => Ok None
  | Some a => registro ← work_record w a; Ok (Some registro)
  end.

(** The loop of [PyAlexFetcher._process_works]: the list [rows] *)
Fixpoint rows_of (works_list : list pyval) : result (list (gmap string pyval)) :=
  match works_list with
  | [] => Ok []
  | w :: rest =>
    r ← process_work w;
    rows ← rows_of rest;
    Ok (match r with Some registro => registro :: rows | None => rows end)
  end.

(** [PyAlexFetcher._process_works]: an empty frame when there is no
    row, the frame of the rows otherwise. *)
Definition _process_works (works_list : list pyval) : result (list (gmap string pyval)) :=
  rows ← rows_of works_list;
  match rows with
  | [] => Ok []
  | _ => Ok (DataFrame rows)
  end.

End OpenAlex.

(** ** src/revsys/cli.py: the [search] command *)

Module Cli.

(** The cells that [drop_duplicates(subset=['DOI', 'Title'])] compares *)
Definition key (row : gmap string pyval) : option pyval * option pyval :=
  (row !! "DOI", row !! "Title").

Definition cell_eqb (a b : option pyval) : bool :=
  match a, b with
  | Some x, Some y => pyval_eqb x y
  | None, None => true
  | _, _ => false
  end.

Definition key_eqb (k1 k2 : option pyval * option pyval) : bool :=
  cell_eqb (fst k1) (fst k2) && cell_eqb (snd k1) (snd k2).

(** [df.drop_duplicates(subset=['DOI', 'Title'], keep='first')]: a row
    is dropped when an earlier row has the same two cells. *)
Fixpoint drop_duplicates_go (seen : list (option pyval * option pyval))
    (df : list (gmap string pyval)) : list (gmap string pyval) :=
  match df with
  | [] => []
  | row :: df' =>
    if existsb (key_eqb (key row)) seen then drop_duplicates_go seen df'
    else row :: drop_duplicates_go (key row :: seen) df'
  end.

Definition drop_duplicates (df : list (gmap string pyval)) : list (gmap string pyval) :=
  drop_duplicates_go [] df.

(** [pd.concat(df_list, ignore_index=True)] *)
Definition pd_concat (df_list : list (list (gmap string pyval))) : list (gmap string pyval) :=
  concat df_list.

Definition known_sources : list string :=
  ["arxiv"; "crossref"; "openalex"; "plos"; "pubmed"; "scopus"; "springernature";
   "scholar"; "ieee"].

(** What [click.echo] printed *)
Inductive echo : Type :=
| Searching (src : string)
| UnknownSource (src : string)
| ErrorSearching (src : string) (e : exn)
| Saved (n : nat)
| NoRecordsFound.

(** The local variable [df_list], the file at [output] (if written)
    and the messages so far *)
Record state : Type := State {
  df_list : list (list (gmap string pyval));
  csv : option (list (gmap string pyval));
  echoed : list echo
}.

Section Search.

(** [adapter qry src]: the call of the adapter of the source [src] for
    the query [qry] with the options of the command line (lines 52-115),
    which returns a frame or raises. *)
Variable adapter : string -> string -> result (list (gmap string pyval)).

(** Lines 50-123: one source.  Any [Exception] is caught and reported;
    an empty frame of Crossref is turned into a [ValueError] first. *)
Definition search_source (qry : string) (st : state) (src : string) : state :=
  let st := State (df_list st) (csv st) (echoed st ++ [Searching src]) in
  if negb (existsb (String.eqb src) known_sources) then
    State (df_list st) (csv st) (echoed st ++ [UnknownSource src])
  else
    let attempt :=
      df ← adapter qry src;
      if String.eqb src "crossref" && empty df then Raise ValueError else Ok df in
    match attempt with
    | Raise e => State (df_list st) (csv st) (echoed st ++ [ErrorSearching src e])
    | Ok df =>
      if negb (empty df) then State (df_list st ++ [df]) (csv st) (echoed st) else st
    end.

(** Lines 48-131: one query.  [df_list] is not reset between queries. *)
Definition search_query (sources_list : list string) (st : state) (qry : string) : state :=
  let st := fold_left (search_source qry) sources_list st in
  match df_list st with
  | [] => State (df_list st) (csv st) (echoed st ++ [NoRecordsFound])
  | _ =>
    let result := drop_duplicates (pd_concat (df_list st)) in
    State (df_list st) (Some result) (echoed st ++ [Saved (List.length result)])
  end.

Definition default_sources : list string := ["arxiv"; "crossref"; "openalex"].

(** [search(query, sources, ...)] *)
Definition search (query : list string) (sources : list string) : state :=
  let sources_list := match sources with [] => default_sources | _ => sources end in
  fold_left (search_query sources_list) query (State [] None []).

(** The frame that a source contributes to the aggregation *)
Definition contribution (qry src : string) : option (list (gmap string pyval)) :=
  if existsb (String.eqb src) known_sources then
    match adapter qry src with
    | Ok (row :: df) => Some (row :: df)
    | _ => None
    end
  else None.

End Search.

End Cli.

(** ** src/revsys/pretriage.py *)

Module Pretriage.

(** The cells of the records read from the CSV file: text, numbers,
    missing values ([NaN]) and [None]. *)
Inductive cell : Type :=
| CNone
| CNaN
| CStr (s : string)
| CFloat (q : Q).

Definition cell_truthy (c : cell) : bool :=
  match c with
  | CNone => false
  | CNaN => true
  | CStr s => negb (String.eqb s "")
  | CFloat q => negb (Qeq_bool q 0)
  end.

Definition Qmax (a b : Q) : Q := if Qle_bool a b then b else a.

Section Scores.

(** The embedding service and the libraries around it: [embed t] is the
    embedding returned for the input text [t], [cosine a b] the entry of
    [cosine_similarity] for two embeddings, [float_str] the rendering
    of a number in an f-string. *)
Variable embedding : Type.
Variable embed : string -> embedding.
Variable cosine : embedding -> embedding -> Q.
Variable float_str : Q -> string.

Definition cell_str (c : cell) : string :=
  match c with
  | CNone => "None"
  | CNaN => "nan"
  | CStr s => s
  | CFloat q => float_str q
  end.

(** [rec.get(k, '') or ''] *)
Definition get_or_empty (rec : gmap string cell) (k : string) : cell :=
  match rec !! k with
  | Some c => if cell_truthy c then c else CStr ""
  | None => CStr ""
  end.

(** [f"{title} {abstract}"] *)
Definition text_of (rec : gmap string cell) : string :=
  cell_str (get_or_empty rec "Title") +:+ " " +:+ cell_str (get_or_empty rec "Abstract").

(** [_create_embeddings], on the path where the service answers:
    [resp = client.embeddings.create(model=model, input=inputs_list[:500])]
    and [return resp.data]. *)
Definition _create_embeddings (inputs_list : list string) : list embedding :=
  map embed (firstn 500 inputs_list).

(** [cosine_similarity(txt_emb, keys_emb).max(axis=1)], one row *)
Definition row_max (keys_emb : list embedding) (t : embedding) : Q :=
  match map (cosine t) keys_emb with
  | [] => 0
  | s :: sims => fold_left Qmax sims s
  end.

(** [zip(records, sim_incl, sim_excl)] *)
Fixpoint zip3 {A B C} (l1 : list A) (l2 : list B) (l3 : list C) : list (A * B * C) :=
  match l1, l2, l3 with
  | a :: l1', b :: l2', c :: l3' => (a, b, c) :: zip3 l1' l2' l3'
  | _, _, _ => []
  end.

(** [rec['score_inclusion'] = float(score_i); rec['score_exclusion'] = float(score_e)] *)
Definition mark (rec : gmap string cell) (score_i score_e : Q) : gmap string cell :=
  <["score_exclusion" := CFloat score_e]> (<["score_inclusion" := CFloat score_i]> rec).

(** [score_i >= incl_threshold and score_e <= excl_threshold] *)
Definition passes (incl_threshold excl_threshold score_i score_e : Q) : bool :=
  Qle_bool incl_threshold score_i && Qle_bool score_e excl_threshold.

(** [pretriage_records].  [api_key] is [os.getenv('OPENAI_API_KEY')].
    With no record, [cosine_similarity] is given an array of one
    dimension and raises. *)
Definition pretriage_records (api_key : option string) (records : list (gmap string cell))
    (inclusion_keys exclusion_keys : list string) (incl_threshold excl_threshold : Q)
    : result (list (gmap string cell)) :=
  match inclusion_keys with
  | [] => Ok records
  | _ =>
    match api_key with
    | None | Some EmptyString => Raise RuntimeError
    | Some _ =>
      let texts := map text_of records in
      let incl_emb := _create_embeddings inclusion_keys in
      let excl_emb :=
        match exclusion_keys with
        | [] => None
        | _ => Some (_create_embeddings exclusion_keys)
        end in
      let txt_emb := _create_embeddings texts in
      match txt_emb with
      | [] => Raise ValueError
      | _ =>
        let sim_incl := map (row_max incl_emb) txt_emb in
        let sim_excl :=
          match excl_emb with
          | Some e => map (row_max e) txt_emb
          | None => map (fun _ => 0%Q) sim_incl
          end in
        Ok (omap (fun '(rec, score_i, score_e) =>
                    if passes incl_threshold excl_threshold score_i score_e
                    then Some (mark rec score_i score_e) else None)
                 (zip3 records sim_incl sim_excl))
      end
    end
  end.

(** The two scores of a record, as the function computes them for the
    records it scores *)
Definition score_inclusion (inclusion_keys : list string) (rec : gmap string cell) : Q :=
  row_max (_create_embeddings inclusion_keys) (embed (text_of rec)).

Definition score_exclusion (exclusion_keys : list string) (rec : gmap string cell) : Q :=
  match exclusion_keys with
  | [] => 0
  | _ => row_max (_create_embeddings exclusion_keys) (embed (text_of rec))
  end.

End Scores.

(** An instance for closed examples: every text has the same embedding
    and every similarity is 1. *)
Definition embed_const (t : string) : unit := tt.
Definition cosine_one (a b : unit) : Q := 1.
Definition float_str_unused (q : Q) : string := "".

Definition sample_record : gmap string cell :=
  {[ "Title" := CStr "A"; "Abstract" := CStr "Some abstract" ]}.

Definition sample_501 : list (gmap string cell) := repeat sample_record 501.

End Pretriage.

(** ** Vocabulary of the properties *)

(** [post P m]: if the computation [m] returns, its value satisfies [P]. *)
Definition post {A} (P : A -> Prop) (m : result A) : Prop :=
  match m with
  | Ok a => P a
  | Raise _ => True
  end.

(** What a run of [retry_on_fail] on the operation [op] looks like *)
Definition run_ok {A} (op : nat -> result A) (r : HttpRetry.run A) : Prop :=
  HttpRetry.outcome r = op (HttpRetry.calls r) /\
  1 <= HttpRetry.calls r <= 3 /\
  HttpRetry.sleeps r = firstn (HttpRetry.calls r - 1) [1; 2]%Z /\
  (forall k, 1 <= k < HttpRetry.calls r ->
     exists e, op k = Raise e /\ is_RequestException e = true) /\
  (HttpRetry.calls r < 3 ->
     forall e, HttpRetry.outcome r = Raise e -> is_RequestException e = false).

(** The first binding of a key in a dict display [{k1: v1, ...}] *)
Fixpoint assoc_first {V} (k : string) (l : list (string * V)) : option V :=
  match l with
  | [] => None
  | (k', v) :: l' => if String.eqb k' k then Some v else assoc_first k l'
  end.

(** A record that has every standard field *)
Definition complete (registro : gmap string pyval) : Prop :=
  forall c, In c STANDARD_COLUMNS -> is_Some (registro !! c).

(** One column of a frame, and of the frame a computation returns *)
Definition column (c : string) (df : list (gmap string pyval)) : list (option pyval) :=
  map (fun row => row !! c) df.

Definition column_of (c : string) (m : result (list (gmap string pyval)))
    : result (list (option pyval)) :=
  df ← m; Ok (column c df).

(** *** Sample inputs *)

(** An OpenAlex work without a DOI, as the service reports it *)
Definition work_null_doi : pyval :=
  PDict [("id", PStr "https://openalex.org/W1"); ("doi", PNone);
         ("display_name", PStr "A title"); ("abstract", PStr "An abstract")].

(** The item of tests/test_crossref_client.py *)
Definition sample_crossref_item : pyval :=
  PDict [("DOI", PStr "10.1000/testdoi");
         ("title", PList [PStr "Test Title"]);
         ("container-title", PList [PStr "Journal X"]);
         ("issued", PDict [("date-parts", PList [PList [PInt 2023; PInt 5; PInt 20]])]);
         ("author", PList [PDict [("given", PStr "John"); ("family", PStr "Doe")]]);
         ("abstract", PStr "<p>Sample <b>abstract</b> text.</p>");
         ("language", PStr "en");
         ("type", PStr "journal-article");
         ("license", PList [PDict [("URL", PStr "http://license")]]);
         ("URL", PStr "http://example.com/download.pdf");
         ("is-referenced-by-count", PInt 10)].

(** A parsed PubMed article without a PubMed-Central identifier *)
Definition pubmed_entry_no_pmc : pyval :=
  PDict [("pmid", PStr "12345"); ("doi", PStr "10.1000/x"); ("title", PStr "T");
         ("publication_status", PStr "ppublish"); ("is_oa", PBool false)].

(** The [ArticleId] elements of an article that is not in PubMed
    Central *)
Definition article_ids_no_pmc : list PubMed.ArticleId :=
  [ {| PubMed.IdType := Some "pubmed"; PubMed.text := Some "12345" |};
    {| PubMed.IdType := Some "doi"; PubMed.text := Some "10.1000/x" |} ].

(** A work (a dict with the items [d]) that has neither a non-empty
    "abstract" nor a non-empty "abstract_inverted_index" *)
Definition truthy_item (k : string) (d : list (string * pyval)) : bool :=
  match lookup_item k d with
  | Some v => truthy v
  | None => false
  end.

Definition no_abstract (d : list (string * pyval)) : bool :=
  negb (truthy_item "abstract" d) && negb (truthy_item "abstract_inverted_index" d).

(** A text of whitespace only *)
Fixpoint all_space (s : string) : bool :=
  match s with
  | EmptyString => true
  | String a s' => PyStr.isspace a && all_space s'
  end.

(** An OpenAlex work without abstract *)
Definition items_no_abstract : list (string * pyval) :=
  [("id", PStr "https://openalex.org/W2"); ("doi", PStr "https://doi.org/10.1/x");
   ("display_name", PStr "Another title"); ("abstract_inverted_index", PNone)].

Definition work_no_abstract : pyval := PDict items_no_abstract.


(** *** The aggregation of [search] *)

(** The frames that the sources contribute, query by query and, for
    each query, in the order in which the sources are invoked *)
Definition contributions (adapter : string -> string -> result (list (gmap string pyval)))
    (query sources_list : list string) : list (list (gmap string pyval)) :=
  flat_map (fun qry => omap (Cli.contribution adapter qry) sources_list) query.

(** The file that is written for the frames gathered so far *)
Definition aggregate (frames : list (list (gmap string pyval)))
    : option (list (gmap string pyval)) :=
  match frames with
  | [] => None
  | _ => Some (Cli.drop_duplicates (Cli.pd_concat frames))
  end.

Definition effective_sources (sources : list string) : list string :=
  match sources with
  | [] => Cli.default_sources
  | _ => sources
  end.

(** The first row of a frame with the given (DOI, Title) pair *)
Definition first_with (k : option pyval * option pyval) (df : list (gmap string pyval))
    : option (gmap string pyval) :=
  List.find (fun row => Cli.key_eqb (Cli.key row) k) df.

(** Two Crossref items without DOI and title *)
Definition data_two_untitled : pyval :=
  PDict [("message", PDict [("items", PList [
    PDict [("URL", PStr "http://example.org/1")];
    PDict [("URL", PStr "http://example.org/2")]])])].

(** Three sources: Crossref answers with the two items above, arXiv
    raises, OpenAlex answers with one work. *)
Definition three_sources (qry src : string) : result (list (gmap string pyval)) :=
  if String.eqb src "crossref" then
    rows ← Crossref.process_data Html.unescape data_two_untitled; Ok (DataFrame rows)
  else if String.eqb src "openalex" then OpenAlex._process_works [work_null_doi]
  else Raise ValueError.

(** *** A Scopus service with three documents

    The request carries no page size, so the service answers with pages
    of its own size (two documents here), starting at [start]. *)
Definition scopus_entry (eid : string) : pyval :=
  PDict [("eid", PStr eid); ("dc:title", PStr ("Title of " +:+ eid));
         ("dc:creator", PStr "Silva, A."); ("prism:coverDate", PStr "2023-05-20")].

Definition scopus_documents : list pyval :=
  [scopus_entry "e1"; scopus_entry "e2"; scopus_entry "e3"].

Definition scopus_service (start : Z) : result pyval :=
  Ok (PDict [("search-results",
              PDict [("entry", PList (firstn 2 (skipn (Z.to_nat start) scopus_documents)))])]).

(** *** Vocabulary for the cleaning of abstracts *)

(** Does the text hold a tag, a match of [<[^>]+>]? *)
Fixpoint has_tag (s : string) : bool :=
  match s with
  | EmptyString => false
  | String a s' =>
    (PyStr.chr_eqb a "<" &&
     match Crossref.until_gt s' with
     | Some (String _ _, _) => true
     | _ => false
     end)
    || has_tag s'
  end.

(** A word: a non-empty text without whitespace *)
Fixpoint no_space (s : string) : bool :=
  match s with
  | EmptyString => true
  | String a s' => negb (PyStr.isspace a) && no_space s'
  end.

Definition is_word (w : string) : Prop := w <> EmptyString /\ no_space w = true.

(** Words separated by single spaces: the text starts and ends with a
    character that is not whitespace, and every whitespace character
    is a space between two such characters.  [after_word] tells whether
    the character before the text is part of a word. *)
Fixpoint single_spaced (after_word : bool) (s : string) : bool :=
  match s with
  | EmptyString => after_word
  | String a s' =>
    if PyStr.isspace a then after_word && PyStr.chr_eqb a " " && single_spaced false s'
    else single_spaced true s'
  end.

Definition normalized (s : string) : bool := single_spaced false s.

(** The text after the first word of a line of words *)
Definition rest_words (ws : list string) : string :=
  match ws with
  | [] => EmptyString
  | _ => " " +:+ PyStr.join " " ws
  end.

(** A SpringerNature answer with one record that has no [openaccess]
    flag *)
Definition springer_sample_data : pyval :=
  PDict [("records", PList [
    PDict [("creators", PList [PDict [("creator", PStr "Silva, Ana")];
                                PDict [("creator", PStr "Souza, Bruno")]]);
           ("publicationDate", PStr "2023-05-20");
           ("doi", PStr "10.1007/x"); ("title", PStr "A title")]])].

(** Two publications of Google Scholar; the second has no ['pub_url']. *)
Definition scholar_sample_pubs : list pyval :=
  [PDict [("bib", PDict [("title", PStr "First"); ("author", PList [PStr "A Silva"; PStr "B Souza"]);
                         ("pub_year", PStr "2023"); ("abstract", PStr "Text");
                         ("venue", PStr "Journal X")]);
          ("pub_url", PStr "http://example.org/a.pdf"); ("num_citations", PInt 3)];
   PDict [("bib", PDict [("title", PStr "Second"); ("author", PStr "C Lima");
                         ("pub_year", PInt 2021); ("abstract", PStr "Text");
                         ("venue", PStr "Journal Y")]);
          ("num_citations", PInt 0)]].

From Stdlib Require Import Sorted.

(** ** src/revsys/rag.py *)

Module Rag.

(** [s[n:]] and [s[:n]] for [0 <= n] *)
Fixpoint drop (n : nat) (s : string) : string :=
  match n, s with
  | S n', String _ s' => drop n' s'
  | _, _ => s
  end.

Fixpoint take (n : nat) (s : string) : string :=
  match n, s with
  | S n', String a s' => String a (take n' s')
  | _, _ => EmptyString
  end.

(** The position that a slice index denotes in a sequence of [length]
    items: a negative index counts from the end, and the result is
    clamped to [0..length]. *)
Definition slice_index (length i : Z) : Z :=
  if (i <? 0)%Z then Z.max 0 (length + i) else Z.min i length.

(** [text[start:end]] *)
Definition slice (start end_ : Z) (text : string) : string :=
  let length := Z.of_nat (String.length text) in
  let lo := slice_index length start in
  let hi := slice_index length end_ in
  take (Z.to_nat (hi - lo)) (drop (Z.to_nat lo) text).

(** The [while start < length] loop of [chunk_text]; [None] when [fuel]
    iterations were not enough. *)
Fixpoint chunk_text_loop (fuel : nat) (text : string) (chunk_size overlap : Z)
    (start : Z) (chunks : list string) : option (list string) :=
  match fuel with
  | O => None
  | S fuel' =>
    let length := Z.of_nat (String.length text) in
    if (start <? length)%Z then
      let end_ := Z.min (start + chunk_size) length in
      let chunk := slice start end_ text in
      let chunks := chunks ++ [chunk] in
      let start := if (end_ <? length)%Z then (end_ - overlap)%Z else end_ in
      chunk_text_loop fuel' text chunk_size overlap start chunks
    else Some chunks
  end.

(** [chunk_text(text, chunk_size, overlap)] *)
Definition chunk_text (fuel : nat) (text : string) (chunk_size overlap : Z)
    : option (list string) :=
  match text with
  | EmptyString => Some []
  | _ => chunk_text_loop fuel text chunk_size overlap 0 []
  end.

(** The text that a list of chunks stands for when each chunk repeats
    the last [overlap] characters of the chunk before it *)
Definition reassemble (overlap : nat) (chunks : list string) : string :=
  match chunks with
  | [] => EmptyString
  | chunk :: rest => chunk +:+ fold_right (fun c acc => drop overlap c +:+ acc) EmptyString rest
  end.

End Rag.

(** ** Inverted indexes (src/revsys/clients/openalex.py) *)

(** An inverted index as OpenAlex sends it: a JSON object with, for
    each word, the list of the positions at which it occurs. *)
Definition inverted_index_value (idx : list (string * list Z)) : pyval :=
  PDict (map (fun it => (fst it, PList (map PInt (snd it)))) idx).

(** Its occurrences (position, word), in the order of the object *)
Definition postings (idx : list (string * list Z)) : list (Z * string) :=
  concat (map (fun it => map (fun pos => (pos, fst it)) (snd it)) idx).

(** ** Pagination (src/revsys/clients/crossref.py) *)

(** [data.get("message", {}).get("total-results", 0)], as a number *)
Definition total_results (data : pyval) : result Z :=
  message ← get data "message" (PDict []);
  total ← get message "total-results" (PInt 0);
  Crossref.as_int total.

(** A Crossref service that holds five works and answers with pages of
    two, starting at [offset] *)
Definition crossref_work (doi : string) : pyval :=
  PDict [("DOI", PStr doi); ("title", PList [PStr ("Title of " +:+ doi)]);
         ("abstract", PStr "<p>Some text.</p>")].

Definition crossref_works : list pyval :=
  map crossref_work ["10.1/a"; "10.1/b"; "10.1/c"; "10.1/d"; "10.1/e"].

Definition crossref_service (offset : Z) : result pyval :=
  Ok (PDict [("message",
              PDict [("total-results", PInt 5);
                     ("items", PList (firstn 2 (skipn (Z.to_nat offset) crossref_works)))])]).

(** ** src/revsys/clients/springernature.py: requests and pagination *)

Module SpringerNatureRun.

(** *** [SpringerNature.fetch_data] *)

Definition max_retries : nat := 3.
Definition delay : Z := 10.

(** The [except] clauses that end in [time.sleep(...); continue]: an
    [HTTPError] for a response with status 503 or 504, a [Timeout], and
    every other [RequestException].  An [HTTPError] with another status
    is raised again; an exception of another class is not caught. *)
Definition transient (e : exn) : bool :=
  match e with
  | HTTPError status => (status =? 503)%Z || (status =? 504)%Z
  | e => is_RequestException e
  end.

(** The loop [for attempt in range(max_retries)]: [op attempt] is what
    the request of that attempt does ([requests.get],
    [raise_for_status], [response.json()]).  The run records the
    outcome, the number of requests and the sleeps. *)
Fixpoint fetch_data_loop {A} (attempts : list nat) (op : nat -> result A)
    (calls : nat) (slept : list Z) : HttpRetry.run A :=
  match attempts with
  | [] => HttpRetry.Run (Raise PlainException) calls slept
  | attempt :: attempts' =>
    match op attempt with
    | Ok v => HttpRetry.Run (Ok v) (S calls) slept
    | Raise e =>
      if transient e
      then fetch_data_loop attempts' op (S calls)
             (slept ++ [(delay * (Z.of_nat attempt + 1))%Z])
      else HttpRetry.Run (Raise e) (S calls) slept
    end
  end.

Definition fetch_data {A} (op : nat -> result A) : HttpRetry.run A :=
  fetch_data_loop (seq 0 max_retries) op 0 [].

(** *** [SpringerNature.run_pipeline] *)

(** [max_records is not None and len(all_records) >= max_records] *)
Definition reached (max_records : option Z) (n : nat) : bool :=
  match max_records with
  | Some m => (m <=? Z.of_nat n)%Z
  | None => false
  end.

(** The loop of [run_pipeline].  [fetch_data s] is the outcome of
    [self.fetch_data(params)] when [params] has the entry ["s": s] (or
    none); [get_next next_page] is the outcome of the plain request of
    the address [next_page]; [p] is the page size.  [None] when [fuel]
    iterations of [while True] were not enough. *)
Fixpoint run_pipeline_loop (fuel : nat) (fetch_data : option Z -> result pyval)
    (get_next : pyval -> result pyval) (p : Z) (max_records : option Z)
    (next_page : option pyval) (s : option Z) (all_records : list (gmap string pyval))
    : option (result (list (gmap string pyval))) :=
  match fuel with
  | O => None
  | S fuel' =>
    match (match next_page with
           | Some address => get_next address
           | None => fetch_data s
           end) with
    | Raise e => Some (Raise e)
    | Ok data =>
      match SpringerNature.process_data data with
      | Raise e => Some (Raise e)
      | Ok [] => Some (Ok all_records)
      | Ok records =>
        let all_records := all_records ++ records in
        if reached max_records (List.length all_records) then
          Some (Ok (match max_records with
                    | Some m => Crossref.slice_to m all_records
                    | None => all_records
                    end))
        else
          match get_none data "nextPage" with
          | Raise e => Some (Raise e)
          | Ok next_page =>
            if truthy next_page then
              run_pipeline_loop fuel' fetch_data get_next p max_records (Some next_page) s
                all_records
            else if (Z.of_nat (List.length records) <? p)%Z then Some (Ok all_records)
            else
              let start := match s with Some start => start | None => 1%Z end in
              run_pipeline_loop fuel' fetch_data get_next p max_records None
                (Some (start + p)%Z) all_records
          end
      end
    end
  end.

(** [SpringerNature.run_pipeline(q, p, from_date, to_date, max_records)] *)
Definition run_pipeline (fuel : nat) (fetch_data : option Z -> result pyval)
    (get_next : pyval -> result pyval) (p : Z) (max_records : option Z)
    : option (result (list (gmap string pyval))) :=
  match run_pipeline_loop fuel fetch_data get_next p max_records None None [] with
  | Some (Ok all_records) => Some (Ok (DataFrame all_records))
  | r => r
  end.

End SpringerNatureRun.

(** ** src/revsys/clients/pubmed_api.py: the search *)

Module PubMedSearch.

Definition chunk_size : nat := 200.

(** [range(0, stop, step)] for [step > 0]: [ceil(stop / step)] numbers *)
Definition range_step (stop step : nat) : list nat :=
  map (fun i => i * step) (seq 0 ((stop + step - 1) / step)).

(** The lists [all_pmids[start : start + chunk_size]] that the loop
    [for start in range(0, len(all_pmids), chunk_size)] hands to
    [_fetch_details] *)
Definition subsets {P} (all_pmids : list P) : list (list P) :=
  map (fun start => firstn chunk_size (skipn start all_pmids))
      (range_step (List.length all_pmids) chunk_size).

Definition step : Z := 10000.

Section Search.

(** The requests of the E-utilities, each with the retries of its
    decorator: [_get_total_count(query)], [_fetch_pmids(query, retmax,
    retstart)] and [_fetch_details(pmid_list)].  A PMID is the text of
    an [Id] element. *)
Variable _get_total_count : result Z.
Variable _fetch_pmids : Z -> Z -> result (list pyval).
Variable _fetch_details : list pyval -> result (list pyval).

(** The body of [_fetch_all_pmids]; [None] when [fuel] passes of the
    [while] loop were not enough. *)
Fixpoint _fetch_all_pmids_loop (fuel : nat) (total_count current_start : Z)
    (all_pmids : list pyval) : option (result (list pyval)) :=
  match fuel with
  | O => None
  | S fuel' =>
    if (current_start <? total_count)%Z then
      match _fetch_pmids step current_start with
      | Raise e => Some (Raise e)
      | Ok [] => Some (Ok all_pmids)
      | Ok pmid_batch =>
        let all_pmids := all_pmids ++ pmid_batch in
        let current_start := (current_start + step)%Z in
        if (Z.of_nat (List.length pmid_batch) <? step)%Z then Some (Ok all_pmids)
        else _fetch_all_pmids_loop fuel' total_count current_start all_pmids
      end
    else Some (Ok all_pmids)
  end.

Definition _fetch_all_pmids (fuel : nat) (total_count : Z) : option (result (list pyval)) :=
  _fetch_all_pmids_loop fuel total_count 0 [].

(** [PubMedAPI.search(query, retmax, fetch_all, ...)] *)
Definition search (fuel : nat) (retmax : option Z) (fetch_all : bool)
    : option (result (list (gmap string pyval))) :=
  if fetch_all then
    match _get_total_count with
    | Raise e => Some (Raise e)
    | Ok total_count =>
      match _fetch_all_pmids fuel total_count with
      | None => None
      | Some (Raise e) => Some (Raise e)
      | Some (Ok all_pmids) =>
        Some (raw_entries ← mapM _fetch_details (subsets all_pmids);
              PubMed._parse_data (concat raw_entries))
      end
    end
  else
    let retmax := match retmax with Some n => n | None => 10%Z end in
    Some (pmid_list ← _fetch_pmids retmax 0;
          match pmid_list with
          | [] => Ok []
          | _ => raw_entries ← _fetch_details pmid_list; PubMed._parse_data raw_entries
          end).

End Search.

End PubMedSearch.

(** A PubMed service that holds 450 articles *)
Definition pubmed_ids : list pyval := map (fun n : nat => PStr (pretty n)) (seq 1 450).

Definition pubmed_service (retmax retstart : Z) : result (list pyval) :=
  Ok (firstn (Z.to_nat retmax) (skipn (Z.to_nat retstart) pubmed_ids)).

Definition pubmed_detail (pmid : pyval) : list pyval :=
  [PDict [("pmid", pmid); ("title", PStr "A title")]].

(** ** src/revsys/clients/plos.py *)

Module Plos.

Import PyStr.

(** [v.split()], a method of [str] only *)
Definition split_ws_method (v : pyval) : result (list string) :=
  match v with
  | PStr s => Ok (split_ws s)
  | _ => Raise AttributeError
  end.

(** [v[1]] *)
Definition getitem1 (v : pyval) : result pyval :=
  match v with
  | PList (_ :: x :: _) => Ok x
  | PList _ => Raise IndexError
  | PStr (String _ (String a _)) => Ok (PStr (String a EmptyString))
  | PStr _ => Raise IndexError
  | PDict _ => Raise KeyError
  | _ => Raise TypeError
  end.

(** [author.split()[-1]] *)
Definition last_name (author : pyval) : result string :=
  words ← split_ws_method author; last words.

(** The publication date and year of a document (lines 61-67) *)
Definition pub_date_year (pub_date_full : pyval) : result (pyval * string) :=
  timed ← (if ne_str pub_date_full "N/A" then contains_key "T" pub_date_full else Ok false);
  if timed : bool then
    fields ← Scopus.split_method pub_date_full "T";
    pub_date ← first fields;
    pub_year ← first (split_on "-" pub_date);
    Ok (PStr pub_date, pub_year)
  else Ok (pub_date_full, "N/A").

(** The "Authors Year" of a document (lines 73-83) *)
Definition authors_year_of (authors_list : pyval) (pub_year : string) : result string :=
  if truthy authors_list then
    first_author ← getitem0 authors_list;
    n ← len authors_list;
    if n =? 1 then
      l ← last_name first_author; Ok (l +:+ " " +:+ pub_year)
    else if n =? 2 then
      second_author ← getitem1 authors_list;
      l1 ← last_name first_author;
      l2 ← last_name second_author;
      Ok (l1 +:+ " and " +:+ l2 +:+ " " +:+ pub_year)
    else
      l ← last_name first_author; Ok (l +:+ " et al. " +:+ pub_year)
  else Ok ("N/A " +:+ pub_year).

(** The abstract of a document (lines 85-89) *)
Definition abstract_of (abstract_field : pyval) : result pyval :=
  match abstract_field with
  | PList l => s ← join_vals " " l; Ok (PStr (strip s))
  | _ => Ok (if truthy abstract_field then abstract_field else NA)
  end.

(** The body of the loop of [PlosAPI.process_data]: the record of one
    document. *)
Definition process_doc (doc : pyval) : result (gmap string pyval) :=
  article_id ← get doc "id" NA;
  title ← get doc "title_display" NA;
  journal ← get doc "journal" NA;
  pub_date_full ← get doc "publication_date" NA;
  '(pub_date, pub_year) ← pub_date_year pub_date_full;
  article_type ← get doc "article_type" NA;
  authors_list ← get doc "author_display" (PList []);
  authors ← (if truthy authors_list
             then s ← OpenAlex.join_iter ", " authors_list; Ok (PStr s)
             else Ok NA);
  authors_year ← authors_year_of authors_list pub_year;
  abstract_field ← get doc "abstract" (PList []);
  abstract ← abstract_of abstract_field;
  let registro : gmap string pyval := list_to_map [
    ("ID", article_id);
    ("Authors", authors);
    ("Authors Year", PStr authors_year);
    ("Title", title);
    ("Journal", journal);
    ("Publication Year", PStr pub_year);
    ("Publication Date", pub_date);
    ("Abstract", abstract);
    ("DOI", article_id);
    ("Language", PStr "N/A");
    ("Is Accepted", PStr "N/A");
    ("Is Published", PStr "Yes");
    ("Type", article_type);
    ("Type Crossref", article_type);
    ("Indexed In", PStr "PLOS");
    ("Is Open Access", PStr "Yes");
    ("OA Status", PStr "PLOS Open Access");
    ("Download URL", PStr "N/A");
    ("Cited By Count", PStr "N/A");
    ("API", PStr "plos")
  ] in
  Ok (padroniza_registro registro).

(** [PlosAPI.process_data] *)
Definition process_data (data : pyval) : result (list (gmap string pyval)) :=
  response ← get data "response" (PDict []);
  docs_val ← get response "docs" (PList []);
  docs ← iter docs_val;
  mapM process_doc docs.

(** [data.get("response", {}).get("numFound", 0)], as a number *)
Definition total_found (data : pyval) : result Z :=
  response ← get data "response" (PDict []);
  total ← get response "numFound" (PInt 0);
  Crossref.as_int total.

(** The loop of [PlosAPI.run_pipeline].  [fetch_data start] is the
    outcome of the decorated request at [start]; [rows] is [self.rows].
    [None] when [fuel] iterations of [while True] were not enough. *)
Fixpoint run_pipeline_loop (fuel : nat) (fetch_data : Z -> result pyval) (rows : Z)
    (max_records : option Z) (start : Z) (all_records : list (gmap string pyval))
    : option (result (list (gmap string pyval))) :=
  match fuel with
  | O => None
  | S fuel' =>
    match fetch_data start with
    | Raise e => Some (Raise e)
    | Ok data =>
      match process_data data with
      | Raise e => Some (Raise e)
      | Ok [] => Some (Ok all_records)
      | Ok records =>
        let all_records := all_records ++ records in
        if Crossref.reached max_records (List.length all_records) then
          Some (Ok (match max_records with
                    | Some m => Crossref.slice_to m all_records
                    | None => all_records
                    end))
        else
          let start := (start + rows)%Z in
          match total_found data with
          | Raise e => Some (Raise e)
          | Ok total =>
            if (total <=? start)%Z then Some (Ok all_records)
            else run_pipeline_loop fuel' fetch_data rows max_records start all_records
          end
      end
    end
  end.

(** [PlosAPI(rows=rows).run_pipeline(query, max_records)] *)
Definition run_pipeline (fuel : nat) (fetch_data : Z -> result pyval) (rows : Z)
    (max_records : option Z) : option (result (list (gmap string pyval))) :=
  match run_pipeline_loop fuel fetch_data rows max_records 0 [] with
  | Some (Ok all_records) => Some (Ok (DataFrame all_records))
  | r => r
  end.

End Plos.

(** A PLOS service that holds five documents and answers with pages of
    two, starting at [start] *)
Definition plos_doc (id : string) : pyval :=
  PDict [("id", PStr id); ("title_display", PStr ("Title of " +:+ id));
         ("publication_date", PStr "2023-05-20T00:00:00Z");
         ("author_display", PList [PStr "Ana Silva"; PStr "Bruno Souza"]);
         ("abstract", PList [PStr " Some text. "])].

Definition plos_docs : list pyval :=
  map plos_doc ["10.1371/a"; "10.1371/b"; "10.1371/c"; "10.1371/d"; "10.1371/e"].

Definition plos_service (start : Z) : result pyval :=
  Ok (PDict [("response",
              PDict [("numFound", PInt 5);
                     ("docs", PList (firstn 2 (skipn (Z.to_nat start) plos_docs)))])]).

(** ** src/revsys/clients/arxiv.py *)

Module Arxiv.

Import PyStr.

(** What [element.find(path)] gives for a child that holds text only:
    [None] when there is no such child, [Some None] for a child without
    text ([.text] is [None]), [Some (Some s)] for a child with the text
    [s]. *)
Definition child : Type := option (option string).

(** An [atom:entry] element: its children [atom:published], [atom:id],
    [atom:title], the [atom:name] child of each [atom:author],
    [arxiv:doi], [arxiv:journal_ref], [atom:summary], and the
    attributes [title] and [href] of each [atom:link]. *)
Record entry : Type := Entry {
  published : child;
  id : child;
  title : child;
  authors : list child;
  doi : child;
  journal_ref : child;
  summary : child;
  links : list (option string * option string)
}.

(** [element.find(path).text.strip()] *)
Definition text_strip (c : child) : result string :=
  match c with
  | Some (Some s) => Ok (strip s)
  | _ => Raise AttributeError
  end.

(** [elem.text.strip() if elem is not None else "N/A"] *)
Definition text_strip_or_na (c : child) : result string :=
  match c with
  | None => Ok "N/A"
  | _ => text_strip c
  end.

(** [s.replace("\n", " ")] *)
Fixpoint replace_newlines (s : string) : string :=
  match s with
  | EmptyString => EmptyString
  | String a s' => String (if chr_eqb a "010" then " "%char else a) (replace_newlines s')
  end.

(** [elem.text.strip().replace("\n", " ") if elem is not None else "N/A"] *)
Definition text_line_or_na (c : child) : result string :=
  match c with
  | None => Ok "N/A"
  | _ => s ← text_strip c; Ok (replace_newlines s)
  end.

(** [x and n >= x] for an optional number [x]: [None] and 0 are falsy *)
Definition set_and (bound : option Z) (test : Z -> bool) : bool :=
  match bound with
  | Some b => negb (b =? 0)%Z && test b
  | None => false
  end.

(** [name.split()[-1]] *)
Definition last_word (name : string) : result string := last (split_ws name).

(** The download address: the [href] of the first link whose [title]
    is "pdf" ([None] when that link has no [href]) *)
Fixpoint download_url_of (links : list (option string * option string)) : pyval :=
  match links with
  | [] => PStr "N/A"
  | (link_title, href) :: links' =>
    match link_title with
    | Some t =>
      if String.eqb t "pdf"
      then match href with Some h => PStr h | None => PNone end
      else download_url_of links'
    | None => download_url_of links'
    end
  end.

Section Fetch.

(** [int(s)] for a [str] *)
Variable int : string -> result Z.

(** One pass of the body of [for entry in entries], up to the record:
    [None] when a date filter skips the entry ([continue]). *)
Definition process_entry (start_year end_year : option Z) (e : entry)
    : result (option (gmap string pyval)) :=
  published ← text_strip (published e);
  let published_date_only :=
    if contains "T" published
    then match split_on "T" published with x :: _ => x | [] => published end
    else published in
  pub_year ← int (match split_on "-" published_date_only with
                  | x :: _ => x
                  | [] => published_date_only
                  end);
  if set_and start_year (fun start_year => (pub_year <? start_year)%Z) then Ok None
  else if set_and end_year (fun end_year => (end_year <? pub_year)%Z) then Ok None
  else
    id_url ← text_strip (id e);
    title_str ← text_line_or_na (title e);
    authors_list ← mapM text_strip (List.filter (fun name : child => bool_decide (name <> None))
                                                (authors e));
    let authors_str := match authors_list with [] => "N/A" | _ => join ", " authors_list end in
    authors_year ←
      match authors_list with
      | [] => Ok ("unknown " +:+ pretty pub_year)
      | [a] => l ← last_word a; Ok (l +:+ " " +:+ pretty pub_year)
      | [a; b] =>
        l1 ← last_word a; l2 ← last_word b;
        Ok (l1 +:+ " and " +:+ l2 +:+ " " +:+ pretty pub_year)
      | a :: _ => l ← last_word a; Ok (l +:+ " et al. " +:+ pretty pub_year)
      end;
    doi ← text_strip_or_na (doi e);
    journal ← text_strip_or_na (journal_ref e);
    abstract ← text_line_or_na (summary e);
    let download_url := download_url_of (links e) in
    let registro : gmap string pyval := list_to_map [
      ("ID", PStr (if negb (String.eqb doi "N/A") then doi else id_url));
      ("Authors", PStr authors_str);
      ("Authors Year", PStr authors_year);
      ("Title", PStr title_str);
      ("Journal", PStr journal);
      ("Publication Year", PInt pub_year);
      ("Publication Date", PStr published_date_only);
      ("Abstract", PStr abstract);
      ("DOI", PStr doi);
      ("Language", PStr "N/A");
      ("Is Accepted", PStr "N/A");
      ("Is Published", PStr (if negb (String.eqb journal "N/A") then "Yes" else "No"));
      ("Type", PStr "arXiv");
      ("Type Crossref", PStr "N/A");
      ("Indexed In", PStr "arXiv");
      ("Is Open Access", PStr "Yes");
      ("OA Status", PStr "Open Access");
      ("Download URL", download_url);
      ("Cited By Count", PStr "N/A");
      ("API", PStr "arxiv")
    ] in
    Ok (Some (padroniza_registro registro)).

(** The loop [for entry in entries], which is left early when the
    limit is reached *)
Fixpoint entries_loop (start_year end_year total_limit : option Z) (entries : list entry)
    (collected : Z) (all_articles : list (gmap string pyval))
    : result (list (gmap string pyval) * Z) :=
  match entries with
  | [] => Ok (all_articles, collected)
  | e :: entries' =>
    r ← process_entry start_year end_year e;
    match r with
    | None => entries_loop start_year end_year total_limit entries' collected all_articles
    | Some registro =>
      let all_articles := all_articles ++ [registro] in
      let collected := (collected + 1)%Z in
      if set_and total_limit (fun total_limit => (total_limit <=? collected)%Z)
      then Ok (all_articles, collected)
      else entries_loop start_year end_year total_limit entries' collected all_articles
    end
  end.

(** The loop of [ArxivFetcher.fetch_references].  [_fetch_arxiv_page
    start] is the outcome of the decorated request at [start], with
    the [atom:entry] elements of the answer. *)
Fixpoint fetch_references_loop (fuel : nat) (_fetch_arxiv_page : Z -> result (list entry))
    (max_results : Z) (start_year end_year total_limit : option Z)
    (start collected : Z) (all_articles : list (gmap string pyval))
    : option (result (list (gmap string pyval))) :=
  match fuel with
  | O => None
  | S fuel' =>
    match _fetch_arxiv_page start with
    | Raise e => Some (Raise e)
    | Ok [] => Some (Ok all_articles)
    | Ok entries =>
      match entries_loop start_year end_year total_limit entries collected all_articles with
      | Raise e => Some (Raise e)
      | Ok (all_articles, collected) =>
        if (Z.of_nat (List.length entries) <? max_results)%Z
           || set_and total_limit (fun total_limit => (total_limit <=? collected)%Z)
        then Some (Ok all_articles)
        else fetch_references_loop fuel' _fetch_arxiv_page max_results start_year end_year
               total_limit (start + max_results)%Z collected all_articles
      end
    end
  end.

(** [ArxivFetcher.fetch_references(query, max_results, start_year,
    end_year, total_limit)] *)
Definition fetch_references (fuel : nat) (_fetch_arxiv_page : Z -> result (list entry))
    (max_results : Z) (start_year end_year total_limit : option Z)
    : option (result (list (gmap string pyval))) :=
  match fetch_references_loop fuel _fetch_arxiv_page max_results start_year end_year
          total_limit 0 0 [] with
  | Some (Ok all_articles) => Some (Ok (DataFrame all_articles))
  | r => r
  end.

End Fetch.

(** [int(s)] on a text of decimal digits (other texts that [int]
    accepts, with a sign, blanks or underscores, are not needed for
    the examples and are reported as [ValueError] here) *)
Fixpoint digits_value (acc : Z) (s : string) : option Z :=
  match s with
  | EmptyString => Some acc
  | String a s' =>
    let n := code a in
    if ((48 <=? n) && (n <=? 57))%N then digits_value (10 * acc + Z.of_N (n - 48)) s'
    else None
  end.

Definition int_of_digits (s : string) : result Z :=
  match s with
  | EmptyString => Raise ValueError
  | _ => match digits_value 0 s with Some z => Ok z | None => Raise ValueError end
  end.

End Arxiv.

(** An arXiv service that holds five entries, published in 2021 to
    2025, and answers with pages of two, starting at [start] *)
Definition arxiv_entry (year name : string) : Arxiv.entry :=
  {| Arxiv.published := Some (Some (year +:+ "-01-06T09:19:23Z"));
     Arxiv.id := Some (Some ("http://arxiv.org/abs/" +:+ name));
     Arxiv.title := Some (Some ("Title of " +:+ name));
     Arxiv.authors := [Some (Some "Ana Silva"); None; Some (Some "Bruno Souza")];
     Arxiv.doi := None;
     Arxiv.journal_ref := None;
     Arxiv.summary := Some (Some " Some text. ");
     Arxiv.links := [(None, Some ("http://arxiv.org/abs/" +:+ name));
                     (Some "pdf", Some ("http://arxiv.org/pdf/" +:+ name))] |}.

Definition arxiv_entries : list Arxiv.entry :=
  [arxiv_entry "2021" "2101.00001"; arxiv_entry "2022" "2201.00001";
   arxiv_entry "2023" "2301.00001"; arxiv_entry "2024" "2401.00001";
   arxiv_entry "2025" "2501.00001"].

Definition arxiv_service (start : Z) : result (list Arxiv.entry) :=
  Ok (firstn 2 (skipn (Z.to_nat start) arxiv_entries)).

(** ** src/revsys/clients/ieee.py *)

Module Ieee.

Import PyStr.

(** The outcomes of this module: besides the exceptions of [exn], the
    [NameError] of a name that is bound nowhere. *)
Inductive try (A : Type) : Type :=
| Done (a : A)
| Failed (e : exn)
| FailedNameError.

Arguments Done {A} a.
Arguments Failed {A} e.
Arguments FailedNameError {A}.

Definition lift {A} (m : result A) : try A :=
  match m with
  | Ok a => Done a
  | Raise e => Failed e
  end.

Definition try_bind {A B} (m : try A) (k : A -> try B) : try B :=
  match m with
  | Done a => k a
  | Failed e => Failed e
  | FailedNameError => FailedNameError
  end.

Fixpoint try_mapM {A B} (f : A -> try B) (l : list A) : try (list B) :=
  match l with
  | [] => Done []
  | x :: l' => try_bind (f x) (fun y => try_bind (try_mapM f l') (fun ys => Done (y :: ys)))
  end.

(** [au.get('full_name') or au.get('name')], kept when it is truthy *)
Definition author_name (au : pyval) : result (option pyval) :=
  full_name ← get_none au "full_name";
  name ← (if truthy full_name then Ok full_name else get_none au "name");
  Ok (if truthy name then Some name else None).

(** Lines 61-66: the names of the authors, joined *)
Definition authors_of (art : pyval) : result string :=
  authors ← get art "authors" (PDict []);
  author ← get authors "author" (PList []);
  aus ← iter author;
  names ← mapM author_name aus;
  match omap (fun name => name) names with
  | [] => Ok "N/A"
  | authors_list => join_vals ", " authors_list
  end.

(** ['ID': doi if doi else art.get('article_number',
    f'ieee-{art.get("article_number", idx)}')]: the name [idx] is bound
    neither in the function nor in the module, so the second branch
    raises [NameError] when its arguments are evaluated. *)
Definition id_of (art doi : pyval) : try pyval :=
  if truthy doi then Done doi else FailedNameError.

(** [f"{authors_str.split(',')[0].split()[-1]} {year}" if authors_str and
    year != 'N/A' else f'N/A {year}'] *)
Definition authors_year_of (authors_str year : string) : result string :=
  if negb (String.eqb authors_str "") && negb (String.eqb year "N/A") then
    a ← first (split_on "," authors_str);
    l ← last (split_ws a);
    Ok (l +:+ " " +:+ year)
  else Ok ("N/A " +:+ year).

(** Lines 58-72: what is read from an article before the record is
    built *)
Definition article_fields (art : pyval)
    : result (pyval * pyval * string * string * pyval * pyval * pyval * pyval * pyval) :=
  title ← get art "title" NA;
  abstract ← get art "abstract" NA;
  authors_str ← authors_of art;
  publication_year ← get art "publication_year" NA;
  let year := str publication_year in
  pub_date ← get art "publication_date" (PStr year);
  journal ← get art "publication_title" NA;
  doi ← get art "doi" (PStr "");
  pdf_url ← get art "pdf_url" (PStr "");
  cited_by ← get art "citation_count" NA;
  Ok (title, abstract, authors_str, year, pub_date, journal, doi, pdf_url, cited_by).

(** Lines 74-95: the record, whose entries are evaluated in order *)
Definition record_of (art : pyval)
    (fields : pyval * pyval * string * string * pyval * pyval * pyval * pyval * pyval)
    : try (gmap string pyval) :=
  let '(title, abstract, authors_str, year, pub_date, journal, doi, pdf_url, cited_by) :=
    fields in
  try_bind (id_of art doi) (fun article_id =>
  lift (
    authors_year ← authors_year_of authors_str year;
    language ← get art "language" NA;
    content_type ← get art "content_type" NA;
    let registro : gmap string pyval := list_to_map [
      ("ID", article_id);
      ("Authors", PStr authors_str);
      ("Authors Year", PStr authors_year);
      ("Title", title);
      ("Journal", journal);
      ("Publication Year", PStr year);
      ("Publication Date", pub_date);
      ("Abstract", abstract);
      ("DOI", doi);
      ("Language", language);
      ("Is Accepted", PStr "N/A");
      ("Is Published", PStr (if negb (String.eqb year "N/A") then "Yes" else "No"));
      ("Type", content_type);
      ("Type Crossref", content_type);
      ("Indexed In", PStr "IEEE Xplore");
      ("Is Open Access", PStr "N/A");
      ("OA Status", PStr "N/A");
      ("Download URL", pdf_url);
      ("Cited By Count", cited_by);
      ("API", PStr "ieee")
    ] in
    Ok (padroniza_registro registro))).

(** The body of the loop [for art in articles]: the record of one
    article. *)
Definition process_article (art : pyval) : try (gmap string pyval) :=
  try_bind (lift (article_fields art)) (record_of art).

(** [IeeeXplore.fetch_references]; [response] is the outcome of the
    request ([requests.get], [raise_for_status], [response.json()]). *)
Definition fetch_references (response : result pyval) : try (list (gmap string pyval)) :=
  try_bind (lift (data ← response;
                  articles ← get data "articles" (PList []);
                  iter articles))
  (fun articles =>
  try_bind (try_mapM process_article articles) (fun records =>
  Done (DataFrame records))).

End Ieee.

(** Two answers of IEEE Xplore: in the first every article has a DOI,
    in the second the last article has an article number only. *)
Definition ieee_article (doi : string) : pyval :=
  PDict [("title", PStr "A title"); ("doi", PStr doi); ("publication_year", PInt 2023);
         ("authors", PDict [("author", PList [PDict [("full_name", PStr "Ana Silva")]])])].

Definition ieee_data_with_dois : pyval :=
  PDict [("articles", PList [ieee_article "10.1109/a"; ieee_article "10.1109/b"])].

Definition ieee_data_without_doi : pyval :=
  PDict [("articles", PList [ieee_article "10.1109/a";
                             PDict [("title", PStr "Another title");
                                    ("article_number", PStr "9876543")]])].

(** ** Exceptions that a computation can raise *)

(** [raises P m]: if the computation [m] raises, the exception
    satisfies [P]. *)
Definition raises {A} (P : exn -> Prop) (m : result A) : Prop :=
  match m with
  | Ok _ => True
  | Raise e => P e
  end.

(** The exceptions of reading a decoded answer that has not the
    expected shape *)
Definition shape_error (e : exn) : Prop :=
  e = AttributeError \/ e = TypeError \/ e = IndexError.

(** ** File names (src/revsys/cli.py [download_pdfs], src/revsys/fulltext.py) *)

Module Files.

Import PyStr Pretriage.

(** [c.isalnum()] on U+0000..U+00FF: the digits, the letters (with the
    ordinal indicators, the micro sign and the accented letters) and
    the superscript digits and vulgar fractions. *)
Definition isalnum (c : ascii) : bool :=
  let n := code c in
  ((48 <=? n) && (n <=? 57) || (65 <=? n) && (n <=? 90) || (97 <=? n) && (n <=? 122)
   || (n =? 170) || (n =? 178) || (n =? 179) || (n =? 181) || (n =? 185) || (n =? 186)
   || (188 <=? n) && (n <=? 190) || (192 <=? n) && (n <=? 214)
   || (216 <=? n) && (n <=? 246) || (248 <=? n) && (n <=? 255))%N.

(** [c.isalnum() or c in ('_', '-')] *)
Definition kept (c : ascii) : bool := isalnum c || chr_eqb c "_" || chr_eqb c "-".

(** [''.join(c if c.isalnum() or c in ('_', '-') else '_' for c in s)] *)
Fixpoint sanitize (s : string) : string :=
  match s with
  | EmptyString => EmptyString
  | String c s' => String (if kept c then c else "_"%char) (sanitize s')
  end.

Section Names.

(** The rendering of a number of the CSV file by [str] *)
Variable float_str : Q -> string.

(** [rec.get(k, default)] *)
Definition get_cell (rec : gmap string cell) (k : string) (default : cell) : cell :=
  match rec !! k with
  | Some c => c
  | None => default
  end.

(** [a or b] *)
Definition or_cell (a b : cell) : cell := if cell_truthy a then a else b.

(** *** [download_pdfs] (cli.py) *)

(** [str(rec.get('Download URL') or rec.get('DownloadURL')).strip()] *)
Definition url_str (rec : gmap string cell) : string :=
  strip (cell_str float_str
           (or_cell (get_cell rec "Download URL" CNone) (get_cell rec "DownloadURL" CNone))).

(** [url_str.lower().startswith(('http://', 'https://'))] *)
Definition is_http (url_str : string) : bool :=
  startswith "http://" (lower url_str) || startswith "https://" (lower url_str).

(** [_id_str]: [str(rec.get('DOI') or rec.get('ID') or '')], replaced
    by the address when it is ['nan'] *)
Definition _id_str (rec : gmap string cell) : string :=
  let _id := or_cell (or_cell (get_cell rec "DOI" CNone) (get_cell rec "ID" CNone)) (CStr "") in
  let _id_str := cell_str float_str _id in
  if String.eqb _id_str "nan" then url_str rec else _id_str.

(** The name of the file that [download_pdfs] writes for a record, in
    [out_dir]; [None] when the record is skipped for its address. *)
Definition pdf_name (rec : gmap string cell) : option string :=
  if is_http (url_str rec) then Some (sanitize (_id_str rec) +:+ ".pdf") else None.

(** *** [fetch_fulltext] (fulltext.py) *)

(** Lines 74-83: the name of the file without its extension *)
Definition base (rec : gmap string cell) : string :=
  let doi_str := strip (cell_str float_str (get_cell rec "DOI" (CStr ""))) in
  if String.eqb doi_str "" || String.eqb (lower doi_str) "nan" then
    let id_str := strip (cell_str float_str (get_cell rec "ID" (CStr ""))) in
    if negb (String.eqb id_str "") && negb (String.eqb (lower id_str) "nan") then id_str
    else "file"
  else doi_str.

Definition fname (rec : gmap string cell) : string := sanitize (base rec).

End Names.

(** Every character of [s] satisfies [p] *)
Fixpoint all_chars (p : ascii -> bool) (s : string) : bool :=
  match s with
  | EmptyString => true
  | String c s' => p c && all_chars p s'
  end.

End Files.

(** A row of a CSV file whose DOI cell is empty *)
Definition record_without_doi : gmap string Pretriage.cell :=
  {[ "DOI" := Pretriage.CNaN; "ID" := Pretriage.CStr "W123";
     "Download URL" := Pretriage.CStr "https://example.org/a.pdf" ]}.

(** ** src/revsys/cli.py: [triage] up to the classification *)

Module Triage.

Import PyStr Pretriage.

(** [isinstance(rec.get('Abstract'), str) and rec['Abstract'].strip()
    and rec['Abstract'].strip().upper() != 'N/A'] *)
Definition has_abstract (rec : gmap string cell) : bool :=
  match rec !! "Abstract" with
  | Some (CStr s) => negb (String.eqb (strip s) "") && negb (upper_is (strip s) "N/A")
  | _ => false
  end.

(** What [triage] does with the records: without an API key it writes
    the records that the simple filter keeps; with a key it hands the
    records to the classification by the language model. *)
Inductive outcome : Type :=
| SimpleFilter (written : list (gmap string cell))
| Classify (records : list (gmap string cell)).

Section Triage.

Variable embedding : Type.
Variable embed : string -> embedding.
Variable cosine : embedding -> embedding -> Q.
Variable float_str : Q -> string.

(** Lines 172-202.  [api_key] is [os.getenv('OPENAI_API_KEY')], which
    [pretriage_records] reads as well; an exception of the
    pre-triage is reported and the records stay as they were. *)
Definition triage (api_key : option string) (records : list (gmap string cell))
    (incl_keys excl_keys : list string) (incl_threshold excl_threshold : Q) : outcome :=
  let records :=
    match incl_keys with
    | [] => records
    | _ =>
      match pretriage_records embedding embed cosine float_str api_key records incl_keys
              excl_keys incl_threshold excl_threshold with
      | Ok filtered => filtered
      | Raise _ => records
      end
    end in
  match api_key with
  | None | Some EmptyString => SimpleFilter (List.filter has_abstract records)
  | Some _ => Classify records
  end.

End Triage.

End Triage.

(** Three rows of a CSV file: with an abstract, with the placeholder
    in lower case, and with an empty cell *)
Definition rows_for_triage : list (gmap string Pretriage.cell) :=
  [Pretriage.sample_record;
   {[ "Title" := Pretriage.CStr "B"; "Abstract" := Pretriage.CStr " n/a " ]};
   {[ "Title" := Pretriage.CStr "C"; "Abstract" := Pretriage.CNaN ]}].

(** ** src/revsys/clients/pubmed_api.py: the date of publication *)

Module PubMedDate.

Import PyStr.

Definition month_map : list (string * string) :=
  [("Jan", "01"); ("Feb", "02"); ("Mar", "03"); ("Apr", "04"); ("May", "05"); ("Jun", "06");
   ("Jul", "07"); ("Aug", "08"); ("Sep", "09"); ("Oct", "10"); ("Nov", "11"); ("Dec", "12")].

(** [c.isdigit()] on U+0000..U+00FF: 0-9 and the superscripts 2, 3
    and 1 *)
Definition isdigit_char (c : ascii) : bool :=
  let n := code c in
  ((48 <=? n) && (n <=? 57) || (n =? 178) || (n =? 179) || (n =? 185))%N.

(** [s.isdigit()]: false for the empty text *)
Definition isdigit (s : string) : bool :=
  match s with
  | EmptyString => false
  | _ => Files.all_chars isdigit_char s
  end.

(** [f"{n:02d}"] *)
Definition format_02d (n : Z) : string :=
  let s := pretty n in
  if String.length s <? 2 then "0" +:+ s else s.

(** [PubMedAPI._month_to_number].  [int] is applied to a text of
    digits only: it gives the number when they are decimal digits and
    raises [ValueError] for a superscript. *)
Definition _month_to_number (month_str : string) : result string :=
  match Html.assoc month_str month_map with
  | Some mm => Ok mm
  | None =>
    if isdigit month_str then
      n ← Arxiv.int_of_digits month_str; Ok (format_02d n)
    else Ok ""
  end.

(** The children [Year], [MedlineDate], [Month] and [Day] of a
    [PubDate] element *)
Record PubDate : Type := {
  Year : Arxiv.child;
  MedlineDate : Arxiv.child;
  Month : Arxiv.child;
  Day : Arxiv.child
}.

(** [PubMedAPI._extract_pub_date]; [pubdate_elem] is
    [article_elem.find(".//JournalIssue/PubDate")].  A [Day] without
    text makes [dd.isdigit()] raise when it is evaluated. *)
Definition _extract_pub_date (pubdate_elem : option PubDate) : result (string * string) :=
  match pubdate_elem with
  | None => Ok ("", "")
  | Some pubdate =>
    let pub_year :=
      match Year pubdate with
      | Some text => match text with Some s => s | None => "" end
      | None =>
        match MedlineDate pubdate with
        | Some (Some (String c s)) => Rag.take 4 (String c s)
        | _ => ""
        end
      end in
    mm ← (match Month pubdate with
          | Some (Some (String c s)) => _month_to_number (String c s)
          | _ => Ok ""
          end);
    let dd := match Day pubdate with Some text => text | None => Some "" end in
    if negb (String.eqb pub_year "") && negb (String.eqb mm "") then
      match dd with
      | None => Raise AttributeError
      | Some dd =>
        if isdigit dd then Ok (pub_year, pub_year +:+ "-" +:+ mm +:+ "-" +:+ dd)
        else Ok (pub_year, pub_year +:+ "-" +:+ mm)
      end
    else Ok (pub_year, pub_year)
  end.

(** A decimal digit *)
Definition is_decimal (c : ascii) : bool :=
  let n := code c in ((48 <=? n) && (n <=? 57))%N.

End PubMedDate.

(** * Properties *)

(** ** Text operations *)

Example split_ws_ex : PyStr.split_ws "  A  Silva " = ["A"; "Silva"].
Proof. reflexivity. Qed.
Example split_on_ex : PyStr.split_on "," "a,,b," = ["a"; ""; "b"; ""].
Proof. reflexivity. Qed.
Example strip_ex : PyStr.strip "  a b  " = "a b".
Proof. reflexivity. Qed.
Example repr_ex :
  PyVal.str (PList [PInt (-3); PStr "its"; PNone; PDict [("a", PBool true)]])
  = "[-3, 'its', None, {'a': True}]".
Proof. vm_compute. reflexivity. Qed.

(** ** The retry policy (src/revsys/http_retry.py) *)

Section Retry.

Import HttpRetry.

Context {A : Type}.
Implicit Types (op : nat -> result A) (r : run A).

Lemma wait_1 : wait 1 = 1%Z.
Proof. reflexivity. Qed.

Lemma wait_2 : wait 2 = 2%Z.
Proof. reflexivity. Qed.

(** The delays are capped: never below 1 s, never above 10 s. *)
Lemma wait_bounds n : (1 <= wait n <= 10)%Z.
Proof. unfold wait, wait_exponential. lia. Qed.

(** More fuel does not change a run that ended. *)
Lemma retrying_fuel_mono fuel fuel' op n slept r :
  fuel <= fuel' -> retrying fuel op n slept = Some r -> retrying fuel' op n slept = Some r.
Proof.
  revert fuel' n slept. induction fuel as [|fuel IH]; intros fuel' n slept Hle H; [discriminate|].
  destruct fuel' as [|fuel']; [lia|]. simpl in *.
  destruct (op n) as [v|e]; [exact H|].
  destruct (negb (retry e)); [exact H|].
  destruct (stop n); [exact H|].
  apply IH; [lia|exact H].
Qed.

(** An exception that [raise_for_status] raises is a
    [RequestException], whatever the status. *)
Lemma raise_for_status_is_RequestException status e :
  raise_for_status status = Raise e -> is_RequestException e = true.
Proof.
  unfold raise_for_status. destruct (_ && _); [|discriminate].
  intros [= <-]. reflexivity.
Qed.

Lemma raise_for_status_4xx status :
  (400 <= status < 500)%Z -> raise_for_status status = Raise (HTTPError status).
Proof.
  intros H. unfold raise_for_status.
  destruct (400 <=? status)%Z eqn:E1; [|lia].
  destruct (status <? 600)%Z eqn:E2; [reflexivity|lia].
Qed.

(** Three units of fuel always suffice. *)
Lemma retry_on_fail_3 op : exists r, retry_on_fail 3 op = Some r /\ run_ok op r.
Proof.
  unfold retry_on_fail, run_ok. simpl.
  destruct (op 1) as [v1|e1] eqn:E1.
  { eexists; split; [reflexivity|]. simpl. rewrite E1.
    repeat split; try lia; intros; try lia; discriminate. }
  unfold retry. destruct (is_RequestException e1) eqn:R1; simpl.
  2:{ eexists; split; [reflexivity|]. simpl. rewrite E1.
      repeat split; try lia; intros; try lia. congruence. }
  destruct (op 2) as [v2|e2] eqn:E2.
  { eexists; split; [reflexivity|]. simpl. rewrite E2.
    repeat split; try lia; try discriminate.
    intros k Hk. assert (k = 1) as -> by lia. eauto. }
  destruct (is_RequestException e2) eqn:R2; simpl.
  2:{ eexists; split; [reflexivity|]. simpl. rewrite E2.
      repeat split; try lia; try congruence.
      intros k Hk. assert (k = 1) as -> by lia. eauto. }
  assert (Hk : forall k, 1 <= k < 3 -> exists e, op k = Raise e /\ is_RequestException e = true).
  { intros k Hk. assert (k = 1 \/ k = 2) as [-> | ->] by lia; eauto. }
  destruct (op 3) as [v3|e3] eqn:E3.
  { eexists; split; [reflexivity|]. simpl. rewrite E3. repeat split; try lia; auto. }
  destruct (is_RequestException e3) eqn:R3; simpl;
    (eexists; split; [reflexivity|]; simpl; rewrite E3; repeat split; try lia; auto).
Qed.

Lemma retry_on_fail_enough fuel op :
  3 <= fuel -> exists r, retry_on_fail fuel op = Some r /\ run_ok op r.
Proof.
  intros Hfuel. destruct (retry_on_fail_3 op) as (r & Hr & Hok).
  exists r. split; [|exact Hok].
  unfold retry_on_fail in *. eapply retrying_fuel_mono; eauto.
Qed.

(** A run stops before the third call only on a result or on an
    exception that is not retried. *)
Lemma run_ok_exhausts op r :
  run_ok op r ->
  (forall k, 1 <= k <= 3 -> exists e, op k = Raise e /\ is_RequestException e = true) ->
  calls r = 3.
Proof.
  intros (Hout & Hcalls & _ & _ & Hshort) Hall.
  destruct (Nat.eq_dec (calls r) 3) as [E|NE]; [exact E|].
  exfalso. assert (Hlt : calls r < 3) by lia.
  destruct (Hall (calls r)) as (e & He & HR); [lia|].
  rewrite He in Hout. specialize (Hshort Hlt e Hout). congruence.
Qed.

Lemma run_ok_immediate op r e :
  run_ok op r -> op 1 = Raise e -> is_RequestException e = false -> calls r = 1.
Proof.
  intros (_ & Hcalls & _ & Hbefore & _) He HR.
  destruct (Nat.eq_dec (calls r) 1) as [E|NE]; [exact E|].
  exfalso. destruct (Hbefore 1) as (e' & He' & HR'); [lia|]. congruence.
Qed.

Lemma plos_fetch_data_4xx {B} status (body : B) :
  (400 <= status < 500)%Z ->
  plos_fetch_data (Ok (status, body)) = Raise (HTTPError status).
Proof.
  intros H. unfold plos_fetch_data. simpl. rewrite (raise_for_status_4xx _ H). reflexivity.
Qed.

End Retry.

(** C1, as the code has it.  [retry_on_fail] calls the wrapped operation
    at most 3 times; the outcome is that of the last call; every call
    before the last raised a [RequestException] and was followed by a
    sleep of 1 s, then 2 s; a run of fewer than 3 calls ended in a result
    or in an exception that is no [RequestException].  So three
    [RequestException]s in a row end in the third one being re-raised, an
    exception of another class is raised at once, and the [HTTPError]
    that [raise_for_status] raises for a 4xx status is retried like any
    other [RequestException]. *)
Theorem C1_retry_on_fail_policy :
  forall (A : Type) (op : nat -> result A) (fuel : nat),
    3 <= fuel ->
    exists r : HttpRetry.run A,
      HttpRetry.retry_on_fail fuel op = Some r /\
      HttpRetry.outcome r = op (HttpRetry.calls r) /\
      1 <= HttpRetry.calls r <= 3 /\
      HttpRetry.sleeps r = firstn (HttpRetry.calls r - 1) [1; 2]%Z /\
      (forall k, 1 <= k < HttpRetry.calls r ->
         exists e, op k = Raise e /\ is_RequestException e = true) /\
      (HttpRetry.calls r < 3 ->
         forall e, HttpRetry.outcome r = Raise e -> is_RequestException e = false) /\
      ((forall k, 1 <= k <= 3 -> exists e, op k = Raise e /\ is_RequestException e = true) ->
         HttpRetry.calls r = 3 /\ HttpRetry.outcome r = op 3 /\ HttpRetry.sleeps r = [1; 2]%Z) /\
      (forall e, op 1 = Raise e -> is_RequestException e = false ->
         HttpRetry.calls r = 1 /\ HttpRetry.outcome r = Raise e /\ HttpRetry.sleeps r = []) /\
      (forall status body, (400 <= status < 500)%Z ->
         (forall k, op k = HttpRetry.plos_fetch_data (Ok (status, body))) ->
         HttpRetry.calls r = 3 /\ HttpRetry.outcome r = Raise (HTTPError status)).
Proof.
  intros A op fuel Hfuel.
  destruct (retry_on_fail_enough fuel op Hfuel) as (r & Hr & Hok).
  exists r. split; [exact Hr|].
  pose proof Hok as (Hout & Hcalls & Hsl & Hbefore & Hshort).
  do 5 (split; [assumption|]).
  split; [|split].
  - intros Hall. pose proof (run_ok_exhausts op r Hok Hall) as E.
    rewrite Hsl, Hout, E. auto.
  - intros e He HR. pose proof (run_ok_immediate op r e Hok He HR) as E.
    rewrite Hsl, Hout, E. auto.
  - intros status body Hst Hop.
    assert (Hall : forall k, 1 <= k <= 3 ->
              exists e, op k = Raise e /\ is_RequestException e = true).
    { intros k _. exists (HTTPError status). split; [|reflexivity].
      rewrite Hop. apply plos_fetch_data_4xx. exact Hst. }
    pose proof (run_ok_exhausts op r Hok Hall) as E.
    rewrite Hout, E, Hop. split; [reflexivity|]. apply plos_fetch_data_4xx. exact Hst.
Qed.

Lemma C1_retry_on_fail_policy_witness :
  3 <= 3 /\
  exists r : HttpRetry.run pyval,
    HttpRetry.retry_on_fail 3 flaky_then_ok = Some r /\
    HttpRetry.outcome r = Ok (PStr "page") /\ HttpRetry.calls r = 3.
Proof.
  split; [lia|].
  destruct (C1_retry_on_fail_policy pyval flaky_then_ok 3 (le_n 3))
    as (r & Hr & Hrest).
  exists r. split; [exact Hr|].
  vm_compute in Hr. injection Hr as <-. split; reflexivity.
Defined.

(** The statement of the specification fails on a 401: the [HTTPError] that
    [raise_for_status] raises for it is a [RequestException], so
    [PlosAPI.fetch_data] is called three times, not once. *)
Lemma C1_counterexample_401_is_retried :
  HttpRetry.retry_on_fail 3 plos_always_401
    = Some (HttpRetry.Run (Raise (HTTPError 401)) 3 [1; 2]%Z) /\
  ~ (exists r, HttpRetry.retry_on_fail 3 plos_always_401 = Some r /\ HttpRetry.calls r = 1).
Proof.
  split; [reflexivity|].
  intros (r & Hr & Hcalls). vm_compute in Hr. injection Hr as <-. discriminate.
Qed.

Example unescape_ex1 : Html.unescape "a &amp;lt; b &gt c &ampx;" = "a &lt; b > c &x;".
Proof. vm_compute. reflexivity. Qed.

(** ** Python values *)

(** Induction on values through the lists and dicts inside them *)
Lemma pyval_ind' (P : pyval -> Prop) :
  P PNone ->
  (forall b, P (PBool b)) ->
  (forall z, P (PInt z)) ->
  (forall s, P (PStr s)) ->
  (forall l, Forall P l -> P (PList l)) ->
  (forall d, Forall (fun kv => P (snd kv)) d -> P (PDict d)) ->
  forall v, P v.
Proof.
  intros HN HB HI HS HL HD.
  fix IH 1. intros [ | b | z | s | l | d ].
  - exact HN.
  - apply HB.
  - apply HI.
  - apply HS.
  - apply HL. induction l as [|x l IHl]; constructor; [apply IH | exact IHl].
  - apply HD. induction d as [|[k x] d IHd]; constructor; [apply IH | exact IHd].
Qed.

Lemma pyval_eqb_eq (x y : pyval) : pyval_eqb x y = true <-> x = y.
Proof.
  revert y. induction x as [ | b | z | s | l IHl | d IHd ] using pyval_ind';
    intros y; destruct y as [ | b' | z' | s' | l' | d' ]; simpl;
    try (split; [discriminate | discriminate]); try (split; reflexivity).
  - rewrite Bool.eqb_true_iff. split; congruence.
  - rewrite Z.eqb_eq. split; congruence.
  - rewrite String.eqb_eq. split; congruence.
  - revert l'. induction IHl as [|x l Hx Hl IH]; intros [|y l']; simpl;
      try (split; [discriminate | discriminate]); try (split; reflexivity).
    rewrite andb_true_iff, Hx, IH. split.
    + intros [-> [= ->]]. reflexivity.
    + intros [= -> ->]. auto.
  - revert d'. induction IHd as [|[k x] d Hx Hd IH]; intros [|[k' y] d']; simpl;
      try (split; [discriminate | discriminate]); try (split; reflexivity).
    simpl in Hx. rewrite !andb_true_iff, String.eqb_eq, Hx, IH. split.
    + intros [[-> ->] [= ->]]. reflexivity.
    + intros [= -> -> ->]. auto.
Qed.

Lemma pyval_eqb_refl (x : pyval) : pyval_eqb x x = true.
Proof. apply pyval_eqb_eq. reflexivity. Qed.

(** ** The standard columns *)

Lemma STANDARD_COLUMNS_length : List.length STANDARD_COLUMNS = 20.
Proof. reflexivity. Qed.

Lemma STANDARD_COLUMNS_NoDup : NoDup STANDARD_COLUMNS.
Proof.
  unfold STANDARD_COLUMNS.
  repeat (apply NoDup_cons_2; [rewrite ?elem_of_cons, elem_of_nil; intuition discriminate|]).
  apply NoDup_nil_2.
Qed.

Lemma padroniza_step_keeps registro coluna c v :
  registro !! c = Some v -> padroniza_step registro coluna !! c = Some v.
Proof.
  intros H. unfold padroniza_step. destruct (registro !! coluna) eqn:E; [exact H|].
  rewrite lookup_insert_ne; [exact H|]. intros ->. congruence.
Qed.

Lemma padroniza_fold_keeps cols registro c v :
  registro !! c = Some v -> fold_left padroniza_step cols registro !! c = Some v.
Proof.
  revert registro. induction cols as [|col cols IH]; intros registro H; simpl; [exact H|].
  apply IH. apply padroniza_step_keeps. exact H.
Qed.

(** A field that the record has keeps its value. *)
Lemma padroniza_keeps registro c v :
  registro !! c = Some v -> padroniza_registro registro !! c = Some v.
Proof. apply padroniza_fold_keeps. Qed.

Lemma padroniza_fold_fills cols registro c :
  In c cols -> registro !! c = None -> fold_left padroniza_step cols registro !! c = Some NA.
Proof.
  revert registro. induction cols as [|col cols IH]; intros registro Hin H; simpl; [destruct Hin|].
  destruct (string_dec col c) as [->|Hne].
  - apply padroniza_fold_keeps. unfold padroniza_step. rewrite H. apply lookup_insert_eq.
  - destruct Hin as [Heq|Hin]; [contradiction|].
    apply IH; [exact Hin|]. unfold padroniza_step.
    destruct (registro !! col); [exact H|]. rewrite lookup_insert_ne; [exact H|exact Hne].
Qed.

(** A standard field that the record lacks is filled with "N/A". *)
Lemma padroniza_fills registro c :
  In c STANDARD_COLUMNS -> registro !! c = None -> padroniza_registro registro !! c = Some NA.
Proof. apply padroniza_fold_fills. Qed.

(** After [padroniza_registro] every standard field is there. *)
Lemma padroniza_present registro c :
  In c STANDARD_COLUMNS -> is_Some (padroniza_registro registro !! c).
Proof.
  intros Hin. destruct (registro !! c) as [v|] eqn:E.
  - exists v. apply padroniza_keeps. exact E.
  - exists NA. apply padroniza_fills; assumption.
Qed.

Lemma padroniza_fold_other cols registro c :
  ~ In c cols -> fold_left padroniza_step cols registro !! c = registro !! c.
Proof.
  revert registro. induction cols as [|col cols IH]; intros registro Hnin; simpl; [reflexivity|].
  rewrite IH by (intros H; apply Hnin; right; exact H).
  unfold padroniza_step. destruct (registro !! col); [reflexivity|].
  apply lookup_insert_ne. intros ->. apply Hnin. left. reflexivity.
Qed.

Lemma lookup_list_to_map_first {V} (l : list (string * V)) (k : string) :
  (list_to_map l : gmap string V) !! k = assoc_first k l.
Proof.
  induction l as [|[k' v] l IH]; simpl; [apply lookup_empty|].
  destruct (String.eqb k' k) eqn:E.
  - apply String.eqb_eq in E. subst. apply lookup_insert_eq.
  - apply String.eqb_neq in E. rewrite lookup_insert_ne by exact E. exact IH.
Qed.

(** A row of the frame has the standard fields of its record. *)
Lemma reindex_row_lookup registro c :
  In c STANDARD_COLUMNS -> reindex_row registro !! c = registro !! c.
Proof.
  intros Hin. unfold reindex_row. rewrite lookup_list_to_map_first.
  revert Hin. generalize STANDARD_COLUMNS as cols.
  induction cols as [|col cols IH]; intros Hin; [destruct Hin|]. simpl.
  destruct (string_dec col c) as [->|Hne].
  - destruct (registro !! c) eqn:E; simpl.
    + rewrite String.eqb_refl. reflexivity.
    + destruct (in_dec string_dec c cols) as [Hc|Hc]; [apply IH; exact Hc|].
      clear IH Hin. induction cols as [|col cols IH]; simpl; [reflexivity|].
      destruct (registro !! col) eqn:E'; simpl.
      * destruct (String.eqb col c) eqn:E''.
        { apply String.eqb_eq in E''. subst. exfalso. apply Hc. left. reflexivity. }
        apply IH. intros H. apply Hc. right. exact H.
      * apply IH. intros H. apply Hc. right. exact H.
  - destruct Hin as [Heq|Hin]; [contradiction|].
    destruct (registro !! col) eqn:E; simpl.
    + apply String.eqb_neq in Hne. rewrite Hne. apply IH. exact Hin.
    + apply IH. exact Hin.
Qed.

(** ** Reasoning about computations that may raise *)

Lemma post_bind {A B} (Q : B -> Prop) (m : result A) (k : A -> result B) :
  (forall a, m = Ok a -> post Q (k a)) -> post Q (x ← m; k x).
Proof. destruct m as [a|e]; simpl; [auto | trivial]. Qed.

Lemma post_Ok {A} (P : A -> Prop) (m : result A) a : post P m -> m = Ok a -> P a.
Proof. intros H ->. exact H. Qed.

Ltac post_step :=
  match goal with
  | |- post _ (@mbind _ _ _ _ _ _) => apply post_bind; intros ? ?
  | |- post _ (let '(_, _) := (if ?c then _ else _) in _) => destruct c eqn:?
  | |- post _ (let '(_, _) := ?p in _) => destruct p eqn:?
  | |- post _ (if ?c then _ else _) => destruct c eqn:?
  | |- post _ (match ?x with _ => _ end) => destruct x eqn:?
  | |- post _ (Raise _) => exact I
  end.

Ltac post_steps := repeat post_step.

(** The record of every adapter is the result of [padroniza_registro]
    on the dict display of the adapter. *)
Lemma padroniza_display_lookup (l : list (string * pyval)) c v :
  assoc_first c l = Some v -> padroniza_registro (list_to_map l) !! c = Some v.
Proof. intros H. apply padroniza_keeps. rewrite lookup_list_to_map_first. exact H. Qed.

Lemma padroniza_display_missing (l : list (string * pyval)) c :
  In c STANDARD_COLUMNS -> assoc_first c l = None ->
  padroniza_registro (list_to_map l) !! c = Some NA.
Proof. intros Hin H. apply padroniza_fills; [exact Hin|]. rewrite lookup_list_to_map_first. exact H. Qed.

Lemma padroniza_complete registro : complete (padroniza_registro registro).
Proof. intros c Hin. apply padroniza_present. exact Hin. Qed.

Lemma crossref_complete unescape item :
  post complete (Crossref.process_item unescape item).
Proof. unfold Crossref.process_item. post_steps; apply padroniza_complete. Qed.

Lemma scopus_complete entry : post complete (Scopus.process_entry entry).
Proof. unfold Scopus.process_entry. post_steps; apply padroniza_complete. Qed.

Lemma pubmed_complete entry : post complete (PubMed.parse_entry entry).
Proof. unfold PubMed.parse_entry. post_steps; apply padroniza_complete. Qed.

Lemma springer_complete rec : post complete (SpringerNature.process_record rec).
Proof. unfold SpringerNature.process_record. post_steps; apply padroniza_complete. Qed.

Lemma openalex_complete w a : post complete (OpenAlex.work_record w a).
Proof. unfold OpenAlex.work_record. post_steps; apply padroniza_complete. Qed.

Lemma scholar_complete url pub :
  post (fun ru => complete (fst ru) /\ fst ru !! "ID" = Some NA /\ fst ru !! "DOI" = Some NA)
       (Scholar.process_pub url pub).
Proof.
  unfold Scholar.process_pub. post_steps; unfold post; cbn [fst];
    (split; [apply padroniza_complete|]);
    (split; apply padroniza_display_missing; [simpl; tauto | reflexivity | simpl; tauto | reflexivity]).
Qed.

Lemma reindex_row_complete registro : complete registro -> complete (reindex_row registro).
Proof. intros H c Hin. rewrite reindex_row_lookup by exact Hin. apply H. exact Hin. Qed.

(** ** The "Is Open Access" field of the records *)

Lemma has_license_spec lic b :
  Crossref.has_license lic = Ok b -> b = truthy lic && is_list lic.
Proof.
  unfold Crossref.has_license.
  destruct lic as [ | [|] | z | s | [|x l] | [|kv d] ]; simpl; try (intros [= <-]; reflexivity).
  - destruct (z =? 0)%Z; simpl; intros [= <-]; reflexivity.
  - destruct (String.eqb s ""); simpl; intros [= <-]; reflexivity.
Qed.

Lemma crossref_open_access unescape item :
  post (fun r => forall lic, get item "license" (PList []) = Ok lic ->
          r !! "Is Open Access"
          = Some (PStr (if truthy lic && is_list lic then "Yes" else "N/A")))
       (Crossref.process_item unescape item).
Proof.
  unfold Crossref.process_item. post_steps; unfold post; intros lic Hlic;
    match goal with
    | H : get item "license" _ = Ok ?a, H' : Crossref.has_license ?a = Ok _ |- _ =>
      rewrite H in Hlic; injection Hlic as <-; apply has_license_spec in H'; rewrite <- H'
    end;
    apply padroniza_display_lookup; reflexivity.
Qed.

Lemma scopus_open_access entry :
  post (fun r => r !! "Is Open Access" = Some (PStr "N/A")) (Scopus.process_entry entry).
Proof.
  unfold Scopus.process_entry. post_steps; unfold post;
    apply padroniza_display_lookup; reflexivity.
Qed.

Lemma scholar_open_access url pub :
  post (fun ru => fst ru !! "Is Open Access" = Some (PStr "N/A")) (Scholar.process_pub url pub).
Proof.
  unfold Scholar.process_pub. post_steps; unfold post; cbn [fst];
    apply padroniza_display_lookup; reflexivity.
Qed.

Lemma pubmed_open_access entry :
  post (fun r => forall is_oa, get entry "is_oa" (PBool false) = Ok is_oa ->
          r !! "Is Open Access" = Some (PStr (if truthy is_oa then "Yes" else "No")))
       (PubMed.parse_entry entry).
Proof.
  unfold PubMed.parse_entry. post_steps; unfold post; intros is_oa Hoa;
    match goal with
    | H : get entry "is_oa" _ = Ok ?a |- _ => rewrite H in Hoa; injection Hoa as <-
    end;
    apply padroniza_display_lookup; reflexivity.
Qed.

Lemma springer_open_access rec :
  post (fun r => forall openaccess, get rec "openaccess" (PStr "false") = Ok openaccess ->
          r !! "Is Open Access"
          = Some (PStr (if String.eqb (PyStr.lower (str openaccess)) "true" then "Yes" else "No")))
       (SpringerNature.process_record rec).
Proof.
  unfold SpringerNature.process_record. post_steps; unfold post; intros oa Hoa;
    match goal with
    | H : get rec "openaccess" _ = Ok ?a |- _ => rewrite H in Hoa; injection Hoa as <-
    end;
    apply padroniza_display_lookup; reflexivity.
Qed.

Lemma openalex_open_access w abstract :
  post (fun r => forall oa_info is_oa,
          get w "open_access" (PDict []) = Ok oa_info ->
          get oa_info "is_oa" (PBool false) = Ok is_oa ->
          r !! "Is Open Access" = Some (PStr (if truthy is_oa then "Yes" else "No")))
       (OpenAlex.work_record w abstract).
Proof.
  unfold OpenAlex.work_record. post_steps; unfold post; intros oa_info is_oa Hinfo Hoa;
    match goal with
    | H : get w "open_access" _ = Ok ?a, H' : get ?a "is_oa" _ = Ok ?b |- _ =>
      rewrite H in Hinfo; injection Hinfo as <-; rewrite H' in Hoa; injection Hoa as <-
    end;
    apply padroniza_display_lookup; reflexivity.
Qed.

(** Without an [ArticleId] of type "pmc", [is_oa] is [False]. *)
Lemma pmc_fold_none ids acc :
  (forall a, In a ids ->
     String.eqb (PyStr.lower (match PubMed.IdType a with Some t => t | None => "" end)) "pmc"
     = false) ->
  fold_left PubMed.pmc_step ids acc = acc.
Proof.
  revert acc. induction ids as [|a ids IH]; intros acc H; simpl; [reflexivity|].
  rewrite IH by (intros b Hb; apply H; right; exact Hb).
  unfold PubMed.pmc_step. rewrite (H a) by (left; reflexivity). reflexivity.
Qed.

Lemma is_oa_of_no_pmc ids :
  (forall a, In a ids ->
     String.eqb (PyStr.lower (match PubMed.IdType a with Some t => t | None => "" end)) "pmc"
     = false) ->
  PubMed.is_oa_of ids = false.
Proof.
  intros H. unfold PubMed.is_oa_of, PubMed.pmc_id_of. rewrite pmc_fold_none by exact H.
  reflexivity.
Qed.

(** Lookup of a key that a dict does not have *)
Lemma get_missing d k default :
  lookup_item k d = None -> get (PDict d) k default = Ok default.
Proof. intros H. simpl. rewrite H. reflexivity. Qed.

(** ** C10: works without abstract *)

Lemma has_truthy_dict k d : OpenAlex.has_truthy k (PDict d) = Ok (truthy_item k d).
Proof.
  unfold OpenAlex.has_truthy, truthy_item. simpl.
  destruct (lookup_item k d); reflexivity.
Qed.

Lemma abstract_of_no_abstract d :
  no_abstract d = true -> OpenAlex.abstract_of (PDict d) = Ok None.
Proof.
  unfold no_abstract. rewrite andb_true_iff, !negb_true_iff. intros [H1 H2].
  unfold OpenAlex.abstract_of. rewrite !has_truthy_dict, H1. simpl. rewrite H2. reflexivity.
Qed.

Lemma process_work_no_abstract d :
  no_abstract d = true -> OpenAlex.process_work (PDict d) = Ok None.
Proof.
  intros H. unfold OpenAlex.process_work. rewrite (abstract_of_no_abstract d H). reflexivity.
Qed.

Lemma rows_of_skip before w after :
  OpenAlex.process_work w = Ok None ->
  OpenAlex.rows_of (before ++ w :: after) = OpenAlex.rows_of (before ++ after).
Proof.
  intros H. induction before as [|x before IH]; simpl.
  - rewrite H. simpl. destruct (OpenAlex.rows_of after); reflexivity.
  - rewrite IH. reflexivity.
Qed.

(** Every row comes from a work that has an abstract. *)
Lemma rows_of_origin works :
  post (fun rows => forall row, In row rows ->
          exists w a, In w works /\ OpenAlex.abstract_of w = Ok (Some a) /\
                      OpenAlex.work_record w a = Ok row)
       (OpenAlex.rows_of works).
Proof.
  induction works as [|w works IH]; simpl.
  - intros row [].
  - apply post_bind. intros r Hr. apply post_bind. intros rows Hrows.
    rewrite Hrows in IH. simpl in IH. unfold post.
    assert (Htail : forall row, In row rows ->
              exists w0 a, In w0 (w :: works) /\ OpenAlex.abstract_of w0 = Ok (Some a) /\
                           OpenAlex.work_record w0 a = Ok row).
    { intros row Hin. destruct (IH row Hin) as (w0 & a & Hw0 & Ha & Hrec).
      exists w0, a. split; [right; exact Hw0 | split; assumption]. }
    destruct r as [registro|]; [|exact Htail].
    intros row [<- | Hin]; [|apply Htail; exact Hin].
    unfold OpenAlex.process_work in Hr.
    destruct (OpenAlex.abstract_of w) as [[a|]|e] eqn:Ea; simpl in Hr; try discriminate.
    destruct (OpenAlex.work_record w a) as [reg|e] eqn:Er; simpl in Hr; [|discriminate].
    injection Hr as <-. exists w, a. split; [left; reflexivity | split; assumption].
Qed.

(** C10.  A work with neither a non-empty "abstract" nor a non-empty
    "abstract_inverted_index" is skipped: the pass of the loop for it
    yields no record (and raises nothing, whatever else the work
    holds), the frame of a list of works is the frame of the list
    without it, and every row of a frame stems from a work that has an
    abstract. *)
Theorem C10_openalex_skips_works_without_abstract :
  forall d : list (string * pyval),
    no_abstract d = true ->
    OpenAlex.process_work (PDict d) = Ok None /\
    (forall before after,
       OpenAlex._process_works (before ++ PDict d :: after)
       = OpenAlex._process_works (before ++ after)) /\
    OpenAlex._process_works [PDict d] = Ok [] /\
    (forall works rows,
       OpenAlex.rows_of works = Ok rows ->
       forall row, In row rows ->
         exists w a, In w works /\ w <> PDict d /\
                     OpenAlex.abstract_of w = Ok (Some a) /\
                     OpenAlex.work_record w a = Ok row).
Proof.
  intros d Hd. pose proof (process_work_no_abstract d Hd) as Hskip.
  split; [exact Hskip|]. split; [|split].
  - intros before after. unfold OpenAlex._process_works.
    rewrite (rows_of_skip before (PDict d) after Hskip). reflexivity.
  - unfold OpenAlex._process_works. simpl. rewrite Hskip. reflexivity.
  - intros works rows Hrows row Hin.
    destruct (post_Ok _ _ _ (rows_of_origin works) Hrows row Hin) as (w & a & Hw & Ha & Hrec).
    exists w, a. split; [exact Hw|]. split; [|split; assumption].
    intros ->. rewrite (abstract_of_no_abstract d Hd) in Ha. discriminate Ha.
Qed.

Lemma C10_openalex_skips_works_without_abstract_witness :
  no_abstract items_no_abstract = true /\
  OpenAlex._process_works [work_no_abstract; work_null_doi]
  = OpenAlex._process_works [work_null_doi] /\
  column_of "ID" (OpenAlex._process_works [work_no_abstract; work_null_doi])
  = Ok [Some (PStr "W1")].
Proof.
  split; [reflexivity|]. split.
  - exact (proj1 (proj2 (C10_openalex_skips_works_without_abstract items_no_abstract eq_refl))
             [] [work_null_doi]).
  - vm_compute. reflexivity.
Defined.

(** ** Names and their last word: the "Authors Year" tag of Crossref *)

Section SplitWs.

Import PyStr.




Lemma rstrip_head a r : isspace a = false -> exists r', rstrip (String a r) = String a r'.
Proof.
  intros Ha. simpl. destruct (rstrip r) as [|b r'].
  - rewrite Ha. eexists. reflexivity.
  - eexists. reflexivity.
Qed.



End SplitWs.


Lemma mapM_Forall {A B} (f : A -> result B) (P : B -> Prop) l ys :
  (forall x y, f x = Ok y -> P y) -> mapM f l = Ok ys -> Forall P ys.
Proof.
  intros Hf. revert ys. induction l as [|x l IH]; simpl; intros ys H.
  - injection H as <-. constructor.
  - destruct (f x) as [y|] eqn:Ey; simpl in H; [|discriminate].
    destruct (mapM f l) as [ys'|]; simpl in H; [|discriminate].
    injection H as <-. constructor; [eapply Hf; eauto | apply IH; reflexivity].
Qed.



Example springer_sample :
  column_of "Is Open Access" (SpringerNature.process_data springer_sample_data)
  = Ok [Some (PStr "No")] /\
  column_of "Authors Year" (SpringerNature.process_data springer_sample_data)
  = Ok [Some (PStr "Silva and Souza 2023")].
Proof. split; vm_compute; reflexivity. Qed.

Example scholar_sample :
  column_of "Authors Year" (Scholar.search scholar_sample_pubs 10)
  = Ok [Some (PStr "Silva 2023"); Some (PStr "Lima 2021")] /\
  column_of "DOI" (Scholar.search scholar_sample_pubs 10)
  = Ok [Some (PStr "N/A"); Some (PStr "N/A")] /\
  column_of "Download URL" (Scholar.search scholar_sample_pubs 10)
  = Ok [Some (PStr "http://example.org/a.pdf"); Some (PStr "http://example.org/a.pdf")] /\
  column_of "ID" (Scholar.search scholar_sample_pubs 1) = Ok [Some (PStr "N/A")].
Proof. repeat split; vm_compute; reflexivity. Qed.

Example crossref_doe_2023 :
  Crossref._format_authors_year
    (PList [PDict [("given", PStr "John"); ("family", PStr "Doe")]]) "2023" = Ok "Doe 2023".
Proof. reflexivity. Qed.

(** ** C3 and C4: aggregation and deduplication (src/revsys/cli.py) *)

Section Dedup.

Import Cli.

Lemma cell_eqb_eq a b : cell_eqb a b = true <-> a = b.
Proof.
  destruct a as [x|], b as [y|]; simpl.
  - rewrite pyval_eqb_eq. split; congruence.
  - split; discriminate.
  - split; discriminate.
  - split; reflexivity.
Qed.

Lemma key_eqb_eq k1 k2 : key_eqb k1 k2 = true <-> k1 = k2.
Proof.
  destruct k1 as [a1 b1], k2 as [a2 b2]. unfold key_eqb. simpl.
  rewrite andb_true_iff, !cell_eqb_eq. split; [intros [-> ->]; reflexivity | intros [= -> ->]; auto].
Qed.

Lemma seen_spec k seen : existsb (key_eqb k) seen = true <-> In k seen.
Proof.
  rewrite existsb_exists. split.
  - intros (k' & Hin & Heq). apply key_eqb_eq in Heq. subst. exact Hin.
  - intros Hin. exists k. split; [exact Hin | apply key_eqb_eq; reflexivity].
Qed.

Lemma seen_spec_false k seen : existsb (key_eqb k) seen = false <-> ~ In k seen.
Proof. rewrite <- seen_spec. destruct (existsb (key_eqb k) seen); split; congruence. Qed.

(** The rows that are kept are rows of the frame, in its order. *)
Lemma drop_duplicates_go_sublist seen df : sublist (drop_duplicates_go seen df) df.
Proof.
  revert seen. induction df as [|row df IH]; intros seen; simpl; [constructor|].
  destruct (existsb (key_eqb (key row)) seen).
  - apply sublist_cons. apply IH.
  - apply sublist_skip. apply IH.
Qed.

Lemma drop_duplicates_go_In seen df row :
  In row (drop_duplicates_go seen df) -> In row df /\ ~ In (key row) seen.
Proof.
  revert seen. induction df as [|r df IH]; intros seen; simpl; [intros []|].
  destruct (existsb (key_eqb (key r)) seen) eqn:E.
  - intros H. destruct (IH _ H) as [H1 H2]. split; [right; exact H1 | exact H2].
  - intros [<- | H].
    + split; [left; reflexivity | apply seen_spec_false; exact E].
    + destruct (IH _ H) as [H1 H2]. split; [right; exact H1|].
      intros Hin. apply H2. right. exact Hin.
Qed.

(** No two rows that are kept have the same pair. *)
Lemma drop_duplicates_go_NoDup seen df :
  List.NoDup (map key (drop_duplicates_go seen df)).
Proof.
  revert seen. induction df as [|r df IH]; intros seen; simpl; [constructor|].
  destruct (existsb (key_eqb (key r)) seen) eqn:E; [apply IH|].
  simpl. constructor; [|apply IH].
  intros Hin. apply in_map_iff in Hin as (row & Hk & Hrow).
  apply drop_duplicates_go_In in Hrow as [_ Hns]. apply Hns. left. symmetry. exact Hk.
Qed.

(** The row that is kept for a pair is the first row of the frame with
    that pair. *)
Lemma drop_duplicates_go_first seen df k :
  ~ In k seen -> first_with k (drop_duplicates_go seen df) = first_with k df.
Proof.
  unfold first_with. revert seen. induction df as [|r df IH]; intros seen Hk; simpl; [reflexivity|].
  destruct (existsb (key_eqb (key r)) seen) eqn:E.
  - destruct (key_eqb (key r) k) eqn:Ek.
    + apply key_eqb_eq in Ek. subst. apply seen_spec in E. contradiction.
    + apply IH. exact Hk.
  - simpl. destruct (key_eqb (key r) k) eqn:Ek; [reflexivity|].
    apply IH. intros [Heq|Hin]; [|contradiction].
    subst. rewrite (proj2 (key_eqb_eq _ _) eq_refl) in Ek. discriminate.
Qed.

Lemma first_with_Some k df row : first_with k df = Some row -> In row df /\ key row = k.
Proof.
  unfold first_with. intros H. apply find_some in H as [Hin Hk].
  split; [exact Hin | apply key_eqb_eq; exact Hk].
Qed.

Lemma first_with_In k df row : In row df -> key row = k -> is_Some (first_with k df).
Proof.
  intros Hin Hk. unfold first_with.
  destruct (List.find (fun r => key_eqb (key r) k) df) as [r|] eqn:E; [eexists; reflexivity|].
  exfalso. pose proof (find_none _ _ E row Hin) as Hn. simpl in Hn.
  rewrite (proj2 (key_eqb_eq _ _) Hk) in Hn. discriminate.
Qed.

(** Every pair of the frame is still there after the deduplication. *)
Lemma drop_duplicates_covers df row :
  In row df -> exists row', In row' (drop_duplicates df) /\ key row' = key row.
Proof.
  intros Hin. destruct (first_with_In (key row) df row Hin eq_refl) as [r Hr].
  unfold drop_duplicates.
  rewrite <- (drop_duplicates_go_first [] df (key row)) in Hr by (intros []).
  apply first_with_Some in Hr. exists r. exact Hr.
Qed.

End Dedup.

(** C3, as the code has it.  The aggregated output is the
    concatenation of the frames, in the order in which the sources were
    invoked, without the rows whose (DOI, Title) pair occurred before:
    no two rows of the output have the same pair, the rows keep their
    order, and the row kept for a pair is the first row of the
    concatenation with that pair.  The pair ("N/A", "N/A") is a pair
    like any other. *)
Theorem C3_drop_duplicates_keeps_first :
  forall frames : list (list (gmap string pyval)),
    let df := Cli.pd_concat frames in
    let out := Cli.drop_duplicates df in
    List.NoDup (map Cli.key out) /\
    sublist out df /\
    (forall k, first_with k out = first_with k df) /\
    (forall row, In row df -> exists row', In row' out /\ Cli.key row' = Cli.key row).
Proof.
  intros frames df out. split; [|split; [|split]].
  - apply drop_duplicates_go_NoDup.
  - apply drop_duplicates_go_sublist.
  - intros k. apply drop_duplicates_go_first. intros [].
  - apply drop_duplicates_covers.
Qed.

(** The statement of the specification fails on records whose DOI and Title are both
    "N/A": two such records of Crossref, which differ in their URL, are
    duplicates of each other, and the second is dropped. *)
Lemma C3_counterexample_na_pairs_are_duplicates :
  column_of "Download URL" (Crossref.process_data Html.unescape data_two_untitled)
  = Ok [Some (PStr "http://example.org/1"); Some (PStr "http://example.org/2")] /\
  column_of "DOI" (Crossref.process_data Html.unescape data_two_untitled)
  = Ok [Some (PStr "N/A"); Some (PStr "N/A")] /\
  column_of "Title" (Crossref.process_data Html.unescape data_two_untitled)
  = Ok [Some (PStr "N/A"); Some (PStr "N/A")] /\
  column_of "Download URL"
    (rows ← Crossref.process_data Html.unescape data_two_untitled;
     Ok (Cli.drop_duplicates (Cli.pd_concat [DataFrame rows])))
  = Ok [Some (PStr "http://example.org/1")].
Proof. repeat split; vm_compute; reflexivity. Qed.

Section SearchSpec.

Import Cli.

Variable adapter : string -> string -> result (list (gmap string pyval)).

Lemma search_source_spec qry st src :
  df_list (search_source adapter qry st src)
  = df_list st ++ match contribution adapter qry src with Some df => [df] | None => [] end /\
  csv (search_source adapter qry st src) = csv st.
Proof.
  unfold search_source, contribution.
  destruct (existsb (String.eqb src) known_sources); simpl; [|rewrite app_nil_r; auto].
  destruct (adapter qry src) as [[|row df]|e]; simpl.
  - destruct (String.eqb src "crossref"); simpl; rewrite app_nil_r; auto.
  - rewrite andb_false_r. simpl. auto.
  - rewrite app_nil_r. auto.
Qed.

Lemma search_sources_spec qry sources_list st :
  df_list (fold_left (search_source adapter qry) sources_list st)
  = df_list st ++ omap (contribution adapter qry) sources_list /\
  csv (fold_left (search_source adapter qry) sources_list st) = csv st.
Proof.
  revert st. induction sources_list as [|src l IH]; intros st; simpl.
  - rewrite app_nil_r. auto.
  - destruct (IH (search_source adapter qry st src)) as [-> ->].
    destruct (search_source_spec qry st src) as [-> ->].
    rewrite <- app_assoc. split; [|reflexivity]. f_equal.
    destruct (contribution adapter qry src); reflexivity.
Qed.

Lemma search_query_spec sources_list st qry :
  csv st = aggregate (df_list st) ->
  df_list (search_query adapter sources_list st qry)
  = df_list st ++ omap (contribution adapter qry) sources_list /\
  csv (search_query adapter sources_list st qry)
  = aggregate (df_list (search_query adapter sources_list st qry)).
Proof.
  intros Hinv. unfold search_query.
  destruct (search_sources_spec qry sources_list st) as [Hdf Hcsv].
  destruct (df_list (fold_left (search_source adapter qry) sources_list st)) as [|df l] eqn:E;
    simpl.
  - split; [exact Hdf|]. rewrite Hcsv, Hinv.
    symmetry in Hdf. apply app_eq_nil in Hdf as [-> _]. reflexivity.
  - split; [exact Hdf|]. reflexivity.
Qed.

Lemma search_queries_spec sources_list query st :
  csv st = aggregate (df_list st) ->
  df_list (fold_left (search_query adapter sources_list) query st)
  = df_list st ++ contributions adapter query sources_list /\
  csv (fold_left (search_query adapter sources_list) query st)
  = aggregate (df_list (fold_left (search_query adapter sources_list) query st)).
Proof.
  revert st. induction query as [|qry query IH]; intros st Hinv; simpl.
  - rewrite app_nil_r. auto.
  - destruct (search_query_spec sources_list st qry Hinv) as [Hdf Hcsv].
    destruct (IH _ Hcsv) as [Hdf' Hcsv']. split; [|exact Hcsv'].
    rewrite Hdf', Hdf, <- app_assoc. reflexivity.
Qed.

Lemma search_spec query sources :
  csv (search adapter query sources)
  = aggregate (contributions adapter query (effective_sources sources)).
Proof.
  unfold search. fold (effective_sources sources).
  destruct (search_queries_spec (effective_sources sources) query (State [] None []) eq_refl)
    as [Hdf Hcsv].
  rewrite Hcsv, Hdf. reflexivity.
Qed.

End SearchSpec.

Lemma In_omap {A B} (f : A -> option B) l y :
  In y (omap f l) <-> exists x, In x l /\ f x = Some y.
Proof.
  induction l as [|a l IH]; simpl.
  - split; [intros [] | intros (x & [] & _)].
  - destruct (f a) as [b|] eqn:E; simpl; rewrite IH; split.
    + intros [<- | (x & Hx & Hf)]; [exists a; auto | exists x; auto].
    + intros (x & [<- | Hx] & Hf); [left; congruence | right; exists x; auto].
    + intros (x & Hx & Hf). exists x. auto.
    + intros (x & [<- | Hx] & Hf); [congruence | exists x; auto].
Qed.

Lemma In_contributions adapter query sources_list df :
  In df (contributions adapter query sources_list) <->
  exists qry src, In qry query /\ In src sources_list /\
                  Cli.contribution adapter qry src = Some df.
Proof.
  unfold contributions. rewrite in_flat_map. split.
  - intros (qry & Hq & Hin). apply In_omap in Hin as (src & Hs & Hc). exists qry, src. auto.
  - intros (qry & src & Hq & Hs & Hc). exists qry. split; [exact Hq|].
    apply In_omap. exists src. auto.
Qed.

Lemma contribution_Some adapter qry src df :
  Cli.contribution adapter qry src = Some df ->
  In src Cli.known_sources /\ adapter qry src = Ok df /\ df <> [].
Proof.
  unfold Cli.contribution.
  destruct (existsb (String.eqb src) Cli.known_sources) eqn:E; [|discriminate].
  destruct (adapter qry src) as [[|row l]|e]; try discriminate.
  intros [= <-]. split; [|split; [reflexivity|discriminate]].
  apply existsb_exists in E as (s & Hin & Heq). apply String.eqb_eq in Heq. subst. exact Hin.
Qed.

Lemma contribution_of_frame adapter qry src row df :
  In src Cli.known_sources -> adapter qry src = Ok (row :: df) ->
  Cli.contribution adapter qry src = Some (row :: df).
Proof.
  intros Hin H. unfold Cli.contribution. rewrite H.
  assert (E : existsb (String.eqb src) Cli.known_sources = true).
  { apply existsb_exists. exists src. split; [exact Hin | apply String.eqb_refl]. }
  rewrite E. reflexivity.
Qed.

Lemma contributions_skip adapter query l1 src l2 :
  (forall qry, Cli.contribution adapter qry src = None) ->
  contributions adapter query (l1 ++ src :: l2) = contributions adapter query (l1 ++ l2).
Proof.
  intros H. unfold contributions. induction query as [|qry query IH]; simpl; [reflexivity|].
  rewrite IH. f_equal. rewrite !omap_app. simpl. rewrite (H qry). reflexivity.
Qed.

(** C4.  The file written by [search] is the deduplicated concatenation
    of the frames of the sources that returned a frame with rows; a
    source whose adapter raises contributes nothing and changes nothing
    else: the output is the one of the same run without that source,
    every record of a source that succeeded is in the output (itself, or
    the earlier record with the same DOI and Title), and every record of
    the output is a record of a source that succeeded. *)
Theorem C4_failing_source_is_skipped :
  forall (adapter : string -> string -> result (list (gmap string pyval)))
         (query sources : list string),
    Cli.csv (Cli.search adapter query sources)
    = aggregate (contributions adapter query (effective_sources sources)) /\
    (forall l1 src l2,
       (forall qry, exists e, adapter qry src = Raise e) ->
       aggregate (contributions adapter query (l1 ++ src :: l2))
       = aggregate (contributions adapter query (l1 ++ l2))) /\
    (forall qry src row df,
       In qry query -> In src (effective_sources sources) -> In src Cli.known_sources ->
       adapter qry src = Ok (row :: df) ->
       exists out, Cli.csv (Cli.search adapter query sources) = Some out /\
         forall r, In r (row :: df) -> exists r', In r' out /\ Cli.key r' = Cli.key r) /\
    (forall out r,
       Cli.csv (Cli.search adapter query sources) = Some out -> In r out ->
       exists qry src df, In qry query /\ In src (effective_sources sources) /\
                          adapter qry src = Ok df /\ In r df).
Proof.
  intros adapter query sources. rewrite search_spec. split; [reflexivity|]. split; [|split].
  - intros l1 src l2 Hfail. rewrite contributions_skip; [reflexivity|].
    intros qry. destruct (Hfail qry) as (e & He). unfold Cli.contribution. rewrite He.
    destruct (existsb _ _); reflexivity.
  - intros qry src row df Hq Hs Hk Hok.
    pose proof (contribution_of_frame adapter qry src row df Hk Hok) as Hc.
    assert (Hin : In (row :: df) (contributions adapter query (effective_sources sources))).
    { apply In_contributions. exists qry, src. auto. }
    unfold aggregate.
    destruct (contributions adapter query (effective_sources sources)) as [|f fs] eqn:E;
      [destruct Hin|].
    eexists. split; [reflexivity|]. intros r Hr. apply drop_duplicates_covers.
    change (In r (concat (f :: fs))). apply in_concat. exists (row :: df). split; assumption.
  - intros out r Hout Hr. unfold aggregate in Hout.
    destruct (contributions adapter query (effective_sources sources)) as [|f fs] eqn:E;
      [discriminate|].
    injection Hout as <-. unfold Cli.drop_duplicates in Hr.
    apply drop_duplicates_go_In in Hr as [Hr _].
    change (In r (concat (f :: fs))) in Hr. apply in_concat in Hr as (df & Hdf & Hr).
    rewrite <- E in Hdf. apply In_contributions in Hdf as (qry & src & Hq & Hs & Hc).
    apply contribution_Some in Hc as (_ & Hok & _). exists qry, src, df. auto.
Qed.

Lemma C4_failing_source_is_skipped_witness :
  three_sources "q" "arxiv" = Raise ValueError /\
  aggregate (contributions three_sources ["q"] ([] ++ "arxiv" :: ["crossref"; "openalex"]))
  = aggregate (contributions three_sources ["q"] ([] ++ ["crossref"; "openalex"])) /\
  column_of "API"
    (match Cli.csv (Cli.search three_sources ["q"] ["arxiv"; "crossref"; "openalex"]) with
     | Some out => Ok out
     | None => Raise ValueError
     end)
  = Ok [Some (PStr "crossref"); Some (PStr "openalex")].
Proof.
  split; [reflexivity|]. split.
  - apply (proj1 (proj2 (C4_failing_source_is_skipped three_sources ["q"] []))).
    intros qry. exists ValueError. reflexivity.
  - vm_compute. reflexivity.
Defined.

(** ** C2: the limit on the number of records *)

Lemma slice_to_length {A} (m : Z) (l : list A) :
  (0 < m)%Z -> (Z.of_nat (List.length (Crossref.slice_to m l)) <= m)%Z.
Proof.
  intros Hm. unfold Crossref.slice_to.
  destruct (0 <=? m)%Z eqn:E; [|lia].
  rewrite length_firstn. lia.
Qed.

Lemma reached_false m n :
  (0 < m)%Z -> Crossref.reached (Some m) n = false -> (Z.of_nat n < m)%Z.
Proof.
  intros Hm. unfold Crossref.reached. rewrite andb_false_iff, negb_false_iff.
  intros [H|H]; lia.
Qed.

Section CrossrefLimit.

#[local] Arguments Crossref.reached : simpl never.
#[local] Arguments Crossref.slice_to : simpl never.
#[local] Arguments Crossref.process_data : simpl never.

(** [CrossrefAPI.run_pipeline] cuts the records at [max_records]. *)
Lemma crossref_loop_bound unescape fuel fetch_data rows m offset all_records out :
  (0 < m)%Z ->
  (Z.of_nat (List.length all_records) < m)%Z ->
  Crossref.run_pipeline_loop unescape fuel fetch_data rows (Some m) offset all_records
  = Some (Ok out) ->
  (Z.of_nat (List.length out) <= m)%Z.
Proof.
  intros Hm. revert offset all_records.
  induction fuel as [|fuel IH]; intros offset all_records Hlen; simpl; [discriminate|].
  destruct (fetch_data offset) as [data|e]; [|discriminate].
  destruct (Crossref.process_data unescape data) as [[|r records]|e]; [| |discriminate].
  - intros [= <-]. lia.
  - destruct (Crossref.reached (Some m) (List.length (all_records ++ r :: records))) eqn:R.
    + intros [= <-]. apply slice_to_length. exact Hm.
    + apply (reached_false m _ Hm) in R.
      destruct (get data "message" (PDict []) ≫= _) as [total|e]; [|discriminate].
      destruct (total <=? offset + rows)%Z.
      * intros [= <-]. lia.
      * apply IH. exact R.
Qed.

Lemma DataFrame_length records : List.length (DataFrame records) = List.length records.
Proof. apply length_map. Qed.

Lemma crossref_run_pipeline_bound unescape fuel fetch_data rows m df :
  (0 < m)%Z ->
  Crossref.run_pipeline unescape fuel fetch_data rows (Some m) = Some (Ok df) ->
  (Z.of_nat (List.length df) <= m)%Z.
Proof.
  intros Hm. unfold Crossref.run_pipeline.
  destruct (Crossref.run_pipeline_loop unescape fuel fetch_data rows (Some m) 0 [])
    as [[out|e]|] eqn:E; try discriminate.
  intros [= <-]. rewrite DataFrame_length.
  eapply crossref_loop_bound; [exact Hm | | exact E]. simpl. lia.
Qed.

End CrossrefLimit.

Section ScopusLimit.

#[local] Arguments Scopus.process_entry : simpl never.

Lemma mapM_length {A B} (f : A -> result B) l ys :
  mapM f l = Ok ys -> List.length ys = List.length l.
Proof.
  revert ys. induction l as [|x l IH]; simpl; intros ys H.
  - injection H as <-. reflexivity.
  - destruct (f x) as [y|]; simpl in H; [|discriminate].
    destruct (mapM f l) as [ys'|]; simpl in H; [|discriminate].
    injection H as <-. simpl. rewrite (IH ys' eq_refl). reflexivity.
Qed.

(** The loop of [fetch_references] only ever adds rows. *)
Lemma scopus_loop_grows fuel page count start acc out :
  Scopus.fetch_references_loop fuel page count start acc = Some (Ok out) ->
  List.length acc <= List.length out.
Proof.
  revert start acc. induction fuel as [|fuel IH]; intros start acc; simpl; [discriminate|].
  destruct (page start) as [data|e]; [|intros [= <-]; lia].
  destruct (get data "search-results" (PDict []) ≫= _) as [entries|e]; [|discriminate].
  destruct (negb (truthy entries)); [intros [= <-]; lia|].
  destruct (iter entries ≫= _) as [registros|e]; [|discriminate].
  destruct (len entries) as [n|e]; [|discriminate].
  destruct (Z.of_nat n <=? count)%Z.
  - intros [= <-]. rewrite length_app. lia.
  - intros H. apply IH in H. rewrite length_app in H. lia.
Qed.

(** Whenever the first page is a list of more than [count] entries, the
    frame has more than [count] rows. *)
Lemma scopus_long_first_page_exceeds fuel page count data es df :
  page 0%Z = Ok data ->
  (results ← get data "search-results" (PDict []); get results "entry" (PList []))
  = Ok (PList es) ->
  (count < Z.of_nat (List.length es))%Z ->
  Scopus.fetch_references fuel page count = Some (Ok df) ->
  (count < Z.of_nat (List.length df))%Z.
Proof.
  intros Hpage Hentries Hlong. unfold Scopus.fetch_references.
  destruct (Scopus.fetch_references_loop fuel page count 0 []) as [[out|e]|] eqn:E;
    try discriminate.
  intros [= <-]. rewrite DataFrame_length.
  destruct fuel as [|fuel]; [discriminate|]. cbn [Scopus.fetch_references_loop] in E.
  rewrite Hpage, Hentries in E.
  destruct es as [|e0 es']; [simpl in Hlong|].
  - cbn in E. injection E as <-. simpl. lia.
  - cbn [truthy negb iter len mbind result_bind bind] in E.
    destruct (mapM Scopus.process_entry (e0 :: es')) as [registros|e] eqn:Em;
      [|discriminate].
    pose proof (mapM_length _ _ _ Em) as Hlen.
    destruct (Z.of_nat (List.length (e0 :: es')) <=? count)%Z eqn:Ec; [lia|].
    apply scopus_loop_grows in E. cbn [app] in E. lia.
Qed.

End ScopusLimit.

(** C2 fails for Scopus (while Crossref keeps the limit, see
    [crossref_run_pipeline_bound]).  Asked for one record ([count = 1])
    of a service that holds three documents and answers with pages of
    two, [fetch_references] returns five rows: no page is ever cut, the
    loop goes on exactly when a page is longer than [count], and it
    advances by [count], so that documents come twice. *)
Theorem C2_scopus_exceeds_limit :
  column_of "ID"
    (match Scopus.fetch_references 10 scopus_service 1 with
     | Some r => r
     | None => Raise RuntimeError
     end)
  = Ok [Some (PStr "e1"); Some (PStr "e2"); Some (PStr "e2"); Some (PStr "e3");
        Some (PStr "e3")].
Proof. vm_compute. reflexivity. Qed.

(** ** C9: the semantic pretriage (src/revsys/pretriage.py) *)

Section PretriageSpec.

Import Pretriage.

Variable embedding : Type.
Variable embed : string -> embedding.
Variable cosine : embedding -> embedding -> Q.
Variable float_str : Q -> string.

Lemma zip3_map {A B C} (f : A -> B) (g : A -> C) (l : list A) :
  zip3 l (map f l) (map g l) = map (fun x => (x, f x, g x)) l.
Proof. induction l as [|x l IH]; simpl; [reflexivity | rewrite IH; reflexivity]. Qed.

Lemma omap_of_map {X Y Z} (keep : Y -> option Z) (h : X -> Y) (xs : list X) :
  omap keep (map h xs) = omap (fun x => keep (h x)) xs.
Proof.
  induction xs as [|x xs IH]; [reflexivity|].
  change (omap keep (map h (x :: xs)))
    with (match keep (h x) with
          | Some y => y :: omap keep (map h xs)
          | None => omap keep (map h xs)
          end).
  change (omap (fun x => keep (h x)) (x :: xs))
    with (match keep (h x) with
          | Some y => y :: omap (fun x => keep (h x)) xs
          | None => omap (fun x => keep (h x)) xs
          end).
  rewrite IH. reflexivity.
Qed.

Lemma firstn_short {A} n (l : list A) : List.length l <= n -> firstn n l = l.
Proof. intros H. apply firstn_all2. exact H. Qed.

(** On at most 500 records the function returns the records that pass
    the two thresholds, each with its two scores. *)
Lemma pretriage_records_upto_500 key_char key_rest records k keys exclusion_keys it et :
  records <> [] ->
  List.length records <= 500 ->
  pretriage_records embedding embed cosine float_str (Some (String key_char key_rest))
    records (k :: keys) exclusion_keys it et
  = Ok (omap (fun rec =>
               let score_i := score_inclusion embedding embed cosine float_str (k :: keys) rec in
               let score_e := score_exclusion embedding embed cosine float_str exclusion_keys rec in
               if passes it et score_i score_e then Some (mark rec score_i score_e) else None)
             records).
Proof.
  intros Hne Hlen. unfold pretriage_records.
  assert (Htxt : _create_embeddings embedding embed (map (text_of float_str) records)
                 = map (fun rec => embed (text_of float_str rec)) records).
  { unfold _create_embeddings. rewrite firstn_short by (rewrite length_map; exact Hlen).
    apply map_map. }
  rewrite Htxt.
  destruct records as [|rec0 recs] eqn:Erec; [contradiction|]. rewrite <- Erec.
  assert (Hcons : exists e es, map (fun rec => embed (text_of float_str rec)) records = e :: es).
  { rewrite Erec. simpl. eauto. }
  destruct Hcons as (e & es & Hcons). rewrite Hcons. rewrite <- Hcons. clear Hcons e es.
  f_equal. rewrite !map_map.
  destruct exclusion_keys as [|x xs]; cbv beta iota; rewrite ?map_map;
    rewrite zip3_map, omap_of_map; reflexivity.
Qed.

End PretriageSpec.

Section PretriageBound.

Import Pretriage.

Variable embedding : Type.
Variable embed : string -> embedding.
Variable cosine : embedding -> embedding -> Q.
Variable float_str : Q -> string.

Lemma omap_length_le {A B} (f : A -> option B) (l : list A) :
  List.length (omap f l) <= List.length l.
Proof.
  induction l as [|x l IH]; [reflexivity|].
  change (omap f (x :: l)) with (match f x with Some y => y :: omap f l | None => omap f l end).
  destruct (f x); simpl; lia.
Qed.

Lemma zip3_length_le {A B C} (l1 : list A) (l2 : list B) (l3 : list C) :
  List.length (zip3 l1 l2 l3) <= List.length l2.
Proof.
  revert l2 l3. induction l1 as [|a l1 IH]; intros [|b l2] [|c l3]; simpl; try lia.
  specialize (IH l2 l3). lia.
Qed.

Lemma create_embeddings_length inputs_list :
  List.length (_create_embeddings embedding embed inputs_list) <= 500.
Proof. unfold _create_embeddings. rewrite length_map, length_firstn. lia. Qed.

(** With inclusion keys, never more than 500 records are returned. *)
Lemma pretriage_records_at_most_500 api_key records k keys exclusion_keys it et out :
  pretriage_records embedding embed cosine float_str api_key records (k :: keys)
    exclusion_keys it et = Ok out ->
  List.length out <= 500.
Proof.
  unfold pretriage_records.
  destruct api_key as [[|c key]|]; try discriminate.
  pose proof (create_embeddings_length (map (text_of float_str) records)) as Hlen.
  destruct (_create_embeddings embedding embed (map (text_of float_str) records))
    as [|e es] eqn:E; [discriminate|].
  intros [= <-].
  etransitivity; [apply omap_length_le|].
  etransitivity; [apply zip3_length_le|].
  simpl. rewrite length_map. simpl in Hlen. exact Hlen.
Qed.

End PretriageBound.

(** C9 fails on more than 500 records.  [_create_embeddings] asks for
    the embeddings of [inputs_list[:500]] only and returns them, [zip]
    stops at the shortest list, and the records after the first 500 are
    neither scored nor returned: of 501 records that all pass the two
    thresholds, 500 are returned. *)
Theorem C9_pretriage_drops_records_after_500 :
  List.length Pretriage.sample_501 = 501 /\
  Forall (fun rec =>
            Pretriage.passes (3 # 10) (3 # 10)
              (Pretriage.score_inclusion unit Pretriage.embed_const Pretriage.cosine_one
                 Pretriage.float_str_unused ["term"] rec)
              (Pretriage.score_exclusion unit Pretriage.embed_const Pretriage.cosine_one
                 Pretriage.float_str_unused [] rec) = true)
         Pretriage.sample_501 /\
  (out ← Pretriage.pretriage_records unit Pretriage.embed_const Pretriage.cosine_one
           Pretriage.float_str_unused (Some "key") Pretriage.sample_501 ["term"] []
           (3 # 10) (3 # 10);
   Ok (List.length out)) = Ok 500.
Proof.
  split; [reflexivity|]. split.
  - unfold Pretriage.sample_501. apply List.Forall_forall. intros rec Hin.
    apply repeat_spec in Hin. subst. reflexivity.
  - vm_compute. reflexivity.
Qed.

(** ** C7: the cleaning of Crossref abstracts *)

Section Cleaning.

Import PyStr.

Lemma chr_eqb_eq a b : chr_eqb a b = true <-> a = b.
Proof. unfold chr_eqb. apply Ascii.eqb_eq. Qed.

Lemma append_empty_r s : s +:+ EmptyString = s.
Proof.
  induction s as [|a s IH]; [reflexivity|].
  change (String a (s +:+ EmptyString) = String a s). rewrite IH. reflexivity.
Qed.

(** *** Whitespace *)

Lemma lstrip_all_space s : all_space s = true -> lstrip s = EmptyString.
Proof.
  induction s as [|a s IH]; simpl; [reflexivity|].
  rewrite andb_true_iff. intros [Ha Hs]. rewrite Ha. apply IH. exact Hs.
Qed.

Lemma strip_all_space s : all_space s = true -> strip s = EmptyString.
Proof. intros H. unfold strip. rewrite (lstrip_all_space s H). reflexivity. Qed.

Lemma lstrip_not_all_space s :
  all_space s = false -> exists a r, lstrip s = String a r /\ isspace a = false.
Proof.
  induction s as [|a s IH]; simpl; [discriminate|].
  destruct (isspace a) eqn:Ha; simpl.
  - exact IH.
  - intros _. exists a, s. auto.
Qed.

Lemma strip_not_all_space s : all_space s = false -> strip s <> EmptyString.
Proof.
  intros H. destruct (lstrip_not_all_space s H) as (a & r & Hl & Ha).
  unfold strip. rewrite Hl. destruct (rstrip_head a r Ha) as (r' & ->). discriminate.
Qed.

Lemma rstrip_cons_word a s : isspace a = false -> rstrip (String a s) = String a (rstrip s).
Proof. intros Ha. simpl. rewrite Ha. destruct (rstrip s); reflexivity. Qed.

Lemma rstrip_cons_space a s :
  isspace a = true ->
  rstrip (String a s) = match rstrip s with EmptyString => EmptyString | r => String a r end.
Proof. intros Ha. simpl. rewrite Ha. reflexivity. Qed.

Lemma lstrip_collapse b t :
  lstrip (Crossref.collapse_go b t) = Crossref.collapse_go true t.
Proof.
  revert b. induction t as [|a r IH]; intros b; simpl; [destruct b; reflexivity|].
  destruct (isspace a) eqn:Ha.
  - destruct b; simpl; apply IH.
  - simpl. rewrite Ha. reflexivity.
Qed.

(** The words of [s.split()] are words. *)
Lemma split_ws_go_words s :
  no_space (fst (split_ws_go s)) = true /\ Forall is_word (snd (split_ws_go s)).
Proof.
  induction s as [|a s IH]; simpl; [split; [reflexivity | constructor]|].
  destruct (split_ws_go s) as [w ws]. simpl in IH. destruct IH as [Hw Hws].
  destruct (isspace a) eqn:Ha; simpl.
  - split; [reflexivity|]. destruct w as [|c w]; [exact Hws|].
    constructor; [split; [discriminate | exact Hw] | exact Hws].
  - rewrite Ha. simpl. split; [exact Hw | exact Hws].
Qed.

Lemma split_ws_words s : Forall is_word (split_ws s).
Proof.
  unfold split_ws. pose proof (split_ws_go_words s) as [Hw Hws].
  destruct (split_ws_go s) as [w ws]. simpl in *.
  destruct w as [|c w]; [exact Hws|].
  constructor; [split; [discriminate | exact Hw] | exact Hws].
Qed.

Lemma join_cons x l : join " " (x :: l) = x +:+ rest_words l.
Proof. destruct l; simpl; [rewrite append_empty_r; reflexivity | reflexivity]. Qed.

Lemma space_before_words l :
  Forall is_word l ->
  match join " " l with EmptyString => EmptyString | y => String " " y end = rest_words l.
Proof.
  intros H. destruct l as [|x l]; [reflexivity|].
  inversion H as [|? ? [Hx _] _]; subst.
  destruct x as [|c x]; [contradiction|].
  unfold rest_words. rewrite join_cons. reflexivity.
Qed.

Lemma split_ws_cons_space a s : isspace a = true -> split_ws (String a s) = split_ws s.
Proof.
  intros Ha. unfold split_ws. simpl. destruct (split_ws_go s) as [w ws]. rewrite Ha. reflexivity.
Qed.

(** Collapsing the whitespace and trimming leaves the words of the
    text, separated by single spaces. *)
Lemma rstrip_collapse t :
  rstrip (Crossref.collapse_go true t) = join " " (split_ws t) /\
  rstrip (Crossref.collapse_go false t)
  = fst (split_ws_go t) +:+ rest_words (snd (split_ws_go t)).
Proof.
  induction t as [|a r [IHG IHH]]; [split; reflexivity|].
  pose proof (split_ws_words r) as Hwords.
  cbn [Crossref.collapse_go]. destruct (isspace a) eqn:Ha.
  - split.
    + rewrite IHG, (split_ws_cons_space a r Ha). reflexivity.
    + rewrite (rstrip_cons_space " " _ eq_refl), IHG.
      cbn [split_ws_go]. rewrite Ha. unfold split_ws in *.
      destruct (split_ws_go r) as [w ws]. cbn [fst snd].
      rewrite (space_before_words _ Hwords). reflexivity.
  - rewrite (rstrip_cons_word a _ Ha), IHH. unfold split_ws.
    cbn [split_ws_go]. rewrite Ha. destruct (split_ws_go r) as [w ws]. cbn [fst snd].
    split; [|reflexivity]. rewrite join_cons. reflexivity.
Qed.

Lemma strip_collapse_ws t : strip (Crossref.collapse_ws t) = join " " (split_ws t).
Proof.
  unfold strip, Crossref.collapse_ws. rewrite lstrip_collapse. apply rstrip_collapse.
Qed.

(** *** A text of words separated by single spaces is left alone *)

Lemma single_spaced_collapse p s :
  single_spaced p s = true ->
  Crossref.collapse_go false s = s /\ (p = false -> Crossref.collapse_go true s = s).
Proof.
  revert p. induction s as [|a r IH]; intros p H; [split; reflexivity|].
  cbn [single_spaced] in H. cbn [Crossref.collapse_go]. destruct (isspace a) eqn:Ha.
  - apply andb_true_iff in H as [H Hr]. apply andb_true_iff in H as [-> Ha'].
    apply chr_eqb_eq in Ha'. subst a. destruct (IH false Hr) as [_ IH2].
    rewrite (IH2 eq_refl). split; [reflexivity | discriminate].
  - destruct (IH true H) as [IH1 _]. rewrite IH1. split; reflexivity.
Qed.

Lemma single_spaced_rstrip p s : single_spaced p s = true -> rstrip s = s.
Proof.
  revert p. induction s as [|a r IH]; intros p H; [reflexivity|].
  cbn [single_spaced] in H. destruct (isspace a) eqn:Ha.
  - apply andb_true_iff in H as [_ Hr]. rewrite (rstrip_cons_space a r Ha), (IH false Hr).
    destruct r; [discriminate Hr | reflexivity].
  - rewrite (rstrip_cons_word a r Ha), (IH true H). reflexivity.
Qed.

Lemma normalized_lstrip s : normalized s = true -> lstrip s = s.
Proof.
  unfold normalized. destruct s as [|a r]; [reflexivity|]. simpl.
  destruct (isspace a); [discriminate | reflexivity].
Qed.

Lemma normalized_strip s : normalized s = true -> strip s = s.
Proof.
  intros H. unfold strip. rewrite (normalized_lstrip s H). apply (single_spaced_rstrip false s H).
Qed.

Lemma normalized_collapse s : normalized s = true -> Crossref.collapse_ws s = s.
Proof. intros H. apply (single_spaced_collapse false s H). Qed.

Lemma normalized_nonempty s : normalized s = true -> s <> EmptyString.
Proof. intros H ->. discriminate H. Qed.

(** *** Tags *)

Lemma until_gt_length s body tail :
  Crossref.until_gt s = Some (body, tail) ->
  String.length s = String.length body + 1 + String.length tail.
Proof.
  revert body. induction s as [|a s IH]; intros body; simpl; [discriminate|].
  destruct (chr_eqb a ">").
  - intros [= <- <-]. reflexivity.
  - destruct (Crossref.until_gt s) as [[b t]|]; [|discriminate].
    intros [= <- <-]. simpl. rewrite (IH b eq_refl). reflexivity.
Qed.

Lemma until_gt_empty_body s tail :
  Crossref.until_gt s = Some (EmptyString, tail) -> s = String ">" tail.
Proof.
  destruct s as [|a s]; simpl; [discriminate|].
  destruct (chr_eqb a ">") eqn:E.
  - apply chr_eqb_eq in E. subst. intros [= <-]. reflexivity.
  - destruct (Crossref.until_gt s) as [[b t]|]; discriminate.
Qed.

Lemma until_gt_None_tail a s :
  Crossref.until_gt (String a s) = None -> Crossref.until_gt s = None.
Proof.
  simpl. destruct (chr_eqb a ">"); [discriminate|].
  destruct (Crossref.until_gt s) as [[b t]|]; [discriminate | reflexivity].
Qed.

Lemma until_gt_None_has_tag s : Crossref.until_gt s = None -> has_tag s = false.
Proof.
  induction s as [|a s IH]; intros H; [reflexivity|].
  pose proof (until_gt_None_tail a s H) as Hs. cbn [has_tag].
  rewrite Hs, (IH Hs), andb_false_r. reflexivity.
Qed.

(** A text without tag is left alone. *)
Lemma strip_tags_go_no_tag fuel s : has_tag s = false -> Crossref.strip_tags_go fuel s = s.
Proof.
  revert s. induction fuel as [|fuel IH]; intros s H; [reflexivity|].
  destruct s as [|a s]; [reflexivity|].
  cbn [has_tag] in H. apply orb_false_iff in H as [Hhead Htail].
  cbn [Crossref.strip_tags_go]. destruct (chr_eqb a "<") eqn:Ea.
  - destruct (Crossref.until_gt s) as [[[|c body] tail]|];
      try (rewrite (IH s Htail); reflexivity).
    discriminate Hhead.
  - rewrite (IH s Htail). reflexivity.
Qed.

Lemma strip_tags_no_tag s : has_tag s = false -> Crossref.strip_tags s = s.
Proof. apply strip_tags_go_no_tag. Qed.

(** What is left holds no tag. *)
Lemma strip_tags_go_clean fuel s :
  String.length s <= fuel -> has_tag (Crossref.strip_tags_go fuel s) = false.
Proof.
  revert s. induction fuel as [|fuel IH]; intros s Hlen.
  - destruct s; [reflexivity | simpl in Hlen; lia].
  - destruct s as [|a s]; [reflexivity|]. simpl in Hlen.
    cbn [Crossref.strip_tags_go].
    assert (Hkeep : (chr_eqb a "<" = false \/ Crossref.until_gt s = None \/
                     exists tail, Crossref.until_gt s = Some (EmptyString, tail)) ->
                    has_tag (String a (Crossref.strip_tags_go fuel s)) = false).
    { intros Hcase. cbn [has_tag]. rewrite (IH s) by lia. rewrite orb_false_r.
      destruct Hcase as [Ea | [Hn | (tail & Ht)]].
      - rewrite Ea. reflexivity.
      - rewrite (strip_tags_go_no_tag fuel s (until_gt_None_has_tag s Hn)), Hn.
        apply andb_false_r.
      - apply until_gt_empty_body in Ht. subst s. simpl in Hlen.
        destruct fuel as [|fuel']; [lia|]. simpl. apply andb_false_r. }
    destruct (chr_eqb a "<") eqn:Ea; [|apply Hkeep; left; reflexivity].
    destruct (Crossref.until_gt s) as [[[|c body] tail]|] eqn:Eg.
    + apply Hkeep. right. right. exists tail. reflexivity.
    + apply IH. apply until_gt_length in Eg. simpl in Eg. lia.
    + apply Hkeep. right. left. reflexivity.
Qed.

Lemma strip_tags_clean s : has_tag (Crossref.strip_tags s) = false.
Proof. apply strip_tags_go_clean. lia. Qed.

End Cleaning.

(** The library function, as modelled for the examples, returns a text
    without ['&'] as it is. *)
Lemma Html_unescape_plain s : PyStr.contains_char "&" s = false -> Html.unescape s = s.
Proof. intros H. unfold Html.unescape. rewrite H. reflexivity. Qed.

(** C7, as the code has it, for every [unescape] that returns a text
    without ['&'] unchanged (the first line of [html.unescape]).  A value
    that is no string, a text of whitespace only and a text that is
    "N/A" up to case and surrounding whitespace give "N/A".  Every other
    text gives the words of the unescaped text without its tags,
    separated by single spaces; what the first step leaves holds no tag.
    A text of words separated by single spaces that holds neither a tag
    nor a ['&'] and is not "N/A" up to case is returned unchanged; the
    abstract of the test gives "Sample abstract text.".  (The result of
    a cleaning need not be such a text: see the counterexample.) *)
Theorem C7_clean_abstract :
  forall unescape : string -> string,
    (forall s, PyStr.contains_char "&" s = false -> unescape s = s) ->
    (forall v, is_str v = false -> Crossref.clean_abstract unescape v = "N/A") /\
    (forall raw, all_space raw = true ->
       Crossref.clean_abstract unescape (PStr raw) = "N/A") /\
    (forall raw, PyStr.upper_is (PyStr.strip raw) "N/A" = true ->
       Crossref.clean_abstract unescape (PStr raw) = "N/A") /\
    (forall raw,
       all_space raw = false -> PyStr.upper_is (PyStr.strip raw) "N/A" = false ->
       Crossref.clean_abstract unescape (PStr raw)
       = PyStr.join " " (PyStr.split_ws (unescape (Crossref.strip_tags raw)))) /\
    (forall raw, has_tag (Crossref.strip_tags raw) = false) /\
    (forall t, Forall is_word (PyStr.split_ws t)) /\
    (forall s,
       normalized s = true -> has_tag s = false -> PyStr.contains_char "&" s = false ->
       PyStr.upper_is s "N/A" = false ->
       Crossref.clean_abstract unescape (PStr s) = s) /\
    Crossref.clean_abstract unescape (PStr "<p>Sample <b>abstract</b> text.</p>")
    = "Sample abstract text.".
Proof.
  intros unescape Hplain.
  assert (Hwords : forall raw,
            all_space raw = false -> PyStr.upper_is (PyStr.strip raw) "N/A" = false ->
            Crossref.clean_abstract unescape (PStr raw)
            = PyStr.join " " (PyStr.split_ws (unescape (Crossref.strip_tags raw)))).
  { intros raw Hs Hna. unfold Crossref.clean_abstract. rewrite Hna.
    destruct (String.eqb (PyStr.strip raw) "") eqn:E.
    - apply String.eqb_eq in E. exfalso. exact (strip_not_all_space raw Hs E).
    - simpl. apply strip_collapse_ws. }
  split; [|split; [|split; [|split; [|split; [|split; [|split]]]]]].
  - intros v Hv. destruct v; try reflexivity. discriminate Hv.
  - intros raw Hs. unfold Crossref.clean_abstract. rewrite (strip_all_space raw Hs). reflexivity.
  - intros raw Hna. unfold Crossref.clean_abstract. rewrite Hna, andb_false_r. reflexivity.
  - exact Hwords.
  - exact strip_tags_clean.
  - exact split_ws_words.
  - intros s Hn Ht Ha Hna. unfold Crossref.clean_abstract.
    rewrite (normalized_strip s Hn), Hna.
    destruct (String.eqb s "") eqn:E.
    + apply String.eqb_eq in E. exfalso. exact (normalized_nonempty s Hn E).
    + simpl. rewrite (strip_tags_no_tag s Ht), (Hplain s Ha), (normalized_collapse s Hn).
      apply (normalized_strip s Hn).
  - rewrite Hwords by reflexivity.
    replace (Crossref.strip_tags "<p>Sample <b>abstract</b> text.</p>")
      with "Sample abstract text." by (vm_compute; reflexivity).
    rewrite Hplain by reflexivity. reflexivity.
Qed.

Lemma C7_clean_abstract_witness :
  Crossref.clean_abstract Html.unescape (PStr "A clean abstract, with 2 < 3.")
  = "A clean abstract, with 2 < 3." /\
  Crossref.clean_abstract Html.unescape (PStr "  n/a ") = "N/A" /\
  Crossref.clean_abstract Html.unescape (PStr "<p>Sample <b>abstract</b> text.</p>")
  = "Sample abstract text.".
Proof.
  destruct (C7_clean_abstract Html.unescape Html_unescape_plain)
    as (_ & _ & Hna & _ & _ & _ & Hfix & Hex).
  split; [|split].
  - apply Hfix; reflexivity.
  - apply Hna. reflexivity.
  - exact Hex.
Defined.

(** The cleaning is not idempotent.  A doubly escaped abstract loses
    one level of escaping at each application, and the tag that the
    second application uncovers is removed by the third; an abstract of
    tags only is cleaned to the empty text, which is not "N/A", and the
    empty text is cleaned to "N/A". *)
Lemma C7_counterexample_not_idempotent :
  Crossref.clean_abstract Html.unescape (PStr "&amp;lt;b&amp;gt; bold") = "&lt;b&gt; bold" /\
  Crossref.clean_abstract Html.unescape (PStr "&lt;b&gt; bold") = "<b> bold" /\
  Crossref.clean_abstract Html.unescape (PStr "<b> bold") = "bold" /\
  Crossref.clean_abstract Html.unescape (PStr "<p></p>") = "" /\
  Crossref.clean_abstract Html.unescape (PStr "") = "N/A".
Proof. repeat split; vm_compute; reflexivity. Qed.

(** * Further properties of the code *)

(** ** src/revsys/rag.py: chunking *)

Section RagSpec.

Import Rag.

Lemma take_drop n s : take n s +:+ drop n s = s.
Proof.
  revert s. induction n as [|n IH]; intros [|a s]; simpl; try reflexivity.
  change (String a (take n s +:+ drop n s) = String a s). f_equal. apply IH.
Qed.

Lemma length_drop n s : String.length (drop n s) = String.length s - n.
Proof. revert s. induction n as [|n IH]; intros [|a s]; simpl; auto. Qed.

Lemma length_take n s : String.length (take n s) = Nat.min n (String.length s).
Proof. revert s. induction n as [|n IH]; intros [|a s]; simpl; auto. Qed.

Lemma drop_drop n m s : drop n (drop m s) = drop (m + n) s.
Proof.
  revert s. induction m as [|m IH]; intros s; simpl; [reflexivity|].
  destruct s as [|a s]; [destruct n; reflexivity|]. apply IH.
Qed.

Lemma drop_app n s t : n <= String.length s -> drop n (s +:+ t) = drop n s +:+ t.
Proof.
  revert s. induction n as [|n IH]; intros [|a s]; simpl; intros H; try reflexivity; try lia.
  apply IH. lia.
Qed.

Lemma take_all n s : String.length s <= n -> take n s = s.
Proof.
  revert s. induction n as [|n IH]; intros [|a s]; simpl; intros H; try reflexivity; try lia.
  rewrite IH by lia. reflexivity.
Qed.

Lemma drop_all n s : String.length s <= n -> drop n s = EmptyString.
Proof.
  revert s. induction n as [|n IH]; intros [|a s]; simpl; intros H; try reflexivity; try lia.
  apply IH. lia.
Qed.

Lemma slice_inside (start end_ : nat) text :
  start <= end_ <= String.length text ->
  slice (Z.of_nat start) (Z.of_nat end_) text = take (end_ - start) (drop start text).
Proof.
  intros H. unfold slice, slice_index.
  destruct (Z.of_nat start <? 0)%Z eqn:E1; [lia|].
  destruct (Z.of_nat end_ <? 0)%Z eqn:E2; [lia|].
  rewrite !Z.min_l by lia. f_equal; [lia|]. f_equal. lia.
Qed.

Lemma chunk_text_loop_app fuel text cs ov start chunks :
  chunk_text_loop fuel text cs ov start chunks
  = option_map (app chunks) (chunk_text_loop fuel text cs ov start []).
Proof.
  revert start chunks. induction fuel as [|fuel IH]; intros start chunks; simpl; [reflexivity|].
  destruct (start <? _)%Z; simpl; [|rewrite app_nil_r; reflexivity].
  rewrite IH. rewrite (IH _ [_]).
  destruct (chunk_text_loop fuel text cs ov _ []); simpl; [|reflexivity].
  rewrite <- app_assoc. reflexivity.
Qed.

Lemma chunk_text_loop_spec fuel text cs ov (start : nat) :
  (0 <= ov < cs)%Z ->
  String.length text - start < fuel ->
  exists rest,
    chunk_text_loop fuel text cs ov (Z.of_nat start) [] = Some rest /\
    reassemble (Z.to_nat ov) rest = drop start text /\
    Forall (fun c => 1 <= String.length c /\ (Z.of_nat (String.length c) <= cs)%Z) rest /\
    Forall (fun c => Z.of_nat (String.length c) = cs) (removelast rest) /\
    (start < String.length text ->
     exists r', rest = take (Z.to_nat (Z.min cs (Z.of_nat (String.length text - start))))
                         (drop start text) :: r').
Proof.
  intros Hov. revert start. induction fuel as [|fuel IH]; intros start Hfuel; [lia|].
  cbn [chunk_text_loop].
  destruct (Z.of_nat start <? Z.of_nat (String.length text))%Z eqn:E.
  - apply Z.ltb_lt in E.
    set (L := String.length text) in *.
    destruct (Z.min (Z.of_nat start + cs) (Z.of_nat L) <? Z.of_nat L)%Z eqn:E2.
    + apply Z.ltb_lt in E2.
      assert (Hend : Z.min (Z.of_nat start + cs) (Z.of_nat L) = Z.of_nat (start + Z.to_nat cs))
        by lia.
      rewrite Hend.
      replace (Z.of_nat (start + Z.to_nat cs) - ov)%Z
        with (Z.of_nat (start + Z.to_nat cs - Z.to_nat ov)) by lia.
      rewrite chunk_text_loop_app.
      destruct (IH (start + Z.to_nat cs - Z.to_nat ov)) as (rest & -> & Hre & Hsz & Hfull & Hhd);
        [lia|].
      destruct Hhd as (r' & ->); [fold L; lia|].
      rewrite slice_inside by (fold L; lia).
      replace (start + Z.to_nat cs - start) with (Z.to_nat cs) by lia.
      eexists. split; [reflexivity|]. cbn [app].
      set (c' := take _ (drop (start + Z.to_nat cs - Z.to_nat ov) text)) in *.
      assert (Hc' : Z.to_nat ov <= String.length c').
      { unfold c'. rewrite length_take, length_drop. fold L. lia. }
      split; [|split; [|split]].
      * cbn [reassemble fold_right]. cbn [reassemble] in Hre.
        rewrite <- (drop_app _ _ _ Hc'), Hre, drop_drop.
        replace (start + Z.to_nat cs - Z.to_nat ov + Z.to_nat ov) with (start + Z.to_nat cs)
          by lia.
        rewrite <- drop_drop. apply take_drop.
      * constructor; [|exact Hsz].
        rewrite length_take, length_drop. fold L. lia.
      * change (removelast (?a :: c' :: r')) with (a :: removelast (c' :: r')).
        constructor; [|exact Hfull].
        rewrite length_take, length_drop. fold L. lia.
      * intros _. eexists. f_equal. f_equal. lia.
    + apply Z.ltb_ge in E2.
      assert (Hend : Z.min (Z.of_nat start + cs) (Z.of_nat L) = Z.of_nat L) by lia.
      rewrite Hend.
      destruct fuel as [|fuel]; [lia|]. cbn [chunk_text_loop]. fold L.
      rewrite Z.ltb_irrefl. cbn [app].
      rewrite slice_inside by (fold L; lia). fold L.
      eexists. split; [reflexivity|].
      split; [|split; [|split]].
      * cbn [reassemble fold_right]. rewrite append_empty_r.
        apply take_all. rewrite length_drop. fold L. lia.
      * constructor; [|constructor]. rewrite length_take, length_drop. fold L. lia.
      * constructor.
      * intros _. eexists. f_equal. f_equal. lia.
  - apply Z.ltb_ge in E. exists []. split; [reflexivity|].
    split; [|split; [|split]].
    + cbn. symmetry. apply drop_all. lia.
    + constructor.
    + constructor.
    + intros H. lia.
Qed.

Lemma chunk_text_loop_fuel fuel fuel' text cs ov start chunks out :
  chunk_text_loop fuel text cs ov start chunks = Some out ->
  fuel <= fuel' ->
  chunk_text_loop fuel' text cs ov start chunks = Some out.
Proof.
  revert fuel' start chunks. induction fuel as [|fuel IH]; intros fuel' start chunks;
    [discriminate|].
  intros H Hle. destruct fuel' as [|fuel']; [lia|]. cbn [chunk_text_loop] in *.
  destruct (start <? _)%Z; [|exact H]. apply IH; [exact H | lia].
Qed.

Lemma chunk_text_spec fuel text cs ov :
  (0 <= ov < cs)%Z ->
  String.length text < fuel ->
  exists chunks,
    chunk_text fuel text cs ov = Some chunks /\
    reassemble (Z.to_nat ov) chunks = text /\
    Forall (fun c => 1 <= String.length c /\ (Z.of_nat (String.length c) <= cs)%Z) chunks /\
    Forall (fun c => Z.of_nat (String.length c) = cs) (removelast chunks).
Proof.
  intros Hov Hfuel. unfold chunk_text. destruct text as [|a text].
  - exists []. repeat split; constructor.
  - destruct (chunk_text_loop_spec fuel (String a text) cs ov 0 Hov)
      as (rest & Hr & Hre & Hsz & Hfull & _); [lia|].
    exists rest. auto.
Qed.

Lemma chunk_text_loop_stuck fuel text cs ov start chunks :
  (cs <= ov)%Z -> (cs < Z.of_nat (String.length text))%Z -> text <> EmptyString ->
  (start <= 0)%Z ->
  chunk_text_loop fuel text cs ov start chunks = None.
Proof.
  intros Hov Hcs Hne. revert start chunks.
  induction fuel as [|fuel IH]; intros start chunks Hstart; [reflexivity|].
  cbn [chunk_text_loop].
  assert (0 < String.length text) by (destruct text; [contradiction | simpl; lia]).
  destruct (start <? _)%Z eqn:E; [|apply Z.ltb_ge in E; lia].
  destruct (Z.min _ _ <? _)%Z eqn:E2; [|apply Z.ltb_ge in E2; lia].
  apply IH. lia.
Qed.

End RagSpec.

(** X1: with [0 <= overlap < chunk_size], [chunk_text] returns (after
    at most one pass of the loop per character), and the chunks put
    together again, each without the [overlap] characters it repeats
    from the chunk before it, are the text: nothing is lost and nothing
    is out of order. *)
Theorem chunk_text_covers_the_text :
  forall (text : string) (chunk_size overlap : Z) (fuel : nat),
    (0 <= overlap < chunk_size)%Z ->
    String.length text < fuel ->
    exists chunks,
      Rag.chunk_text fuel text chunk_size overlap = Some chunks /\
      Rag.reassemble (Z.to_nat overlap) chunks = text.
Proof.
  intros text cs ov fuel Hov Hfuel.
  destruct (chunk_text_spec fuel text cs ov Hov Hfuel) as (chunks & H & Hre & _).
  exists chunks. auto.
Qed.

Lemma chunk_text_covers_the_text_witness :
  exists chunks,
    Rag.chunk_text 11 "abcdefghij" 4 1 = Some chunks /\
    chunks = ["abcd"; "defg"; "ghij"] /\
    Rag.reassemble 1 chunks = "abcdefghij".
Proof.
  destruct (chunk_text_covers_the_text "abcdefghij" 4 1 11) as (chunks & H & Hre);
    [lia | simpl; lia |].
  exists chunks. split; [exact H|]. split; [|exact Hre].
  vm_compute in H. injection H as <-. reflexivity.
Defined.

(** X2: with [0 <= overlap < chunk_size], no chunk that [chunk_text]
    returns is empty or longer than [chunk_size], and every chunk but
    the last has exactly [chunk_size] characters. *)
Theorem chunk_text_chunk_sizes :
  forall (text : string) (chunk_size overlap : Z) (fuel : nat) (chunks : list string),
    (0 <= overlap < chunk_size)%Z ->
    Rag.chunk_text fuel text chunk_size overlap = Some chunks ->
    Forall (fun c => 1 <= String.length c /\ (Z.of_nat (String.length c) <= chunk_size)%Z)
           chunks /\
    Forall (fun c => Z.of_nat (String.length c) = chunk_size) (removelast chunks).
Proof.
  intros text cs ov fuel chunks Hov H.
  destruct (chunk_text_spec (fuel + S (String.length text)) text cs ov Hov)
    as (chunks' & H' & _ & Hsz & Hfull); [lia|].
  assert (chunks' = chunks) as <-; [|auto].
  unfold Rag.chunk_text in *. destruct text as [|a text]; [congruence|].
  apply (chunk_text_loop_fuel _ (fuel + S (String.length (String a text)))) in H; [|lia].
  congruence.
Qed.

Lemma chunk_text_chunk_sizes_witness :
  Rag.chunk_text 20 "abcdefghijk" 4 1 = Some ["abcd"; "defg"; "ghij"; "jk"] /\
  Forall (fun c => 1 <= String.length c /\ (Z.of_nat (String.length c) <= 4)%Z)
         ["abcd"; "defg"; "ghij"; "jk"] /\
  Forall (fun c => Z.of_nat (String.length c) = 4%Z) (removelast ["abcd"; "defg"; "ghij"; "jk"]).
Proof.
  split; [reflexivity|].
  apply (chunk_text_chunk_sizes "abcdefghijk" 4 1 20); [lia | reflexivity].
Defined.

(** X3: when [overlap] is not smaller than [chunk_size] and the text is
    longer than one chunk, the loop of [chunk_text] never ends: [start]
    never gets past 0, and the list of chunks grows without bound.
    ([review-fulltext] passes [--chunk-size] and [--overlap] as given.) *)
Theorem chunk_text_never_returns :
  forall (text : string) (chunk_size overlap : Z) (fuel : nat),
    text <> EmptyString ->
    (chunk_size <= overlap)%Z ->
    (chunk_size < Z.of_nat (String.length text))%Z ->
    Rag.chunk_text fuel text chunk_size overlap = None.
Proof.
  intros text cs ov fuel Hne Hov Hcs. unfold Rag.chunk_text.
  destruct text as [|a text]; [contradiction|].
  apply chunk_text_loop_stuck; auto. lia.
Qed.

Lemma chunk_text_never_returns_witness :
  Rag.chunk_text 1000 "abcdefghij" 4 4 = None.
Proof.
  apply chunk_text_never_returns; [discriminate | lia | simpl; lia].
Defined.

(** ** src/revsys/clients/openalex.py: the abstract from the inverted index *)

Section InvertedIndex.

Import OpenAlex.

Lemma insert_by_perm {A} (x : Z * A) l : Permutation (insert_by Z.leb x l) (x :: l).
Proof.
  induction l as [|y l IH]; simpl; [reflexivity|].
  destruct (fst x <=? fst y)%Z; [reflexivity|].
  rewrite IH. apply perm_swap.
Qed.

Lemma sort_by_perm {A} (l : list (Z * A)) : Permutation (sort_by Z.leb l) l.
Proof.
  induction l as [|x l IH]; simpl; [reflexivity|].
  unfold sort_by in IH. rewrite insert_by_perm, IH. reflexivity.
Qed.

Lemma insert_by_sorted {A} (x : Z * A) l :
  StronglySorted (fun a b => (fst a <= fst b)%Z) l ->
  StronglySorted (fun a b => (fst a <= fst b)%Z) (insert_by Z.leb x l).
Proof.
  induction l as [|y l IH]; simpl; intros H.
  - constructor; constructor.
  - inversion H as [|? ? Hl Hy]; subst.
    destruct (fst x <=? fst y)%Z eqn:E.
    + apply Z.leb_le in E. constructor; [exact H|].
      constructor; [exact E|].
      eapply Forall_impl; [exact Hy|]. intros a Ha. simpl in Ha. lia.
    + apply Z.leb_gt in E. constructor; [apply IH; exact Hl|].
      apply (Permutation_Forall (Permutation_sym (insert_by_perm x l))).
      constructor; [lia | exact Hy].
Qed.

Lemma sort_by_sorted {A} (l : list (Z * A)) :
  StronglySorted (fun a b => (fst a <= fst b)%Z) (sort_by Z.leb l).
Proof.
  induction l as [|x l IH]; simpl; [constructor|]. apply insert_by_sorted. exact IH.
Qed.

Lemma sorted_perm_unique {A} (l1 l2 : list (Z * A)) :
  Permutation l1 l2 ->
  StronglySorted (fun a b => (fst a <= fst b)%Z) l1 ->
  StronglySorted (fun a b => (fst a < fst b)%Z) l2 ->
  l1 = l2.
Proof.
  revert l1. induction l2 as [|y l2 IH]; intros l1 Hp H1 H2.
  - apply Permutation_sym, Permutation_nil in Hp. exact Hp.
  - destruct l1 as [|x l1]; [apply Permutation_nil in Hp; discriminate|].
    inversion H1 as [|? ? H1l H1x]; subst. inversion H2 as [|? ? H2l H2y]; subst.
    assert (Hxy : x = y).
    { assert (Hy : In y (x :: l1)) by (apply (Permutation_in _ (Permutation_sym Hp)); left; auto).
      assert (Hx : In x (y :: l2)) by (apply (Permutation_in _ Hp); left; auto).
      destruct Hx as [Hx|Hx]; [auto|].
      rewrite List.Forall_forall in H2y. apply H2y in Hx.
      destruct Hy as [Hy|Hy]; [auto|].
      rewrite List.Forall_forall in H1x. apply H1x in Hy. lia. }
    subst. f_equal. apply IH; auto. eapply Permutation_cons_inv. exact Hp.
Qed.

Lemma combine_sorted {A} ps (ws : list A) :
  StronglySorted Z.lt ps ->
  StronglySorted (fun a b : Z * A => (fst a < fst b)%Z) (combine ps ws).
Proof.
  revert ws. induction ps as [|p ps IH]; intros ws H; [constructor|].
  destruct ws as [|w ws]; [constructor|].
  inversion H as [|? ? Hps Hp]; subst. simpl. constructor; [apply IH; exact Hps|].
  apply List.Forall_forall. intros [q v] Hin. apply in_combine_l in Hin.
  rewrite List.Forall_forall in Hp. apply Hp in Hin. exact Hin.
Qed.

Lemma sort_by_combine {A} (l : list (Z * A)) ps ws :
  StronglySorted Z.lt ps ->
  Permutation l (combine ps ws) ->
  sort_by Z.leb l = combine ps ws.
Proof.
  intros Hps Hp. apply sorted_perm_unique.
  - rewrite sort_by_perm. exact Hp.
  - apply sort_by_sorted.
  - apply combine_sorted. exact Hps.
Qed.

Lemma mapM_index_items idx :
  mapM (fun it : string * pyval =>
          positions ← iter (snd it);
          Ok (map (fun pos => (pos, fst it)) positions))
       (map (fun it : string * list Z => (fst it, PList (map PInt (snd it)))) idx)
  = Ok (map (fun it : string * list Z => map (fun pos => (PInt pos, fst it)) (snd it)) idx).
Proof.
  induction idx as [|[w ps] idx IH]; [reflexivity|].
  cbn [map mapM fst snd]. rewrite IH. cbn. rewrite map_map. reflexivity.
Qed.

Lemma concat_index_items idx :
  concat (map (fun it : string * list Z => map (fun pos => (PInt pos, fst it)) (snd it)) idx)
  = map (fun pw : Z * string => (PInt (fst pw), snd pw)) (postings idx).
Proof.
  unfold postings. induction idx as [|[w ps] idx IH]; [reflexivity|].
  cbn [map concat fst snd]. rewrite IH, map_app, map_map. reflexivity.
Qed.

Lemma all_some_int_key (l : list (Z * string)) :
  all_some int_key (map (fun pw : Z * string => (PInt (fst pw), snd pw)) l) = Some l.
Proof.
  induction l as [|[p w] l IH]; [reflexivity|].
  cbn [map all_some int_key fst snd]. rewrite IH. reflexivity.
Qed.

Lemma sorted_words_ints (l : list (Z * string)) :
  sorted_words (map (fun pw : Z * string => (PInt (fst pw), snd pw)) l)
  = Ok (map snd (sort_by Z.leb l)).
Proof.
  destruct l as [|[p1 w1] [|[p2 w2] l]]; try reflexivity.
  unfold sorted_words.
  change (map ?f (?a :: ?b :: l)) with (f a :: f b :: map f l) at 1.
  cbv beta iota.
  change (?f (p1, w1) :: ?f (p2, w2) :: map ?f l) with (map f ((p1, w1) :: (p2, w2) :: l)).
  rewrite all_some_int_key. reflexivity.
Qed.

Lemma convert_inverted_index_postings idx :
  _convert_inverted_index (inverted_index_value idx)
  = Ok (PyStr.join " " (map snd (sort_by Z.leb (postings idx)))).
Proof.
  unfold _convert_inverted_index, inverted_index_value.
  cbn [items mbind result_bind bind].
  rewrite mapM_index_items. cbn [mbind result_bind bind].
  rewrite concat_index_items, sorted_words_ints. reflexivity.
Qed.

End InvertedIndex.

(** X4: [_convert_inverted_index] restores the text from its inverted
    index.  Whatever the order of the words in the JSON object and of
    the positions in their lists: when the occurrences are those of the
    words [words] at the increasing positions [positions] (gaps
    allowed), the result is the words in the order of their positions,
    separated by single spaces. *)
Theorem convert_inverted_index_restores_text :
  forall (idx : list (string * list Z)) (positions : list Z) (words : list string),
    List.length positions = List.length words ->
    StronglySorted Z.lt positions ->
    Permutation (postings idx) (combine positions words) ->
    OpenAlex._convert_inverted_index (inverted_index_value idx)
    = Ok (PyStr.join " " words).
Proof.
  intros idx ps ws Hlen Hps Hp.
  rewrite convert_inverted_index_postings, (sort_by_combine _ ps ws Hps Hp).
  f_equal. f_equal. clear - Hlen.
  revert ws Hlen. induction ps as [|p ps IH]; intros [|w ws] Hlen; try discriminate;
    [reflexivity|].
  simpl. f_equal. apply IH. simpl in Hlen. lia.
Qed.


Lemma convert_inverted_index_restores_text_witness :
  OpenAlex._convert_inverted_index
    (inverted_index_value [("cells", [1; 5]); ("grow", [7]); ("the", [0; 4]); ("divide", [2])]%Z)
  = Ok "the cells divide the cells grow".
Proof.
  apply (convert_inverted_index_restores_text _ [0; 1; 2; 4; 5; 7]%Z
           ["the"; "cells"; "divide"; "the"; "cells"; "grow"]).
  - reflexivity.
  - repeat (constructor; [|repeat (constructor; [lia|]); constructor]). constructor.
  - apply (bool_decide_unpack _). vm_compute. reflexivity.
Defined.

(** ** src/revsys/clients/crossref.py: pagination and the limit *)

Section CrossrefPages.

#[local] Arguments Crossref.reached : simpl never.
#[local] Arguments Crossref.slice_to : simpl never.
#[local] Arguments Crossref.process_data : simpl never.

Variable unescape : string -> string.

Lemma crossref_loop_prefix fuel fetch_data rows max_records offset all_records out :
  max_records = None ->
  Crossref.run_pipeline_loop unescape fuel fetch_data rows max_records offset all_records
  = Some (Ok out) ->
  exists more, out = all_records ++ more.
Proof.
  intros ->. revert offset all_records.
  induction fuel as [|fuel IH]; intros offset all_records; simpl; [discriminate|].
  destruct (fetch_data offset) as [data|e]; [|discriminate].
  destruct (Crossref.process_data unescape data) as [[|r records]|e]; [| |discriminate].
  - intros [= <-]. exists []. rewrite app_nil_r. reflexivity.
  - change (Crossref.reached None _) with false. cbv iota.
    destruct (get data "message" (PDict []) ≫= _) as [total|e]; [|discriminate].
    destruct (total <=? offset + rows)%Z.
    + intros [= <-]. eauto.
    + intros H. apply IH in H as (more & ->). rewrite <- app_assoc. eauto.
Qed.

Lemma crossref_loop_limit fuel fetch_data rows m offset all_records out :
  (0 < m)%Z ->
  (Z.of_nat (List.length all_records) < m)%Z ->
  Crossref.run_pipeline_loop unescape fuel fetch_data rows None offset all_records
  = Some (Ok out) ->
  Crossref.run_pipeline_loop unescape fuel fetch_data rows (Some m) offset all_records
  = Some (Ok (firstn (Z.to_nat m) out)).
Proof.
  intros Hm. revert offset all_records.
  induction fuel as [|fuel IH]; intros offset all_records Hlen; simpl; [discriminate|].
  destruct (fetch_data offset) as [data|e]; [|discriminate].
  destruct (Crossref.process_data unescape data) as [[|r records]|e]; [| |discriminate].
  - intros [= <-]. rewrite firstn_all2 by lia. reflexivity.
  - change (Crossref.reached None _) with false. cbv iota.
    destruct (Crossref.reached (Some m) (List.length (all_records ++ r :: records))) eqn:R.
    + unfold Crossref.reached in R. apply andb_true_iff in R as [_ R]. apply Z.leb_le in R.
      assert (Hslice : Crossref.slice_to m (all_records ++ r :: records)
                       = firstn (Z.to_nat m) (all_records ++ r :: records)).
      { unfold Crossref.slice_to. destruct (0 <=? m)%Z eqn:E; [reflexivity|lia]. }
      rewrite Hslice.
      destruct (get data "message" (PDict []) ≫= _) as [total|e]; [|discriminate].
      assert (Hfirst : forall more,
                firstn (Z.to_nat m) ((all_records ++ r :: records) ++ more)
                = firstn (Z.to_nat m) (all_records ++ r :: records)).
      { intros more. rewrite firstn_app.
        replace (Z.to_nat m - List.length (all_records ++ r :: records)) with 0 by lia.
        simpl. apply app_nil_r. }
      destruct (total <=? offset + rows)%Z.
      * intros [= <-]. reflexivity.
      * intros H. apply crossref_loop_prefix in H as (more & ->); [|reflexivity].
        rewrite Hfirst. reflexivity.
    + apply (reached_false m _ Hm) in R.
      destruct (get data "message" (PDict []) ≫= _) as [total|e]; [|discriminate].
      destruct (total <=? offset + rows)%Z.
      * intros [= <-]. rewrite firstn_all2 by lia. reflexivity.
      * apply IH. exact R.
Qed.

Lemma crossref_loop_ends fuel fetch_data rows max_records T offset all_records :
  (0 < rows)%Z ->
  (forall offset data, fetch_data offset = Ok data -> post (fun t => (t <= T)%Z) (total_results data)) ->
  1 <= fuel ->
  (T - offset <= Z.of_nat fuel * rows)%Z ->
  Crossref.run_pipeline_loop unescape fuel fetch_data rows max_records offset all_records <> None.
Proof.
  intros Hrows Htotal. revert offset all_records.
  induction fuel as [|fuel IH]; intros offset all_records Hfuel HT; [lia|].
  simpl.
  destruct (fetch_data offset) as [data|e] eqn:Ef; [|discriminate].
  destruct (Crossref.process_data unescape data) as [[|r records]|e]; try discriminate.
  destruct (Crossref.reached _ _); [discriminate|].
  specialize (Htotal _ _ Ef). unfold total_results in Htotal.
  destruct (get data "message" (PDict []) ≫= _) as [total|e]; [|discriminate].
  simpl in Htotal.
  destruct (total <=? offset + rows)%Z eqn:E; [discriminate|].
  apply Z.leb_gt in E. apply IH; nia.
Qed.

End CrossrefPages.

(** X5: the limit of [CrossrefAPI.run_pipeline] only cuts.  When the
    search without a limit returns the frame [df], the search with
    [max_records = m > 0] (given the same answers of the service)
    returns the first [m] rows of [df]: the same records in the same
    order, never more than [m]. *)
Theorem crossref_limit_is_a_prefix :
  forall unescape (fuel : nat) (fetch_data : Z -> result pyval) (rows m : Z)
         (df : list (gmap string pyval)),
    (0 < m)%Z ->
    Crossref.run_pipeline unescape fuel fetch_data rows None = Some (Ok df) ->
    Crossref.run_pipeline unescape fuel fetch_data rows (Some m)
    = Some (Ok (firstn (Z.to_nat m) df)) /\
    (Z.of_nat (List.length (firstn (Z.to_nat m) df)) <= m)%Z.
Proof.
  intros unescape fuel fetch_data rows m df Hm. unfold Crossref.run_pipeline.
  destruct (Crossref.run_pipeline_loop unescape fuel fetch_data rows None 0 [])
    as [[out|e]|] eqn:E; try discriminate.
  intros [= <-]. split; [|rewrite length_firstn; lia].
  rewrite (crossref_loop_limit unescape fuel fetch_data rows m 0 [] out Hm); [|simpl; lia|exact E].
  unfold DataFrame. rewrite firstn_map. reflexivity.
Qed.

(** X6: the pagination of [CrossrefAPI.run_pipeline] ends.  With a
    page size [rows > 0] and a service that never reports more than [T]
    results in total, the loop is left (with a frame or an exception)
    after at most [max 1 (ceil (T / rows))] requests. *)
Theorem crossref_pagination_ends :
  forall unescape (fetch_data : Z -> result pyval) (rows : Z) (max_records : option Z)
         (T : Z) (requests : nat),
    (0 < rows)%Z ->
    (forall offset data, fetch_data offset = Ok data ->
       post (fun t => (t <= T)%Z) (total_results data)) ->
    1 <= requests ->
    (T <= Z.of_nat requests * rows)%Z ->
    exists r, Crossref.run_pipeline unescape requests fetch_data rows max_records = Some r.
Proof.
  intros unescape fetch_data rows max_records T fuel Hrows Htotal Hfuel HT.
  unfold Crossref.run_pipeline.
  pose proof (crossref_loop_ends unescape fuel fetch_data rows max_records T 0 [] Hrows Htotal
                Hfuel) as H.
  destruct (Crossref.run_pipeline_loop unescape fuel fetch_data rows max_records 0 [])
    as [[out|e]|]; eauto.
  exfalso. apply H; [lia | reflexivity].
Qed.

Lemma crossref_pagination_ends_witness :
  exists r, Crossref.run_pipeline Html.unescape 3 crossref_service 2 (Some 4%Z) = Some r.
Proof.
  apply (crossref_pagination_ends Html.unescape crossref_service 2 (Some 4%Z) 5 3); try lia.
  intros offset data [= <-]. unfold total_results. cbn. lia.
Defined.

Lemma crossref_limit_is_a_prefix_witness :
  exists df,
    Crossref.run_pipeline Html.unescape 3 crossref_service 2 None = Some (Ok df) /\
    List.length df = 5 /\
    Crossref.run_pipeline Html.unescape 3 crossref_service 2 (Some 3%Z)
    = Some (Ok (firstn 3 df)).
Proof.
  assert (H : match Crossref.run_pipeline Html.unescape 3 crossref_service 2 None with
              | Some (Ok df) => List.length df
              | _ => 0
              end = 5) by (vm_compute; reflexivity).
  destruct (Crossref.run_pipeline Html.unescape 3 crossref_service 2 None) as [[df|e]|] eqn:E;
    try discriminate H.
  exists df. split; [reflexivity|]. split; [exact H|].
  apply (crossref_limit_is_a_prefix Html.unescape 3 crossref_service 2 3 df); [lia | exact E].
Defined.

(** ** src/revsys/clients/scholar.py: the rows of a search *)

Section ScholarSpec.

Import Scholar.

Lemma search_loop_length generator idx max_records url :
  post (fun records =>
          List.length records
          = Nat.min (List.length generator) (Z.to_nat (max_records - idx)))
       (search_loop generator idx max_records url).
Proof.
  revert idx url. induction generator as [|pub rest IH]; intros idx url; [reflexivity|].
  cbn [search_loop]. destruct (max_records <=? idx)%Z eqn:E.
  - apply Z.leb_le in E. unfold post. cbn [List.length]. lia.
  - apply Z.leb_gt in E. apply post_bind. intros [registro url'] _.
    apply post_bind. intros records Hrec.
    pose proof (IH (idx + 1)%Z url') as H. rewrite Hrec in H. unfold post in *.
    cbn [List.length]. rewrite H. lia.
Qed.

Lemma process_pub_url url pub :
  post (fun ru =>
          snd ru = match getitem pub "pub_url" with Ok u => Some u | Raise _ => url end /\
          exists u, snd ru = Some u /\ fst ru !! "Download URL" = Some u)
       (process_pub url pub).
Proof.
  unfold process_pub. post_steps;
    match goal with
    | H : match ?m with Some _ => _ | None => _ end = Ok ?v |- _ =>
      unfold post; cbn [fst snd]; split; [reflexivity|];
      destruct m as [u|]; [injection H as ->|discriminate H];
      exists v; split; [reflexivity|]; apply padroniza_display_lookup; reflexivity
    end.
Qed.

Lemma search_loop_stale_url p1 p2 rest idx max_records url u e :
  getitem p1 "pub_url" = Ok u ->
  getitem p2 "pub_url" = Raise e ->
  post (fun records =>
          match records with
          | r1 :: r2 :: _ => r1 !! "Download URL" = Some u /\ r2 !! "Download URL" = Some u
          | _ => (max_records < idx + 2)%Z
          end)
       (search_loop (p1 :: p2 :: rest) idx max_records url).
Proof.
  intros H1 H2. cbn [search_loop].
  destruct (max_records <=? idx)%Z eqn:E; [apply Z.leb_le in E; simpl; lia|].
  pose proof (process_pub_url url p1) as Hu1. rewrite H1 in Hu1.
  destruct (process_pub url p1) as [[r1 url1]|e1]; [|exact I].
  destruct Hu1 as (Hurl1 & u1 & Hu1 & Hr1). cbn [fst snd] in *. subst url1.
  injection Hu1 as <-. cbn [mbind result_bind bind].
  destruct (max_records <=? idx + 1)%Z eqn:E'; [apply Z.leb_le in E'; simpl; lia|].
  pose proof (process_pub_url (Some u) p2) as Hu2. rewrite H2 in Hu2.
  destruct (process_pub (Some u) p2) as [[r2 url2]|e2]; [|exact I].
  destruct Hu2 as (Hurl2 & u2 & Hu2 & Hr2). cbn [fst snd] in *. subst url2.
  injection Hu2 as <-. cbn [mbind result_bind bind].
  destruct (search_loop rest (idx + 1 + 1)%Z max_records (Some u)) as [more|e3]; [|exact I].
  simpl. auto.
Qed.

Lemma search_loop_unbound pub rest idx max_records :
  (idx < max_records)%Z ->
  is_ok (getitem pub "pub_url") = false ->
  is_ok (search_loop (pub :: rest) idx max_records None) = false.
Proof.
  intros Hidx Hurl. cbn [search_loop].
  destruct (max_records <=? idx)%Z eqn:E; [apply Z.leb_le in E; lia|].
  pose proof (process_pub_url None pub) as Hu.
  destruct (process_pub None pub) as [[r url']|e] eqn:Hp; [|reflexivity].
  exfalso. destruct Hu as (Hurl' & u & Hu & _). cbn [snd] in *.
  destruct (getitem pub "pub_url"); [discriminate Hurl|]. congruence.
Qed.

Lemma search_loop_stale_url_at before p1 p2 rest idx max_records url u e :
  getitem p1 "pub_url" = Ok u ->
  getitem p2 "pub_url" = Raise e ->
  (idx + Z.of_nat (List.length before) + 2 <= max_records)%Z ->
  post (fun records =>
          exists r1 r2,
            records !! List.length before = Some r1 /\
            records !! S (List.length before) = Some r2 /\
            r1 !! "Download URL" = Some u /\ r2 !! "Download URL" = Some u)
       (search_loop (before ++ p1 :: p2 :: rest) idx max_records url).
Proof.
  intros H1 H2. revert idx url. induction before as [|pub before IH]; intros idx url Hmax.
  - pose proof (search_loop_stale_url p1 p2 rest idx max_records url u e H1 H2) as H.
    cbn [app]. destruct (search_loop (p1 :: p2 :: rest) idx max_records url)
      as [[|r1 [|r2 more]]|e']; cbn [post List.length] in *.
    + lia.
    + lia.
    + exists r1, r2. destruct H. auto.
    + exact I.
  - cbn [app search_loop List.length] in *.
    destruct (max_records <=? idx)%Z eqn:E; [apply Z.leb_le in E; lia|].
    apply post_bind. intros [registro url'] _. apply post_bind. intros records Hrec.
    pose proof (IH (idx + 1)%Z url') as H. rewrite Hrec in H.
    destruct H as (r1 & r2 & Hr1 & Hr2 & Hu); [lia|].
    exists r1, r2. auto.
Qed.

End ScholarSpec.

(** X7: [ScholarClient.search] returns one row for each of the first
    [max_records] publications of the generator: as many rows as the
    smaller of the two numbers. *)
Theorem scholar_search_row_count :
  forall (generator : list pyval) (max_records : Z),
    post (fun df =>
            List.length df = Nat.min (List.length generator) (Z.to_nat max_records))
         (Scholar.search generator max_records).
Proof.
  intros generator max_records. unfold Scholar.search.
  apply post_bind. intros records Hrec.
  pose proof (search_loop_length generator 0 max_records None) as H. rewrite Hrec in H.
  unfold post in *. rewrite DataFrame_length, H. f_equal. lia.
Qed.

(** X8: in [ScholarClient.search] the variable [url] is only assigned
    when a publication has a ['pub_url'] ([try: ... except: pass]), so a
    publication without one is given the link of the publication before
    it: its row has the same "Download URL". *)
Theorem scholar_reuses_the_previous_url :
  forall (before : list pyval) (p1 p2 : pyval) (rest : list pyval) (max_records : Z)
         (u : pyval) (e : exn),
    getitem p1 "pub_url" = Ok u ->
    getitem p2 "pub_url" = Raise e ->
    (Z.of_nat (List.length before) + 2 <= max_records)%Z ->
    post (fun df =>
            exists r1 r2,
              df !! List.length before = Some r1 /\
              df !! S (List.length before) = Some r2 /\
              r1 !! "Download URL" = Some u /\ r2 !! "Download URL" = Some u)
         (Scholar.search (before ++ p1 :: p2 :: rest) max_records).
Proof.
  intros before p1 p2 rest max_records u e H1 H2 Hmax. unfold Scholar.search.
  apply post_bind. intros records Hrec.
  pose proof (search_loop_stale_url_at before p1 p2 rest 0 max_records None u e H1 H2) as H.
  rewrite Hrec in H. destruct H as (r1 & r2 & Hr1 & Hr2 & Hu1 & Hu2); [lia|].
  exists (reindex_row r1), (reindex_row r2). unfold post, DataFrame.
  rewrite !list_lookup_fmap, Hr1, Hr2.
  rewrite !reindex_row_lookup by (simpl; tauto). auto.
Qed.

Lemma scholar_reuses_the_previous_url_witness :
  post (fun df =>
          exists r1 r2,
            df !! 0 = Some r1 /\ df !! 1 = Some r2 /\
            r1 !! "Download URL" = Some (PStr "http://example.org/a.pdf") /\
            r2 !! "Download URL" = Some (PStr "http://example.org/a.pdf"))
       (Scholar.search scholar_sample_pubs 10).
Proof.
  unfold scholar_sample_pubs.
  apply (scholar_reuses_the_previous_url [] _ _ [] 10 _ KeyError);
    [reflexivity | reflexivity | simpl; lia].
Defined.

(** X9: when the first publication that [scholarly] yields has no
    ['pub_url'], [ScholarClient.search] raises (the variable [url] is
    read before it was ever assigned) and no record is returned. *)
Theorem scholar_first_without_url_raises :
  forall (pub : pyval) (rest : list pyval) (max_records : Z),
    (0 < max_records)%Z ->
    is_ok (getitem pub "pub_url") = false ->
    is_ok (Scholar.search (pub :: rest) max_records) = false.
Proof.
  intros pub rest max_records Hmax Hurl. unfold Scholar.search.
  pose proof (search_loop_unbound pub rest 0 max_records Hmax Hurl) as H.
  destruct (Scholar.search_loop (pub :: rest) 0 max_records None); [discriminate H|reflexivity].
Qed.


Lemma scholar_first_without_url_raises_witness :
  is_ok (Scholar.search (skipn 1 scholar_sample_pubs) 10) = false.
Proof.
  unfold scholar_sample_pubs. cbn [skipn].
  apply scholar_first_without_url_raises; [lia | reflexivity].
Defined.

(** ** padroniza_registro (in every client) *)

(** X10: [padroniza_registro] only fills gaps.  A key that the record
    has keeps its value (whatever it is), a standard column that it
    lacks is set to "N/A", and no other key appears; so the function is
    idempotent, and it returns a record unchanged exactly when the
    record already has the twenty standard columns. *)
Theorem padroniza_registro_only_fills_gaps :
  forall registro : gmap string pyval,
    (forall c,
       padroniza_registro registro !! c
       = match registro !! c with
         | Some v => Some v
         | None => if existsb (String.eqb c) STANDARD_COLUMNS then Some NA else None
         end) /\
    padroniza_registro (padroniza_registro registro) = padroniza_registro registro /\
    (padroniza_registro registro = registro <-> complete registro).
Proof.
  intros registro.
  assert (Hpoint : forall r c,
            padroniza_registro r !! c
            = match r !! c with
              | Some v => Some v
              | None => if existsb (String.eqb c) STANDARD_COLUMNS then Some NA else None
              end).
  { intros r c. destruct (r !! c) as [v|] eqn:E; [apply padroniza_keeps; exact E|].
    destruct (existsb (String.eqb c) STANDARD_COLUMNS) eqn:Ex.
    - apply padroniza_fills; [|exact E].
      apply existsb_exists in Ex as (c' & Hin & Heq). apply String.eqb_eq in Heq. subst. exact Hin.
    - unfold padroniza_registro. rewrite padroniza_fold_other; [exact E|].
      intros Hin. apply not_true_iff_false in Ex. apply Ex. apply existsb_exists.
      exists c. split; [exact Hin | apply String.eqb_refl]. }
  assert (Hfix : forall r, complete r -> padroniza_registro r = r).
  { intros r Hc. apply map_eq. intros c. rewrite Hpoint.
    destruct (r !! c) as [v|] eqn:E; [reflexivity|].
    destruct (existsb (String.eqb c) STANDARD_COLUMNS) eqn:Ex; [|reflexivity].
    apply existsb_exists in Ex as (c' & Hin & Heq). apply String.eqb_eq in Heq. subst c'.
    destruct (Hc c Hin) as [v Hv]. congruence. }
  split; [apply Hpoint|]. split.
  - apply Hfix. apply padroniza_complete.
  - split; [intros <-; apply padroniza_complete | apply Hfix].
Qed.

(** ** src/revsys/pretriage.py: the records that are returned *)

Section PretriageFilter.

Import Pretriage.

Variable embedding : Type.
Variable embed : string -> embedding.
Variable cosine : embedding -> embedding -> Q.
Variable float_str : Q -> string.

Lemma zip3_firstn {A B C} (f : A -> B) (g : A -> C) n (l : list A) :
  zip3 l (map f (firstn n l)) (map g (firstn n l))
  = map (fun x => (x, f x, g x)) (firstn n l).
Proof.
  revert l. induction n as [|n IH]; intros [|x l]; simpl; try reflexivity.
  rewrite IH. reflexivity.
Qed.

Lemma pretriage_records_filter api_key records k keys exclusion_keys it et :
  post (fun out =>
          out = omap (fun rec =>
                        let score_i :=
                          score_inclusion embedding embed cosine float_str (k :: keys) rec in
                        let score_e :=
                          score_exclusion embedding embed cosine float_str exclusion_keys rec in
                        if passes it et score_i score_e
                        then Some (mark rec score_i score_e) else None)
                     (firstn 500 records))
       (pretriage_records embedding embed cosine float_str api_key records (k :: keys)
          exclusion_keys it et).
Proof.
  unfold pretriage_records.
  destruct api_key as [[|c key]|]; try exact I.
  assert (Htxt : _create_embeddings embedding embed (map (text_of float_str) records)
                 = map (fun rec => embed (text_of float_str rec)) (firstn 500 records)).
  { unfold _create_embeddings. rewrite firstn_map. apply map_map. }
  rewrite Htxt. clear Htxt.
  destruct (map (fun rec => embed (text_of float_str rec)) (firstn 500 records))
    as [|e es] eqn:E; [exact I|]. rewrite <- E. clear E e es.
  unfold post. rewrite !map_map.
  destruct exclusion_keys as [|x xs]; cbv beta iota; rewrite ?map_map;
    rewrite zip3_firstn, omap_of_map; reflexivity.
Qed.

End PretriageFilter.

(** X11: what [pretriage_records] returns when there are inclusion
    keys.  Of the first 500 records (the only ones whose texts are
    embedded), exactly those are returned, in their order, whose
    inclusion score is at least [incl_threshold] and whose exclusion
    score is at most [excl_threshold]; each comes with its two scores
    in the fields "score_inclusion" and "score_exclusion" and is
    otherwise the record that was given. *)
Theorem pretriage_returns_the_records_that_pass :
  forall (embedding : Type) (embed : string -> embedding)
         (cosine : embedding -> embedding -> Q) (float_str : Q -> string)
         (api_key : option string) (records : list (gmap string Pretriage.cell))
         (k : string) (keys exclusion_keys : list string) (incl_threshold excl_threshold : Q),
    post (fun out =>
            out = omap (fun rec =>
                          let score_i :=
                            Pretriage.score_inclusion embedding embed cosine float_str
                              (k :: keys) rec in
                          let score_e :=
                            Pretriage.score_exclusion embedding embed cosine float_str
                              exclusion_keys rec in
                          if Pretriage.passes incl_threshold excl_threshold score_i score_e
                          then Some (Pretriage.mark rec score_i score_e) else None)
                       (firstn 500 records) /\
            Forall (fun r' =>
                      exists rec,
                        In rec records /\
                        forall c, c <> "score_inclusion" -> c <> "score_exclusion" ->
                                  r' !! c = rec !! c)
                   out)
         (Pretriage.pretriage_records embedding embed cosine float_str api_key records
            (k :: keys) exclusion_keys incl_threshold excl_threshold).
Proof.
  intros embedding embed cosine float_str api_key records k keys exclusion_keys it et.
  pose proof (pretriage_records_filter embedding embed cosine float_str api_key records k keys
                exclusion_keys it et) as H.
  destruct (Pretriage.pretriage_records _ _ _ _ _ _ _ _ _ _) as [out|e]; [|exact I].
  unfold post in *. split; [exact H|].
  apply List.Forall_forall. intros r' Hin. rewrite H in Hin.
  apply In_omap in Hin as (rec & Hrec & Hkeep).
  exists rec. split; [rewrite <- (firstn_skipn 500 records); apply in_or_app; left; exact Hrec|].
  cbv zeta in Hkeep. destruct (Pretriage.passes _ _ _ _); [|discriminate].
  injection Hkeep as <-. intros c Hi He. unfold Pretriage.mark.
  rewrite !lookup_insert_ne by congruence. reflexivity.
Qed.

(** ** src/revsys/clients/springernature.py: requests and pagination *)

(** X12: the retry policy of [SpringerNature.fetch_data].  At most three
    requests are made.  Every request before the last failed with a
    transient error (an [HTTPError] for status 503 or 504, a timeout or
    another [RequestException] that is no [HTTPError]) and was followed
    by a sleep of 10 s, then 20 s.  Either the last request decided the
    outcome (its result, or its exception when that is not transient:
    an [HTTPError] for any other status is raised at once), or all
    three requests failed with transient errors: then the function
    sleeps a third time (30 s) and raises a plain [Exception] in place
    of the error of the service. *)
Theorem springer_fetch_data_policy :
  forall (A : Type) (op : nat -> result A),
    let r := SpringerNatureRun.fetch_data op in
    1 <= HttpRetry.calls r <= 3 /\
    (forall k, k < HttpRetry.calls r - 1 ->
       exists e, op k = Raise e /\ SpringerNatureRun.transient e = true) /\
    ((HttpRetry.outcome r = op (HttpRetry.calls r - 1) /\
      (forall e, HttpRetry.outcome r = Raise e -> SpringerNatureRun.transient e = false) /\
      HttpRetry.sleeps r = firstn (HttpRetry.calls r - 1) [10; 20; 30]%Z) \/
     (HttpRetry.calls r = 3 /\
      (exists e, op 2 = Raise e /\ SpringerNatureRun.transient e = true) /\
      HttpRetry.outcome r = Raise PlainException /\
      HttpRetry.sleeps r = [10; 20; 30]%Z)) /\
    (forall status, op 0 = Raise (HTTPError status) -> status <> 503%Z -> status <> 504%Z ->
       r = HttpRetry.Run (Raise (HTTPError status)) 1 []).
Proof.
  intros A op r. subst r. unfold SpringerNatureRun.fetch_data.
  cbn [seq SpringerNatureRun.max_retries SpringerNatureRun.fetch_data_loop].
  assert (Hstatus : forall status, status <> 503%Z -> status <> 504%Z ->
            SpringerNatureRun.transient (HTTPError status) = false).
  { intros status H3 H4. unfold SpringerNatureRun.transient.
    apply orb_false_iff. split; apply Z.eqb_neq; assumption. }
  destruct (op 0) as [v0|e0] eqn:E0.
  { cbn. repeat split; try lia; try discriminate.
    left. repeat split; [symmetry; exact E0 | discriminate]. }
  destruct (SpringerNatureRun.transient e0) eqn:T0.
  2:{ cbn. repeat split; try lia.
      - left. repeat split; [symmetry; exact E0|]. intros e [= <-]. exact T0.
      - intros status [= ->]. reflexivity. }
  destruct (op 1) as [v1|e1] eqn:E1.
  { cbn. repeat split; try lia.
    - intros k Hk. assert (k = 0) as -> by lia. eauto.
    - left. repeat split; [symmetry; exact E1 | discriminate].
    - intros status [= ->] H3 H4. rewrite Hstatus in T0 by assumption. discriminate. }
  destruct (SpringerNatureRun.transient e1) eqn:T1.
  2:{ cbn. repeat split; try lia.
      - intros k Hk. assert (k = 0) as -> by lia. eauto.
      - left. repeat split; [symmetry; exact E1|]. intros e [= <-]. exact T1.
      - intros status [= ->] H3 H4. rewrite Hstatus in T0 by assumption. discriminate. }
  assert (Hbefore : forall k, k < 2 -> exists e, op k = Raise e /\
                                              SpringerNatureRun.transient e = true).
  { intros k Hk. destruct k as [|[|k]]; [eauto | eauto | lia]. }
  destruct (op 2) as [v2|e2] eqn:E2.
  { cbn. repeat split; try lia; [exact Hbefore | |].
    - left. repeat split; [symmetry; exact E2 | discriminate].
    - intros status [= ->] H3 H4. rewrite Hstatus in T0 by assumption. discriminate. }
  destruct (SpringerNatureRun.transient e2) eqn:T2.
  - cbn. repeat split; try lia; [exact Hbefore | |].
    + right. repeat split. eauto.
    + intros status [= ->] H3 H4. rewrite Hstatus in T0 by assumption. discriminate.
  - cbn. repeat split; try lia; [exact Hbefore | |].
    + left. repeat split; [symmetry; exact E2|]. intros e [= <-]. exact T2.
    + intros status [= ->] H3 H4. rewrite Hstatus in T0 by assumption. discriminate.
Qed.

Section SpringerPages.

#[local] Arguments Crossref.slice_to : simpl never.
#[local] Arguments SpringerNature.process_data : simpl never.

Import SpringerNatureRun.

Lemma springer_loop_bound fuel fetch_data get_next p m next_page s all_records out :
  (0 <= m)%Z ->
  run_pipeline_loop fuel fetch_data get_next p (Some m) next_page s all_records = Some (Ok out) ->
  (Z.of_nat (List.length all_records) <= m)%Z ->
  (Z.of_nat (List.length out) <= m)%Z.
Proof.
  intros Hm. revert next_page s all_records.
  induction fuel as [|fuel IH]; intros next_page s all_records; simpl; [discriminate|].
  destruct (match next_page with Some address => get_next address | None => fetch_data s end)
    as [data|e]; [|discriminate].
  destruct (SpringerNature.process_data data) as [[|r records]|e]; [| |discriminate].
  - intros [= <-] H. exact H.
  - destruct (m <=? Z.of_nat (List.length (all_records ++ r :: records)))%Z eqn:R.
    + intros [= <-] _. unfold Crossref.slice_to.
      destruct (0 <=? m)%Z eqn:E; [|lia]. rewrite length_firstn. lia.
    + apply Z.leb_gt in R.
      destruct (get_none data "nextPage") as [np|e]; [|discriminate].
      destruct (truthy np); [intros H _; apply IH in H; [exact H | lia]|].
      destruct (_ <? p)%Z; [intros [= <-] _; lia|].
      intros H _. apply IH in H; [exact H | lia].
Qed.

Lemma springer_loop_ends fuel fetch_data get_next p m next_page s all_records :
  1 <= fuel ->
  (m - Z.of_nat (List.length all_records) <= Z.of_nat fuel)%Z ->
  run_pipeline_loop fuel fetch_data get_next p (Some m) next_page s all_records <> None.
Proof.
  revert next_page s all_records.
  induction fuel as [|fuel IH]; intros next_page s all_records Hfuel Hm; [lia|]. simpl.
  destruct (match next_page with Some address => get_next address | None => fetch_data s end)
    as [data|e]; [|discriminate].
  destruct (SpringerNature.process_data data) as [[|r records]|e]; try discriminate.
  destruct (m <=? Z.of_nat (List.length (all_records ++ r :: records)))%Z eqn:R;
    [discriminate|].
  apply Z.leb_gt in R. rewrite length_app in *. cbn [List.length] in *.
  destruct (get_none data "nextPage") as [np|e]; [|discriminate].
  destruct (truthy np); [apply IH; rewrite ?length_app; cbn [List.length]; lia|].
  destruct (_ <? p)%Z; [discriminate|].
  apply IH; rewrite ?length_app; cbn [List.length]; lia.
Qed.

End SpringerPages.

(** X13: [SpringerNature.run_pipeline] with a limit.  For every
    [max_records = m >= 0], whatever the service answers, the loop is
    left after at most [max 1 m] page requests (each page that does not
    end it adds a record), and a frame that is returned has at most [m]
    rows; for [m = 0] it is empty. *)
Theorem springer_run_pipeline_limit :
  forall (fetch_data : option Z -> result pyval) (get_next : pyval -> result pyval)
         (p m : Z) (requests : nat),
    (0 <= m)%Z ->
    1 <= requests ->
    (m <= Z.of_nat requests)%Z ->
    exists r,
      SpringerNatureRun.run_pipeline requests fetch_data get_next p (Some m) = Some r /\
      post (fun df => (Z.of_nat (List.length df) <= m)%Z) r.
Proof.
  intros fetch_data get_next p m fuel Hm Hfuel Hreq. unfold SpringerNatureRun.run_pipeline.
  pose proof (springer_loop_ends fuel fetch_data get_next p m None None [] Hfuel) as Hends.
  destruct (SpringerNatureRun.run_pipeline_loop fuel fetch_data get_next p (Some m) None None [])
    as [[out|e]|] eqn:E.
  - eexists. split; [reflexivity|]. unfold post. rewrite DataFrame_length.
    eapply springer_loop_bound; [exact Hm | exact E | simpl; lia].
  - eexists. split; [reflexivity | exact I].
  - exfalso. apply Hends; [simpl; lia | reflexivity].
Qed.

Lemma springer_run_pipeline_limit_witness :
  exists r,
    SpringerNatureRun.run_pipeline 2 (fun _ => Ok springer_sample_data) (fun _ => Raise PlainException)
      1 (Some 2%Z) = Some r /\
    post (fun df => (Z.of_nat (List.length df) <= 2)%Z) r.
Proof.
  apply springer_run_pipeline_limit; lia.
Defined.

(** ** src/revsys/clients/pubmed_api.py: collecting PMIDs and details *)

Section PubMedBatches.

Import PubMedSearch.

Lemma concat_chunks {P} (c : nat) (l : list P) k :
  concat (map (fun start => firstn c (skipn start l)) (map (fun i => i * c) (seq 0 k)))
  = firstn (k * c) l.
Proof.
  induction k as [|k IH]; [reflexivity|].
  rewrite seq_S, !map_app, concat_app, IH. cbn [map concat plus]. rewrite app_nil_r.
  rewrite <- (firstn_skipn (k * c) (firstn (S k * c) l)).
  rewrite firstn_firstn, Nat.min_l by lia. f_equal.
  rewrite skipn_firstn_comm. f_equal. lia.
Qed.

Lemma ceil_div_spec n c :
  0 < c -> n <= (n + c - 1) / c * c /\ (forall i, i < (n + c - 1) / c -> i * c < n).
Proof.
  intros Hc. pose proof (Nat.div_mod_eq (n + c - 1) c) as H.
  pose proof (Nat.mod_upper_bound (n + c - 1) c ltac:(lia)) as Hm.
  split; [nia|]. intros i Hi. nia.
Qed.

Lemma subsets_spec {P} (all_pmids : list P) :
  concat (subsets all_pmids) = all_pmids /\
  Forall (fun subset => 1 <= List.length subset <= chunk_size) (subsets all_pmids) /\
  List.length (subsets all_pmids) = (List.length all_pmids + 199) / 200.
Proof.
  unfold subsets, range_step.
  destruct (ceil_div_spec (List.length all_pmids) chunk_size ltac:(unfold chunk_size; lia))
    as [Hup Hlt].
  split; [|split].
  - rewrite concat_chunks. apply firstn_all2. exact Hup.
  - apply List.Forall_forall. intros subset Hin.
    apply in_map_iff in Hin as (start & <- & Hin).
    apply in_map_iff in Hin as (i & <- & Hin). apply in_seq in Hin.
    rewrite length_firstn, length_skipn. specialize (Hlt i ltac:(lia)). lia.
  - rewrite !length_map, length_seq. unfold chunk_size. f_equal. lia.
Qed.

End PubMedBatches.

Lemma mapM_total {A B} (f : A -> B) (l : list A) : mapM (fun x => Ok (f x)) l = Ok (map f l).
Proof. induction l as [|x l IH]; [reflexivity|]. cbn [mapM map]. rewrite IH. reflexivity. Qed.

Lemma flat_map_concat_lists {A B} (f : A -> list B) (ls : list (list A)) :
  concat (map (flat_map f) ls) = flat_map f (concat ls).
Proof.
  induction ls as [|l ls IH]; [reflexivity|].
  cbn [map concat]. rewrite IH, flat_map_app. reflexivity.
Qed.

Lemma fetch_all_pmids_ends fetch_pmids fuel total_count current_start all_pmids :
  (total_count - current_start <= Z.of_nat fuel * PubMedSearch.step)%Z ->
  PubMedSearch._fetch_all_pmids_loop fetch_pmids (S fuel) total_count current_start all_pmids
  <> None.
Proof.
  revert current_start all_pmids.
  induction fuel as [|fuel IH]; intros current_start all_pmids H;
    cbn [PubMedSearch._fetch_all_pmids_loop].
  - destruct (current_start <? total_count)%Z eqn:E; [apply Z.ltb_lt in E; lia|discriminate].
  - destruct (current_start <? total_count)%Z eqn:E; [|discriminate].
    destruct (fetch_pmids PubMedSearch.step current_start) as [[|x batch]|e]; try discriminate.
    destruct (_ <? PubMedSearch.step)%Z; [discriminate|].
    apply IH. unfold PubMedSearch.step in *. lia.
Qed.

(** X14: [PubMedAPI.search] with [fetch_all=True] asks for the details
    in batches: every PMID that was collected is sent to EFetch once,
    in order, in batches of 1 to 200 PMIDs.  When the details of a
    batch are the details of its PMIDs one after the other, the frame
    is the one of a single request for all PMIDs. *)
Theorem pubmed_fetch_all_batches :
  forall (_get_total_count : result Z) (_fetch_pmids : Z -> Z -> result (list pyval))
         (detail : pyval -> list pyval) (fuel : nat) (retmax : option Z)
         (total_count : Z) (all_pmids : list pyval),
    _get_total_count = Ok total_count ->
    PubMedSearch._fetch_all_pmids _fetch_pmids fuel total_count = Some (Ok all_pmids) ->
    concat (PubMedSearch.subsets all_pmids) = all_pmids /\
    Forall (fun subset => 1 <= List.length subset <= 200) (PubMedSearch.subsets all_pmids) /\
    PubMedSearch.search _get_total_count _fetch_pmids
      (fun pmid_list => Ok (flat_map detail pmid_list)) fuel retmax true
    = Some (PubMed._parse_data (flat_map detail all_pmids)).
Proof.
  intros total fetch_pmids detail fuel retmax total_count all_pmids Htotal Hall.
  destruct (subsets_spec all_pmids) as (Hconcat & Hsize & _).
  split; [exact Hconcat|]. split; [exact Hsize|].
  unfold PubMedSearch.search. rewrite Htotal, Hall.
  rewrite (mapM_total (flat_map detail)). cbn [mbind result_bind bind].
  rewrite flat_map_concat_lists, Hconcat. reflexivity.
Qed.

(** X15: the pagination of [PubMedAPI._fetch_all_pmids] ends: the
    [while] loop is left after at most [ceil (total_count / 10000)]
    requests for PMIDs, whatever the service answers. *)
Theorem pubmed_fetch_all_pmids_ends :
  forall (_fetch_pmids : Z -> Z -> result (list pyval)) (total_count : Z) (requests : nat),
    (total_count <= Z.of_nat requests * 10000)%Z ->
    exists r, PubMedSearch._fetch_all_pmids _fetch_pmids (S requests) total_count = Some r.
Proof.
  intros fetch_pmids total_count requests H. unfold PubMedSearch._fetch_all_pmids.
  pose proof (fetch_all_pmids_ends fetch_pmids requests total_count 0 []) as Hends.
  destruct (PubMedSearch._fetch_all_pmids_loop fetch_pmids (S requests) total_count 0 []);
    [eauto|].
  exfalso. apply Hends; [|reflexivity]. unfold PubMedSearch.step. lia.
Qed.

Lemma pubmed_fetch_all_pmids_ends_witness :
  exists r, PubMedSearch._fetch_all_pmids pubmed_service 2 450 = Some r.
Proof. apply (pubmed_fetch_all_pmids_ends pubmed_service 450 1). lia. Defined.

Lemma pubmed_fetch_all_batches_witness :
  map (@List.length pyval) (PubMedSearch.subsets pubmed_ids) = [200; 200; 50] /\
  PubMedSearch.search (Ok 450%Z) pubmed_service
    (fun pmid_list => Ok (flat_map pubmed_detail pmid_list)) 2 None true
  = Some (PubMed._parse_data (flat_map pubmed_detail pubmed_ids)).
Proof.
  split; [vm_compute; reflexivity|].
  apply (pubmed_fetch_all_batches (Ok 450%Z) pubmed_service pubmed_detail 2 None 450 pubmed_ids);
    [reflexivity | vm_compute; reflexivity].
Defined.

(** ** src/revsys/clients/plos.py *)

Section PlosSpec.

Import Plos.

#[local] Arguments Crossref.reached : simpl never.
#[local] Arguments Crossref.slice_to : simpl never.
#[local] Arguments Plos.process_data : simpl never.

Lemma plos_doc_fields doc :
  post (fun r =>
          complete r /\
          r !! "Is Open Access" = Some (PStr "Yes") /\
          r !! "OA Status" = Some (PStr "PLOS Open Access") /\
          r !! "Is Published" = Some (PStr "Yes") /\
          r !! "Download URL" = Some (PStr "N/A") /\
          r !! "DOI" = r !! "ID")
       (process_doc doc).
Proof.
  unfold process_doc. post_steps; unfold post;
    (split; [apply padroniza_complete|]);
    repeat (split; [apply padroniza_display_lookup; reflexivity|]);
    etransitivity; [apply padroniza_display_lookup; reflexivity|];
    symmetry; apply padroniza_display_lookup; reflexivity.
Qed.

Lemma plos_loop_prefix fuel fetch_data rows start all_records out :
  run_pipeline_loop fuel fetch_data rows None start all_records = Some (Ok out) ->
  exists more, out = all_records ++ more.
Proof.
  revert start all_records.
  induction fuel as [|fuel IH]; intros start all_records; simpl; [discriminate|].
  destruct (fetch_data start) as [data|e]; [|discriminate].
  destruct (process_data data) as [[|r records]|e]; [| |discriminate].
  - intros [= <-]. exists []. rewrite app_nil_r. reflexivity.
  - change (Crossref.reached None _) with false. cbv iota.
    destruct (total_found data) as [total|e]; [|discriminate].
    destruct (total <=? start + rows)%Z.
    + intros [= <-]. eauto.
    + intros H. apply IH in H as (more & ->). rewrite <- app_assoc. eauto.
Qed.

Lemma plos_loop_limit fuel fetch_data rows m start all_records out :
  (0 < m)%Z ->
  (Z.of_nat (List.length all_records) < m)%Z ->
  run_pipeline_loop fuel fetch_data rows None start all_records = Some (Ok out) ->
  run_pipeline_loop fuel fetch_data rows (Some m) start all_records
  = Some (Ok (firstn (Z.to_nat m) out)).
Proof.
  intros Hm. revert start all_records.
  induction fuel as [|fuel IH]; intros start all_records Hlen; simpl; [discriminate|].
  destruct (fetch_data start) as [data|e]; [|discriminate].
  destruct (process_data data) as [[|r records]|e]; [| |discriminate].
  - intros [= <-]. rewrite firstn_all2 by lia. reflexivity.
  - change (Crossref.reached None _) with false. cbv iota.
    destruct (Crossref.reached (Some m) (List.length (all_records ++ r :: records))) eqn:R.
    + unfold Crossref.reached in R. apply andb_true_iff in R as [_ R]. apply Z.leb_le in R.
      assert (Hslice : Crossref.slice_to m (all_records ++ r :: records)
                       = firstn (Z.to_nat m) (all_records ++ r :: records)).
      { unfold Crossref.slice_to. destruct (0 <=? m)%Z eqn:E; [reflexivity|lia]. }
      rewrite Hslice.
      destruct (total_found data) as [total|e]; [|discriminate].
      assert (Hfirst : forall more,
                firstn (Z.to_nat m) ((all_records ++ r :: records) ++ more)
                = firstn (Z.to_nat m) (all_records ++ r :: records)).
      { intros more. rewrite firstn_app.
        replace (Z.to_nat m - List.length (all_records ++ r :: records)) with 0 by lia.
        simpl. apply app_nil_r. }
      destruct (total <=? start + rows)%Z.
      * intros [= <-]. reflexivity.
      * intros H. apply plos_loop_prefix in H as (more & ->).
        rewrite Hfirst. reflexivity.
    + apply (reached_false m _ Hm) in R.
      destruct (total_found data) as [total|e]; [|discriminate].
      destruct (total <=? start + rows)%Z.
      * intros [= <-]. rewrite firstn_all2 by lia. reflexivity.
      * apply IH. exact R.
Qed.

Lemma plos_last_name name l : PyStr.last (PyStr.split_ws name) = Ok l -> last_name (PStr name) = Ok l.
Proof. intros H. unfold last_name. cbn. exact H. Qed.

End PlosSpec.

(** X16: the record of every PLOS document.  It has the twenty standard
    fields, is marked open access ("Is Open Access" = "Yes", "OA
    Status" = "PLOS Open Access") and published, has no download
    address, and its "DOI" is its "ID" (both are the [id] of the
    document). *)
Theorem plos_records_are_open_access :
  forall data : pyval,
    post (Forall (fun r =>
                    complete r /\
                    r !! "Is Open Access" = Some (PStr "Yes") /\
                    r !! "OA Status" = Some (PStr "PLOS Open Access") /\
                    r !! "Is Published" = Some (PStr "Yes") /\
                    r !! "Download URL" = Some (PStr "N/A") /\
                    r !! "DOI" = r !! "ID"))
         (Plos.process_data data).
Proof.
  intros data. unfold Plos.process_data. post_steps.
  unfold post. destruct (mapM Plos.process_doc a1) as [records|e] eqn:E; [|exact I].
  refine (mapM_Forall _ _ _ _ _ E). intros doc r Hr.
  exact (post_Ok _ _ _ (plos_doc_fields doc) Hr).
Qed.

(** X17: the "Authors Year" of a PLOS document follows the number of
    its authors, with the last word of each name as the last name: no
    author gives "N/A {year}", one "{Last} {year}", two "{Last1} and
    {Last2} {year}", three or more "{Last1} et al. {year}". *)
Theorem plos_authors_year_rules :
  forall (names lasts : list string) (pub_year : string),
    Forall2 (fun name l => PyStr.last (PyStr.split_ws name) = Ok l) names lasts ->
    Plos.authors_year_of (PList (map PStr names)) pub_year
    = Ok (match lasts with
          | [] => "N/A " +:+ pub_year
          | [l] => l +:+ " " +:+ pub_year
          | [l1; l2] => l1 +:+ " and " +:+ l2 +:+ " " +:+ pub_year
          | l1 :: _ => l1 +:+ " et al. " +:+ pub_year
          end).
Proof.
  intros names lasts pub_year H.
  destruct H as [|n1 l1 names lasts H1 H]; [reflexivity|].
  destruct H as [|n2 l2 names lasts H2 H].
  { unfold Plos.authors_year_of. cbn -[PyStr.split_ws PyStr.last].
    rewrite H1. reflexivity. }
  destruct H as [|n3 l3 names lasts H3 H].
  { unfold Plos.authors_year_of. cbn -[PyStr.split_ws PyStr.last].
    rewrite H1. cbn -[PyStr.split_ws PyStr.last]. rewrite H2. reflexivity. }
  unfold Plos.authors_year_of. cbn -[PyStr.split_ws PyStr.last].
  rewrite H1. reflexivity.
Qed.

Lemma plos_authors_year_rules_witness :
  Plos.authors_year_of (PList (map PStr ["Ana Silva"; "Bruno Souza"])) "2023"
  = Ok "Silva and Souza 2023".
Proof.
  apply (plos_authors_year_rules ["Ana Silva"; "Bruno Souza"] ["Silva"; "Souza"] "2023").
  repeat constructor.
Defined.

(** X18: the limit of [PlosAPI.run_pipeline] only cuts.  When the search
    without a limit returns the frame [df], the search with
    [max_records = m > 0] (given the same answers of the service)
    returns the first [m] rows of [df], so never more than [m]. *)
Theorem plos_limit_is_a_prefix :
  forall (fuel : nat) (fetch_data : Z -> result pyval) (rows m : Z)
         (df : list (gmap string pyval)),
    (0 < m)%Z ->
    Plos.run_pipeline fuel fetch_data rows None = Some (Ok df) ->
    Plos.run_pipeline fuel fetch_data rows (Some m) = Some (Ok (firstn (Z.to_nat m) df)) /\
    (Z.of_nat (List.length (firstn (Z.to_nat m) df)) <= m)%Z.
Proof.
  intros fuel fetch_data rows m df Hm. unfold Plos.run_pipeline.
  destruct (Plos.run_pipeline_loop fuel fetch_data rows None 0 []) as [[out|e]|] eqn:E;
    try discriminate.
  intros [= <-]. split; [|rewrite length_firstn; lia].
  rewrite (plos_loop_limit fuel fetch_data rows m 0 [] out Hm); [|simpl; lia|exact E].
  unfold DataFrame. rewrite firstn_map. reflexivity.
Qed.

Lemma plos_limit_is_a_prefix_witness :
  exists df,
    Plos.run_pipeline 3 plos_service 2 None = Some (Ok df) /\
    List.length df = 5 /\
    Plos.run_pipeline 3 plos_service 2 (Some 3%Z) = Some (Ok (firstn 3 df)).
Proof.
  assert (H : match Plos.run_pipeline 3 plos_service 2 None with
              | Some (Ok df) => List.length df
              | _ => 0
              end = 5) by (vm_compute; reflexivity).
  destruct (Plos.run_pipeline 3 plos_service 2 None) as [[df|e]|] eqn:E; try discriminate H.
  exists df. split; [reflexivity|]. split; [exact H|].
  apply (plos_limit_is_a_prefix 3 plos_service 2 3 df); [lia | exact E].
Defined.

(** ** src/revsys/clients/arxiv.py *)

Section ArxivSpec.

Import Arxiv.

Variable int : string -> result Z.

#[local] Arguments Arxiv.process_entry : simpl never.

(** What every record of an entry satisfies *)
Lemma arxiv_process_entry_spec start_year end_year e :
  post (fun r =>
          match r with
          | None => True
          | Some registro =>
            complete registro /\
            registro !! "Is Open Access" = Some (PStr "Yes") /\
            registro !! "OA Status" = Some (PStr "Open Access") /\
            exists y,
              registro !! "Publication Year" = Some (PInt y) /\
              set_and start_year (fun s => (y <? s)%Z) = false /\
              set_and end_year (fun s => (s <? y)%Z) = false
          end)
       (process_entry int start_year end_year e).
Proof.
  unfold process_entry. post_steps; try exact I;
    unfold post;
    (split; [apply padroniza_complete|]);
    (split; [apply padroniza_display_lookup; reflexivity|]);
    (split; [apply padroniza_display_lookup; reflexivity|]);
    eexists; (split; [apply padroniza_display_lookup; reflexivity|]); auto.
Qed.

Lemma arxiv_entries_loop_inv (P : gmap string pyval -> Prop) start_year end_year total_limit
    entries collected all_articles :
  (forall e r, process_entry int start_year end_year e = Ok (Some r) -> P r) ->
  Forall P all_articles ->
  collected = Z.of_nat (List.length all_articles) ->
  post (fun out =>
          Forall P (fst out) /\ snd out = Z.of_nat (List.length (fst out)) /\
          (forall L, total_limit = Some L -> (0 < L)%Z -> (collected < L)%Z -> (snd out <= L)%Z))
       (entries_loop int start_year end_year total_limit entries collected all_articles).
Proof.
  intros HP. revert collected all_articles.
  induction entries as [|e entries IH]; intros collected all_articles Hall Hc.
  - simpl. split; [exact Hall|]. split; [exact Hc|]. intros. lia.
  - cbn [entries_loop]. apply post_bind. intros [registro|] Hr.
    + assert (Hall' : Forall P (all_articles ++ [registro])).
      { apply Forall_app. split; [exact Hall|]. constructor; [|constructor].
        eapply HP. exact Hr. }
      assert (Hc' : (collected + 1)%Z = Z.of_nat (List.length (all_articles ++ [registro]))).
      { rewrite length_app. simpl. lia. }
      destruct (set_and total_limit _) eqn:E.
      * unfold post. cbn [fst snd]. split; [exact Hall'|]. split; [exact Hc'|].
        intros L -> HL Hlt. lia.
      * specialize (IH _ _ Hall' Hc').
        destruct (entries_loop int start_year end_year total_limit entries _ _)
          as [[out c]|err]; [|exact I].
        destruct IH as (H1 & H2 & H3). unfold post. cbn [fst snd] in *.
        split; [exact H1|]. split; [exact H2|].
        intros L -> HL Hlt. apply (H3 L eq_refl HL).
        unfold set_and in E. apply andb_false_iff in E as [E|E].
        -- apply negb_false_iff, Z.eqb_eq in E. lia.
        -- apply Z.leb_gt in E. exact E.
    + apply IH; assumption.
Qed.

Lemma arxiv_loop_inv (P : gmap string pyval -> Prop) fuel page max_results start_year end_year
    total_limit start collected all_articles out :
  (forall e r, process_entry int start_year end_year e = Ok (Some r) -> P r) ->
  Forall P all_articles ->
  collected = Z.of_nat (List.length all_articles) ->
  (forall L, total_limit = Some L -> (0 < L)%Z -> (collected < L)%Z) ->
  fetch_references_loop int fuel page max_results start_year end_year total_limit start
    collected all_articles = Some (Ok out) ->
  Forall P out /\
  (forall L, total_limit = Some L -> (0 < L)%Z -> (Z.of_nat (List.length out) <= L)%Z).
Proof.
  intros HP. revert start collected all_articles.
  induction fuel as [|fuel IH]; intros start collected all_articles Hall Hc Hlt;
    cbn [fetch_references_loop]; [discriminate|].
  destruct (page start) as [[|e entries]|err]; [| |discriminate].
  - intros [= <-]. split; [exact Hall|]. intros L HL Hpos. specialize (Hlt L HL Hpos). lia.
  - pose proof (arxiv_entries_loop_inv P start_year end_year total_limit (e :: entries)
                  collected all_articles HP Hall Hc) as Hinner.
    destruct (entries_loop int start_year end_year total_limit (e :: entries) collected
                all_articles) as [[all' c']|err]; [|discriminate].
    destruct Hinner as (H1 & H2 & H3). cbn [fst snd] in *.
    destruct ((_ <? max_results)%Z || set_and total_limit _) eqn:E.
    + intros [= <-]. split; [exact H1|]. intros L HL Hpos.
      rewrite <- H2. apply (H3 L HL Hpos). apply Hlt; assumption.
    + apply orb_false_iff in E as [_ E]. apply IH; [exact H1 | exact H2 |].
      intros L -> Hpos. unfold set_and in E. apply andb_false_iff in E as [E|E].
      * apply negb_false_iff, Z.eqb_eq in E. lia.
      * apply Z.leb_gt in E. exact E.
Qed.

End ArxivSpec.

(** X19: [ArxivFetcher.fetch_references] honours [total_limit]: for a
    limit [L > 0] a frame that is returned has at most [L] rows,
    whatever the pages of the service hold. *)
Theorem arxiv_total_limit_is_honoured :
  forall (int : string -> result Z) (fuel : nat)
         (_fetch_arxiv_page : Z -> result (list Arxiv.entry)) (max_results : Z)
         (start_year end_year : option Z) (L : Z) (df : list (gmap string pyval)),
    (0 < L)%Z ->
    Arxiv.fetch_references int fuel _fetch_arxiv_page max_results start_year end_year (Some L)
    = Some (Ok df) ->
    (Z.of_nat (List.length df) <= L)%Z.
Proof.
  intros int fuel page max_results start_year end_year L df HL. unfold Arxiv.fetch_references.
  destruct (Arxiv.fetch_references_loop int fuel page max_results start_year end_year (Some L)
              0 0 []) as [[out|e]|] eqn:E; try discriminate.
  intros [= <-]. rewrite DataFrame_length.
  destruct (arxiv_loop_inv int (fun _ => True) fuel page max_results start_year end_year
              (Some L) 0 0 [] out) as [_ H]; auto;
    try (intros L' [= <-] _; exact HL).
Qed.

(** X20: the rows of [ArxivFetcher.fetch_references].  Every row is
    marked open access ("Is Open Access" = "Yes", "OA Status" = "Open
    Access"), and its "Publication Year" is a number that lies within
    the date filter: not below [start_year] and not above [end_year],
    for each of the two that is set (and not 0). *)
Theorem arxiv_rows_are_within_the_years :
  forall (int : string -> result Z) (fuel : nat)
         (_fetch_arxiv_page : Z -> result (list Arxiv.entry)) (max_results : Z)
         (start_year end_year total_limit : option Z) (df : list (gmap string pyval)),
    Arxiv.fetch_references int fuel _fetch_arxiv_page max_results start_year end_year
      total_limit = Some (Ok df) ->
    Forall (fun row =>
              row !! "Is Open Access" = Some (PStr "Yes") /\
              row !! "OA Status" = Some (PStr "Open Access") /\
              exists y,
                row !! "Publication Year" = Some (PInt y) /\
                (forall s, start_year = Some s -> s <> 0%Z -> (s <= y)%Z) /\
                (forall s, end_year = Some s -> s <> 0%Z -> (y <= s)%Z))
           df.
Proof.
  intros int fuel page max_results start_year end_year total_limit df.
  unfold Arxiv.fetch_references.
  destruct (Arxiv.fetch_references_loop int fuel page max_results start_year end_year
              total_limit 0 0 []) as [[out|e]|] eqn:E; try discriminate.
  intros [= <-].
  destruct (arxiv_loop_inv int
              (fun r =>
                 r !! "Is Open Access" = Some (PStr "Yes") /\
                 r !! "OA Status" = Some (PStr "Open Access") /\
                 exists y,
                   r !! "Publication Year" = Some (PInt y) /\
                   Arxiv.set_and start_year (fun s => (y <? s)%Z) = false /\
                   Arxiv.set_and end_year (fun s => (s <? y)%Z) = false)
              fuel page max_results start_year end_year total_limit 0 0 [] out) as [H _];
    auto; try (intros L -> HL; exact HL).
  - intros e r Hr. pose proof (arxiv_process_entry_spec int start_year end_year e) as Hs.
    rewrite Hr in Hs. destruct Hs as (_ & H1 & H2 & H3). auto.
  - unfold DataFrame. apply Forall_map. eapply Forall_impl; [exact H|].
    intros r (H1 & H2 & y & Hy & Hs & He). cbv beta.
    rewrite !reindex_row_lookup by (simpl; tauto).
    split; [exact H1|]. split; [exact H2|]. exists y. split; [exact Hy|].
    split.
    + intros s -> Hne. unfold Arxiv.set_and in Hs. apply andb_false_iff in Hs as [Hs|Hs].
      * apply negb_false_iff, Z.eqb_eq in Hs. contradiction.
      * apply Z.ltb_ge in Hs. exact Hs.
    + intros s -> Hne. unfold Arxiv.set_and in He. apply andb_false_iff in He as [He|He].
      * apply negb_false_iff, Z.eqb_eq in He. contradiction.
      * apply Z.ltb_ge in He. exact He.
Qed.

Lemma arxiv_total_limit_is_honoured_witness :
  exists df,
    Arxiv.fetch_references Arxiv.int_of_digits 5 arxiv_service 2 None None (Some 3%Z)
    = Some (Ok df) /\
    (Z.of_nat (List.length df) <= 3)%Z.
Proof.
  assert (H : match Arxiv.fetch_references Arxiv.int_of_digits 5 arxiv_service 2 None None
                      (Some 3%Z) with
              | Some (Ok df) => true
              | _ => false
              end = true) by (vm_compute; reflexivity).
  destruct (Arxiv.fetch_references Arxiv.int_of_digits 5 arxiv_service 2 None None (Some 3%Z))
    as [[df|e]|] eqn:E; try discriminate H.
  exists df. split; [reflexivity|].
  apply (arxiv_total_limit_is_honoured Arxiv.int_of_digits 5 arxiv_service 2 None None 3 df);
    [lia | exact E].
Defined.

Lemma arxiv_rows_are_within_the_years_witness :
  exists df,
    Arxiv.fetch_references Arxiv.int_of_digits 5 arxiv_service 2 (Some 2022%Z) (Some 2024%Z) None
    = Some (Ok df) /\
    List.length df = 3 /\
    Forall (fun row =>
              row !! "Is Open Access" = Some (PStr "Yes") /\
              row !! "OA Status" = Some (PStr "Open Access") /\
              exists y,
                row !! "Publication Year" = Some (PInt y) /\
                (forall s, Some 2022%Z = Some s -> s <> 0%Z -> (s <= y)%Z) /\
                (forall s, Some 2024%Z = Some s -> s <> 0%Z -> (y <= s)%Z))
           df.
Proof.
  assert (H : match Arxiv.fetch_references Arxiv.int_of_digits 5 arxiv_service 2
                      (Some 2022%Z) (Some 2024%Z) None with
              | Some (Ok df) => List.length df
              | _ => 0
              end = 3) by (vm_compute; reflexivity).
  destruct (Arxiv.fetch_references Arxiv.int_of_digits 5 arxiv_service 2 (Some 2022%Z)
              (Some 2024%Z) None) as [[df|e]|] eqn:E; try discriminate H.
  exists df. split; [reflexivity|]. split; [exact H|].
  apply (arxiv_rows_are_within_the_years Arxiv.int_of_digits 5 arxiv_service 2 (Some 2022%Z)
           (Some 2024%Z) None df E).
Defined.

(** ** src/revsys/clients/ieee.py *)

Section IeeeSpec.

Import Ieee.

Lemma ieee_article_fields_doi art :
  post (fun fields =>
          let '(_, _, _, _, _, _, doi, _, _) := fields in get art "doi" (PStr "") = Ok doi)
       (article_fields art).
Proof. unfold article_fields. post_steps. unfold post. assumption. Qed.

Lemma Done_inj {A} (a b : A) : Done a = Done b -> a = b.
Proof. intros H. injection H as ->. reflexivity. Qed.

Lemma ieee_process_article_doi art r :
  process_article art = Done r ->
  exists doi,
    get art "doi" (PStr "") = Ok doi /\ truthy doi = true /\
    r !! "DOI" = Some doi /\ r !! "ID" = Some doi.
Proof.
  unfold process_article. pose proof (ieee_article_fields_doi art) as Hdoi.
  destruct (article_fields art) as [[[[[[[[[title abstract] authors_str] year] pub_date] journal]
                                        doi] pdf_url] cited_by]|e]; [|discriminate].
  cbn [lift try_bind record_of post] in *. unfold id_of.
  destruct (truthy doi) eqn:T; [|discriminate]. cbn [try_bind].
  destruct (authors_year_of authors_str year) as [authors_year|e]; [|discriminate].
  cbn [mbind result_bind bind].
  destruct (get art "language" NA) as [language|e]; [|discriminate].
  cbn [mbind result_bind bind].
  destruct (get art "content_type" NA) as [content_type|e]; [|discriminate].
  cbn [mbind result_bind bind lift]. intros H. apply Done_inj in H. subst r.
  exists doi. split; [exact Hdoi|]. split; [exact T|].
  split; apply padroniza_display_lookup; reflexivity.
Qed.

Lemma ieee_try_mapM_spec articles records :
  try_mapM process_article articles = Done records ->
  Forall2 (fun art r => process_article art = Done r) articles records.
Proof.
  revert records. induction articles as [|art articles IH]; intros records; cbn [try_mapM].
  - intros [= <-]. constructor.
  - destruct (process_article art) as [r|e|] eqn:E; try discriminate. cbn [try_bind].
    destruct (try_mapM process_article articles) as [rs|e|]; try discriminate.
    cbn [try_bind]. intros H. apply Done_inj in H. subst records.
    constructor; [exact E | apply IH; reflexivity].
Qed.

End IeeeSpec.

(** X21: [IeeeXplore.fetch_references] returns a frame only when every
    article of the answer has a DOI.  The entry "ID" of a record is
    [doi if doi else art.get('article_number', f'ieee-{...idx}')], and
    [idx] is bound nowhere: for an article without a (non-empty) [doi]
    the record raises [NameError] and the whole search is lost.  So a
    frame that is returned has one row for each article, each article
    has a truthy [doi], and "ID" and "DOI" of its row are that DOI. *)
Theorem ieee_returns_only_when_every_article_has_a_doi :
  forall (data : pyval) (articles : list pyval) (df : list (gmap string pyval)),
    (articles_val ← get data "articles" (PList []); iter articles_val) = Ok articles ->
    Ieee.fetch_references (Ok data) = Ieee.Done df ->
    Forall2 (fun art row =>
               exists doi,
                 get art "doi" (PStr "") = Ok doi /\ truthy doi = true /\
                 row !! "DOI" = Some doi /\ row !! "ID" = Some doi)
            articles df.
Proof.
  intros data articles df Harts. unfold Ieee.fetch_references.
  cbn [mbind result_bind bind] in *. rewrite Harts. cbn [Ieee.lift Ieee.try_bind].
  destruct (Ieee.try_mapM Ieee.process_article articles) as [records|e|] eqn:E;
    try discriminate.
  cbn [Ieee.try_bind]. intros H. apply Done_inj in H. subst df.
  apply ieee_try_mapM_spec in E. unfold DataFrame. clear Harts.
  induction E as [|art r articles' records' Hr _ IH]; [constructor|].
  cbn [map]. constructor; [|exact IH].
  destruct (ieee_process_article_doi art r Hr) as (doi & H1 & H2 & H3 & H4).
  exists doi. rewrite !reindex_row_lookup by (simpl; tauto). auto.
Qed.

Lemma ieee_returns_only_when_every_article_has_a_doi_witness :
  exists df,
    Ieee.fetch_references (Ok ieee_data_with_dois) = Ieee.Done df /\
    Forall2 (fun art row =>
               exists doi,
                 get art "doi" (PStr "") = Ok doi /\ truthy doi = true /\
                 row !! "DOI" = Some doi /\ row !! "ID" = Some doi)
            [ieee_article "10.1109/a"; ieee_article "10.1109/b"] df.
Proof.
  assert (H : match Ieee.fetch_references (Ok ieee_data_with_dois) with
              | Ieee.Done _ => true
              | _ => false
              end = true) by (vm_compute; reflexivity).
  destruct (Ieee.fetch_references (Ok ieee_data_with_dois)) as [df|e|] eqn:E;
    try discriminate H.
  exists df. split; [reflexivity|].
  apply (ieee_returns_only_when_every_article_has_a_doi ieee_data_with_dois _ df);
    [reflexivity | exact E].
Defined.

(** An article with an article number and no DOI: [NameError] *)
Example ieee_article_number_only :
  Ieee.fetch_references (Ok ieee_data_without_doi) = Ieee.FailedNameError.
Proof. vm_compute. reflexivity. Qed.

(** ** src/revsys/clients/scopus.py: errors of the requests *)

Section ScopusErrors.

Lemma raises_bind {A B} (P : exn -> Prop) (m : result A) (k : A -> result B) :
  raises P m -> (forall a, raises P (k a)) -> raises P (x ← m; k x).
Proof. destruct m as [a|e]; simpl; auto. Qed.

Lemma raises_mapM {A B} (P : exn -> Prop) (f : A -> result B) l :
  (forall x, raises P (f x)) -> raises P (mapM f l).
Proof.
  intros Hf. induction l as [|x l IH]; [exact I|].
  cbn [mapM]. apply (raises_bind P (f x)); [apply Hf|]. intros y.
  apply (raises_bind P (mapM f l)); [exact IH|]. intros ys. exact I.
Qed.

Lemma raises_get d k default : raises shape_error (get d k default).
Proof. destruct d; simpl; unfold shape_error; auto. Qed.

Lemma raises_split_method v sep : raises shape_error (Scopus.split_method v sep).
Proof. destruct v; simpl; unfold shape_error; auto. Qed.

Lemma raises_first {A} (l : list A) : raises shape_error (PyStr.first l).
Proof. destruct l; simpl; unfold shape_error; auto. Qed.

Lemma raises_iter v : raises shape_error (iter v).
Proof. destruct v; simpl; unfold shape_error; auto. Qed.

Lemma raises_len v : raises shape_error (len v).
Proof. destruct v; simpl; unfold shape_error; auto. Qed.

Ltac raises_step :=
  match goal with
  | |- raises _ (@mbind _ _ _ _ _ _) => apply raises_bind; [|intros ?]
  | |- raises _ (if ?c then _ else _) => destruct c
  | |- raises _ (get _ _ _) => apply raises_get
  | |- raises _ (Scopus.split_method _ _) => apply raises_split_method
  | |- raises _ (PyStr.first _) => apply raises_first
  | |- raises _ (Ok _) => exact I
  end.

Lemma raises_process_entry entry : raises shape_error (Scopus.process_entry entry).
Proof. unfold Scopus.process_entry. repeat raises_step. Qed.

#[local] Arguments Scopus.process_entry : simpl never.

Lemma scopus_loop_raises fuel page count start acc e :
  Scopus.fetch_references_loop fuel page count start acc = Some (Raise e) -> shape_error e.
Proof.
  revert start acc. induction fuel as [|fuel IH]; intros start acc; simpl; [discriminate|].
  destruct (page start) as [data|e0]; [|discriminate].
  pose proof (raises_bind shape_error (get data "search-results" (PDict []))
                (fun results => get results "entry" (PList []))
                (raises_get _ _ _) (fun a => raises_get _ _ _)) as Hentries.
  destruct (get data "search-results" (PDict []) ≫= _) as [entries|e1].
  2:{ intros [= <-]. exact Hentries. }
  destruct (negb (truthy entries)); [discriminate|].
  pose proof (raises_bind shape_error (iter entries) (mapM Scopus.process_entry)
                (raises_iter _) (fun es => raises_mapM _ _ es raises_process_entry)) as Hrows.
  destruct (iter entries ≫= _) as [registros|e2].
  2:{ intros [= <-]. exact Hrows. }
  pose proof (raises_len entries) as Hlen.
  destruct (len entries) as [n|e3].
  2:{ intros [= <-]. exact Hlen. }
  destruct (Z.of_nat n <=? count)%Z; [discriminate|]. apply IH.
Qed.

End ScopusErrors.

(** X22: no error of a page request ever leaves
    [ScopusFetcher.fetch_references].  The request is wrapped in
    [try: ... except Exception: break], so when a page cannot be
    fetched (after the retries of the decorator) the rows gathered so
    far are returned as if the search had ended: a failing first
    request gives an empty frame.  The only exceptions that the
    function raises are those of reading an answer that has not the
    expected shape ([AttributeError], [TypeError], [IndexError]); it
    never raises a [RequestException] or the [Exception] of a status
    other than 200. *)
Theorem scopus_request_errors_are_swallowed :
  forall (fuel : nat) (_fetch_scopus_page : Z -> result pyval) (count : Z),
    (forall e, Scopus.fetch_references fuel _fetch_scopus_page count = Some (Raise e) ->
       shape_error e /\ is_RequestException e = false /\ e <> PlainException) /\
    (forall e, _fetch_scopus_page 0%Z = Raise e ->
       Scopus.fetch_references (S fuel) _fetch_scopus_page count = Some (Ok [])).
Proof.
  intros fuel page count. split.
  - intros e. unfold Scopus.fetch_references.
    destruct (Scopus.fetch_references_loop fuel page count 0 []) as [[out|e']|] eqn:E;
      try discriminate.
    intros [= <-]. apply scopus_loop_raises in E.
    split; [exact E|]. destruct E as [-> | [-> | ->]]; split; (reflexivity || discriminate).
  - intros e He. unfold Scopus.fetch_references. cbn [Scopus.fetch_references_loop].
    rewrite He. reflexivity.
Qed.

(** ** Instances of the properties above *)

Lemma scopus_request_errors_are_swallowed_witness :
  Scopus.fetch_references 1 (fun _ => Raise ConnectionError) 25 = Some (Ok []).
Proof.
  apply (proj2 (scopus_request_errors_are_swallowed 0 (fun _ => Raise ConnectionError) 25)
           ConnectionError).
  reflexivity.
Defined.

Lemma springer_fetch_data_policy_witness :
  SpringerNatureRun.fetch_data plos_always_401
  = HttpRetry.Run (Raise (HTTPError 401)) 1 [].
Proof.
  apply (proj2 (proj2 (proj2 (springer_fetch_data_policy pyval plos_always_401))) 401%Z);
    [reflexivity | discriminate | discriminate].
Defined.

Lemma scholar_search_row_count_witness :
  exists df, Scholar.search scholar_sample_pubs 1 = Ok df /\ List.length df = 1.
Proof.
  pose proof (scholar_search_row_count scholar_sample_pubs 1) as H.
  assert (Hok : is_ok (Scholar.search scholar_sample_pubs 1) = true) by (vm_compute; reflexivity).
  destruct (Scholar.search scholar_sample_pubs 1) as [df|e]; [|discriminate Hok].
  exists df. split; [reflexivity | exact H].
Defined.

Lemma plos_records_are_open_access_witness :
  exists records,
    Plos.process_data (PDict [("response", PDict [("docs", PList plos_docs)])]) = Ok records /\
    List.length records = 5 /\
    Forall (fun r => r !! "Is Open Access" = Some (PStr "Yes") /\ r !! "DOI" = r !! "ID")
           records.
Proof.
  pose proof (plos_records_are_open_access
                (PDict [("response", PDict [("docs", PList plos_docs)])])) as H.
  assert (Hok : match Plos.process_data (PDict [("response", PDict [("docs", PList plos_docs)])])
                with Ok records => List.length records | Raise _ => 0 end = 5)
    by (vm_compute; reflexivity).
  destruct (Plos.process_data (PDict [("response", PDict [("docs", PList plos_docs)])]))
    as [records|e]; [|discriminate Hok].
  exists records. split; [reflexivity|]. split; [exact Hok|].
  eapply Forall_impl; [exact H|]. intros r (_ & H1 & _ & _ & _ & H2). auto.
Defined.

Lemma pretriage_returns_the_records_that_pass_witness :
  exists out,
    Pretriage.pretriage_records unit Pretriage.embed_const Pretriage.cosine_one
      Pretriage.float_str_unused (Some "key") [Pretriage.sample_record] ["term"] []
      (3 # 10) (3 # 10) = Ok out /\
    Forall (fun r' =>
              exists rec,
                In rec [Pretriage.sample_record] /\
                forall c, c <> "score_inclusion" -> c <> "score_exclusion" ->
                          r' !! c = rec !! c)
           out /\
    List.length out = 1.
Proof.
  pose proof (pretriage_returns_the_records_that_pass unit Pretriage.embed_const
                Pretriage.cosine_one Pretriage.float_str_unused (Some "key")
                [Pretriage.sample_record] "term" [] [] (3 # 10) (3 # 10)) as H.
  assert (Hok : match Pretriage.pretriage_records unit Pretriage.embed_const Pretriage.cosine_one
                        Pretriage.float_str_unused (Some "key") [Pretriage.sample_record]
                        ["term"] [] (3 # 10) (3 # 10)
                with Ok out => List.length out | Raise _ => 0 end = 1)
    by (vm_compute; reflexivity).
  destruct (Pretriage.pretriage_records unit Pretriage.embed_const Pretriage.cosine_one
              Pretriage.float_str_unused (Some "key") [Pretriage.sample_record] ["term"] []
              (3 # 10) (3 # 10)) as [out|e]; [|discriminate Hok].
  exists out. split; [reflexivity|]. destruct H as [_ H]. split; [exact H | exact Hok].
Defined.

(** ** src/revsys/cli.py (download_pdfs) and src/revsys/fulltext.py: file names *)

Section FileNames.

Import Files.

Lemma sanitize_kept s : all_chars kept (sanitize s) = true.
Proof.
  induction s as [|c s IH]; [reflexivity|]. cbn [sanitize all_chars]. rewrite IH, andb_true_r.
  destruct (kept c) eqn:E; [exact E | reflexivity].
Qed.

Lemma sanitize_length s : String.length (sanitize s) = String.length s.
Proof. induction s as [|c s IH]; [reflexivity|]. simpl. rewrite IH. reflexivity. Qed.

Lemma sanitize_fixed s : all_chars kept s = true -> sanitize s = s.
Proof.
  induction s as [|c s IH]; [reflexivity|]. cbn [sanitize all_chars].
  intros H. apply andb_true_iff in H as [Hc Hs]. rewrite Hc, IH by exact Hs. reflexivity.
Qed.

Lemma all_chars_excludes p c s :
  all_chars p s = true -> p c = false -> PyStr.contains_char c s = false.
Proof.
  intros Hs Hc. induction s as [|a s IH]; [reflexivity|].
  cbn [all_chars PyStr.contains_char] in *. apply andb_true_iff in Hs as [Ha Hs].
  rewrite (IH Hs), orb_false_r. unfold PyStr.chr_eqb.
  destruct (Ascii.eqb a c) eqn:E; [|reflexivity].
  apply Ascii.eqb_eq in E. subst. congruence.
Qed.

Lemma contains_char_app c s t :
  PyStr.contains_char c (s +:+ t) = PyStr.contains_char c s || PyStr.contains_char c t.
Proof.
  induction s as [|a s IH]; [reflexivity|].
  change (String a s +:+ t) with (String a (s +:+ t)). cbn [PyStr.contains_char].
  rewrite IH, orb_assoc. reflexivity.
Qed.

End FileNames.

(** X23: the names of the files that are written.  [download_pdfs]
    fetches a record only when its address starts with [http://] or
    [https://] (in any case), and names the file with letters,
    digits, [_] and [-] only, followed by [.pdf]; the name that
    [fetch_fulltext] builds has such characters only and is never
    empty.  Such a name has no path separator and no dot of its own:
    the file is written in the output directory, whatever the DOI, ID
    or address of the record.  Cleaning a clean name changes
    nothing. *)
Theorem download_names_are_safe :
  forall (float_str : Q -> string) (rec : gmap string Pretriage.cell),
    (forall name,
       Files.pdf_name float_str rec = Some name ->
       Files.is_http (Files.url_str float_str rec) = true /\
       exists stem,
         name = stem +:+ ".pdf" /\
         Files.all_chars Files.kept stem = true /\
         PyStr.contains_char "/" name = false /\
         PyStr.contains_char "092" name = false /\
         PyStr.contains_char "." stem = false) /\
    Files.all_chars Files.kept (Files.fname float_str rec) = true /\
    Files.fname float_str rec <> EmptyString /\
    PyStr.contains_char "/" (Files.fname float_str rec) = false /\
    PyStr.contains_char "." (Files.fname float_str rec) = false /\
    Files.sanitize (Files.fname float_str rec) = Files.fname float_str rec.
Proof.
  intros float_str rec. split; [|split; [|split; [|split; [|split]]]].
  - intros name. unfold Files.pdf_name.
    destruct (Files.is_http (Files.url_str float_str rec)); [|discriminate].
    intros [= <-]. split; [reflexivity|].
    exists (Files.sanitize (Files._id_str float_str rec)).
    pose proof (sanitize_kept (Files._id_str float_str rec)) as Hk.
    split; [reflexivity|]. split; [exact Hk|].
    rewrite !contains_char_app.
    rewrite !(all_chars_excludes Files.kept _ _ Hk) by reflexivity.
    repeat split; reflexivity.
  - apply sanitize_kept.
  - unfold Files.fname. intros H. apply (f_equal String.length) in H.
    rewrite sanitize_length in H. unfold Files.base in H.
    set (doi_str := PyStr.strip (Pretriage.cell_str float_str
                      (Files.get_cell rec "DOI" (Pretriage.CStr "")))) in H.
    set (id_str := PyStr.strip (Pretriage.cell_str float_str
                     (Files.get_cell rec "ID" (Pretriage.CStr "")))) in H.
    destruct (String.eqb doi_str "" || String.eqb (PyStr.lower doi_str) "nan") eqn:E1.
    + destruct (negb (String.eqb id_str "") && negb (String.eqb (PyStr.lower id_str) "nan"))
        eqn:E2; [|discriminate].
      apply andb_true_iff in E2 as [E2 _]. apply negb_true_iff, String.eqb_neq in E2.
      destruct id_str; [contradiction | discriminate].
    + apply orb_false_iff in E1 as [E1 _]. apply String.eqb_neq in E1.
      destruct doi_str; [contradiction | discriminate].
  - apply (all_chars_excludes Files.kept); [apply sanitize_kept | reflexivity].
  - apply (all_chars_excludes Files.kept); [apply sanitize_kept | reflexivity].
  - apply sanitize_fixed, sanitize_kept.
Qed.

Lemma download_names_are_safe_witness :
  Files.pdf_name Pretriage.float_str_unused
    {[ "DOI" := Pretriage.CStr "10.1000/../x.y";
       "Download URL" := Pretriage.CStr " HTTPS://example.org/a.pdf " ]}
  = Some "10_1000____x_y.pdf" /\
  PyStr.contains_char "/" "10_1000____x_y.pdf" = false.
Proof.
  assert (E : Files.pdf_name Pretriage.float_str_unused
                {[ "DOI" := Pretriage.CStr "10.1000/../x.y";
                   "Download URL" := Pretriage.CStr " HTTPS://example.org/a.pdf " ]}
              = Some "10_1000____x_y.pdf") by (vm_compute; reflexivity).
  split; [exact E|].
  destruct (proj1 (download_names_are_safe Pretriage.float_str_unused _) _ E)
    as (_ & stem & _ & _ & H & _).
  exact H.
Defined.

(** What [download_pdfs] and [fetch_fulltext] have in common for an
    address: the first four characters survive the cleaning. *)
Lemma lower_char_letter (x u : ascii) :
  In x ["h"; "t"; "p"]%char -> PyStr.lower_char u = x ->
  u = x \/ u = PyStr.upper_ascii_char x.
Proof.
  intros [<- | [<- | [<- | []]]];
    destruct u as [[|] [|] [|] [|] [|] [|] [|] [|]]; vm_compute;
    intros H; try discriminate H; auto.
Qed.

Lemma sanitize_letter (x u c : ascii) :
  In x ["h"; "t"; "p"]%char -> PyStr.lower_char u = x ->
  (if Files.kept c then c else "_"%char) = (if Files.kept u then u else "_"%char) ->
  PyStr.lower_char c = x.
Proof.
  intros Hx Hu. pose proof (lower_char_letter x u Hx Hu) as Hcase.
  assert (Hk : Files.kept u = true /\ u <> "_"%char).
  { destruct Hx as [<- | [<- | [<- | []]]]; destruct Hcase as [-> | ->];
      (split; [vm_compute; reflexivity | discriminate]). }
  destruct Hk as [Hk Hne]. rewrite Hk.
  destruct (Files.kept c); [intros ->; exact Hu | intros H; symmetry in H; contradiction].
Qed.

Lemma startswith_lower_cons (x : ascii) p u s :
  PyStr.startswith (String x p) (PyStr.lower (String u s)) = true ->
  PyStr.lower_char u = x /\ PyStr.startswith p (PyStr.lower s) = true.
Proof.
  cbn [PyStr.lower PyStr.startswith]. intros H. apply andb_true_iff in H as [H1 H2].
  apply Ascii.eqb_eq in H1. split; [symmetry; exact H1 | exact H2].
Qed.

Lemma sanitize_http_prefix u i :
  PyStr.startswith "http" (PyStr.lower u) = true ->
  Files.sanitize u = Files.sanitize i ->
  PyStr.startswith "http" (PyStr.lower i) = true.
Proof.
  intros Hu E.
  destruct u as [|u1 [|u2 [|u3 [|u4 u]]]];
    try (cbn [PyStr.lower PyStr.startswith] in Hu; rewrite ?andb_false_r in Hu; discriminate Hu).
  destruct i as [|i1 [|i2 [|i3 [|i4 i]]]]; try (cbn [Files.sanitize] in E; discriminate E).
  apply startswith_lower_cons in Hu as [H1 Hu].
  apply startswith_lower_cons in Hu as [H2 Hu].
  apply startswith_lower_cons in Hu as [H3 Hu].
  apply startswith_lower_cons in Hu as [H4 _].
  cbn [Files.sanitize] in E. injection E as E1 E2 E3 E4 _.
  symmetry in E1, E2, E3, E4.
  apply (sanitize_letter "h" u1 i1) in E1; [|simpl; tauto | exact H1].
  apply (sanitize_letter "t" u2 i2) in E2; [|simpl; tauto | exact H2].
  apply (sanitize_letter "t" u3 i3) in E3; [|simpl; tauto | exact H3].
  apply (sanitize_letter "p" u4 i4) in E4; [|simpl; tauto | exact H4].
  cbn [PyStr.lower PyStr.startswith]. rewrite E1, E2, E3, E4. reflexivity.
Qed.

Lemma is_http_prefix u : Files.is_http u = true -> PyStr.startswith "http" (PyStr.lower u) = true.
Proof.
  unfold Files.is_http. intros H.
  destruct (PyStr.lower u) as [|a [|b [|c [|d r]]]]; try (cbn in H; discriminate H);
    try (cbn in H; rewrite ?andb_false_r in H; discriminate H).
  cbn [PyStr.startswith] in *.
  apply orb_true_iff in H as [H | H];
    repeat (apply andb_true_iff in H as [? H]);
    repeat (apply andb_true_iff; split; try assumption); reflexivity.
Qed.

Lemma string_app_inv_tail (a b s : string) : a +:+ s = b +:+ s -> a = b.
Proof.
  intros H. apply (f_equal String.list_ascii_of_string) in H.
  rewrite <- (String.string_of_list_ascii_of_string a),
          <- (String.string_of_list_ascii_of_string b).
  f_equal.
  assert (Happ : forall x y, String.list_ascii_of_string (x +:+ y)
                  = (String.list_ascii_of_string x ++ String.list_ascii_of_string y)%list).
  { intros x y. induction x as [|c x IH]; [reflexivity|].
    change (String c x +:+ y) with (String c (x +:+ y)). cbn [String.list_ascii_of_string].
    rewrite IH. reflexivity. }
  rewrite !Happ in H. exact (List.app_inv_tail _ _ _ H).
Qed.

(** X24: the file of a record without DOI.  An empty DOI cell of the
    CSV file is read as NaN, which is truthy: [download_pdfs] then
    takes [str(nan)] for the identifier, replaces it by the address,
    and never looks at the ID of the record, while [fetch_fulltext]
    falls back to the ID for its [fname].  The name of
    [download_pdfs] is [fname] followed by ".pdf" exactly when the
    address and the ID are cleaned to the same text; for an ID that
    does not start with "http" (in any case) it never is. *)
Theorem download_pdfs_ignores_the_id_when_doi_is_nan :
  forall (float_str : Q -> string) (rec : gmap string Pretriage.cell) (id : string),
    rec !! "DOI" = Some Pretriage.CNaN ->
    rec !! "ID" = Some (Pretriage.CStr id) ->
    PyStr.strip id <> EmptyString ->
    PyStr.lower (PyStr.strip id) <> "nan" ->
    Files.pdf_name float_str rec
    = (if Files.is_http (Files.url_str float_str rec)
       then Some (Files.sanitize (Files.url_str float_str rec) +:+ ".pdf")
       else None) /\
    Files.fname float_str rec = Files.sanitize (PyStr.strip id) /\
    (forall name,
       Files.pdf_name float_str rec = Some name ->
       (name = Files.fname float_str rec +:+ ".pdf" <->
        Files.sanitize (Files.url_str float_str rec) = Files.sanitize (PyStr.strip id))) /\
    (PyStr.startswith "http" (PyStr.lower (PyStr.strip id)) = false ->
     forall name,
       Files.pdf_name float_str rec = Some name ->
       name <> Files.fname float_str rec +:+ ".pdf").
Proof.
  intros float_str rec id Hdoi Hid Hne Hnan.
  assert (Hpdf : Files.pdf_name float_str rec
                 = (if Files.is_http (Files.url_str float_str rec)
                    then Some (Files.sanitize (Files.url_str float_str rec) +:+ ".pdf")
                    else None)).
  { unfold Files.pdf_name, Files._id_str, Files.get_cell. rewrite Hdoi. reflexivity. }
  assert (Hfname : Files.fname float_str rec = Files.sanitize (PyStr.strip id)).
  { unfold Files.fname, Files.base, Files.get_cell. rewrite Hdoi, Hid.
    cbn [Pretriage.cell_str].
    change (PyStr.strip "nan") with "nan". cbn [PyStr.lower String.eqb orb].
    change (String.eqb "nan" "") with false. change (String.eqb (PyStr.lower "nan") "nan") with true.
    cbn [orb].
    apply String.eqb_neq in Hne, Hnan. rewrite Hne, Hnan. reflexivity. }
  assert (Hsame : forall name,
            Files.pdf_name float_str rec = Some name ->
            Files.is_http (Files.url_str float_str rec) = true /\
            (name = Files.fname float_str rec +:+ ".pdf" <->
             Files.sanitize (Files.url_str float_str rec) = Files.sanitize (PyStr.strip id))).
  { intros name. rewrite Hpdf, Hfname.
    destruct (Files.is_http (Files.url_str float_str rec)); [|discriminate].
    intros [= <-]. split; [reflexivity|]. split.
    - apply string_app_inv_tail.
    - intros ->. reflexivity. }
  split; [exact Hpdf|]. split; [exact Hfname|]. split.
  - intros name Hname. exact (proj2 (Hsame name Hname)).
  - intros Hid_http name Hname Heq.
    destruct (Hsame name Hname) as [Hhttp Hiff].
    apply Hiff in Heq. apply is_http_prefix in Hhttp.
    rewrite (sanitize_http_prefix _ _ Hhttp Heq) in Hid_http. discriminate Hid_http.
Qed.

Lemma download_pdfs_ignores_the_id_when_doi_is_nan_witness :
  Files.pdf_name Pretriage.float_str_unused record_without_doi
  = Some "https___example_org_a_pdf.pdf" /\
  Files.fname Pretriage.float_str_unused record_without_doi = "W123" /\
  "https___example_org_a_pdf.pdf" <> Files.fname Pretriage.float_str_unused record_without_doi +:+ ".pdf".
Proof.
  destruct (download_pdfs_ignores_the_id_when_doi_is_nan Pretriage.float_str_unused
              record_without_doi "W123") as (H1 & H2 & _ & H4);
    [reflexivity | reflexivity | discriminate | discriminate |].
  assert (E : Files.pdf_name Pretriage.float_str_unused record_without_doi
              = Some "https___example_org_a_pdf.pdf") by (rewrite H1; vm_compute; reflexivity).
  split; [exact E|]. split; [rewrite H2; reflexivity|].
  exact (H4 eq_refl _ E).
Defined.

(** ** src/revsys/cli.py: triage without an API key *)

(** X25: [triage] without an API key.  When [OPENAI_API_KEY] is not
    set (or empty), the inclusion and exclusion keys and the two
    thresholds have no effect: the pre-triage raises for want of the
    key, the error is only reported, and the file that is written
    holds exactly the records whose "Abstract" is a text that is not
    blank and not "N/A" (in any case), unchanged and in their order. *)
Theorem triage_without_key_ignores_the_keys :
  forall (embedding : Type) (embed : string -> embedding)
         (cosine : embedding -> embedding -> Q) (float_str : Q -> string)
         (api_key : option string) (records : list (gmap string Pretriage.cell))
         (incl_keys excl_keys : list string) (incl_threshold excl_threshold : Q),
    api_key = None \/ api_key = Some EmptyString ->
    Triage.triage embedding embed cosine float_str api_key records incl_keys excl_keys
      incl_threshold excl_threshold
    = Triage.SimpleFilter (List.filter Triage.has_abstract records) /\
    sublist (List.filter Triage.has_abstract records) records /\
    Forall (fun rec =>
              exists s, rec !! "Abstract" = Some (Pretriage.CStr s) /\
                        PyStr.strip s <> EmptyString /\
                        PyStr.upper_ascii (PyStr.strip s) <> "N/A")
           (List.filter Triage.has_abstract records).
Proof.
  intros embedding embed cosine float_str api_key records incl_keys excl_keys it et Hkey.
  split; [|split].
  - unfold Triage.triage, Pretriage.pretriage_records.
    destruct Hkey as [-> | ->]; destruct incl_keys; reflexivity.
  - induction records as [|rec records IH]; [constructor|]. cbn [List.filter].
    destruct (Triage.has_abstract rec); [apply sublist_skip | apply sublist_cons]; exact IH.
  - apply List.Forall_forall. intros rec Hin. apply filter_In in Hin as [_ H].
    unfold Triage.has_abstract in H.
    destruct (rec !! "Abstract") as [[| |s|]|]; try discriminate.
    exists s. split; [reflexivity|].
    apply andb_true_iff in H as [H1 H2].
    apply negb_true_iff in H1, H2. unfold PyStr.upper_is in H2.
    apply String.eqb_neq in H1, H2. auto.
Qed.

Lemma triage_without_key_ignores_the_keys_witness :
  Triage.triage unit Pretriage.embed_const Pretriage.cosine_one Pretriage.float_str_unused
    None rows_for_triage ["term"] [] (3 # 10) (3 # 10)
  = Triage.SimpleFilter [Pretriage.sample_record].
Proof.
  destruct (triage_without_key_ignores_the_keys unit Pretriage.embed_const Pretriage.cosine_one
              Pretriage.float_str_unused None rows_for_triage ["term"] [] (3 # 10) (3 # 10))
    as [H _]; [left; reflexivity|].
  rewrite H. vm_compute. reflexivity.
Defined.

(** ** src/revsys/clients/pubmed_api.py: the date of publication *)

Section PubMedDates.

Import PubMedDate.

Lemma pretty_N_char_decimal x : is_decimal (pretty_N_char x) = true.
Proof.
  unfold pretty_N_char.
  destruct x as [|p]; [reflexivity|].
  do 4 (destruct p as [p|p|]; try reflexivity).
Qed.

Lemma pretty_N_go_decimal x : forall s,
  Files.all_chars is_decimal s = true -> Files.all_chars is_decimal (pretty_N_go x s) = true.
Proof.
  induction (N.lt_wf_0 x) as [x _ IH]. intros s Hs.
  destruct (N.eq_dec x 0%N) as [->|Hx]; [rewrite pretty_N_go_0; exact Hs|].
  rewrite pretty_N_go_step by lia. apply IH.
  - apply N.div_lt; lia.
  - cbn [Files.all_chars]. rewrite pretty_N_char_decimal, Hs. reflexivity.
Qed.

Lemma pretty_N_go_length x : forall s, String.length s <= String.length (pretty_N_go x s).
Proof.
  induction (N.lt_wf_0 x) as [x _ IH]. intros s.
  destruct (N.eq_dec x 0%N) as [->|Hx]; [rewrite pretty_N_go_0; lia|].
  rewrite pretty_N_go_step by lia.
  etransitivity; [|apply IH; apply N.div_lt; lia]. simpl. lia.
Qed.

Lemma pretty_Z_decimal z :
  (0 <= z)%Z ->
  Files.all_chars is_decimal (pretty z) = true /\ 1 <= String.length (pretty z).
Proof.
  intros Hz. destruct z as [|p|p]; [split; [reflexivity | simpl; lia] | | lia].
  unfold pretty, pretty_Z, pretty, pretty_positive, pretty, pretty_N.
  destruct (decide (N.pos p = 0%N)) as [E|_]; [discriminate|].
  split; [apply pretty_N_go_decimal; reflexivity|].
  rewrite pretty_N_go_step by lia.
  etransitivity; [|apply pretty_N_go_length]. simpl. lia.
Qed.

Lemma digits_value_nonneg s : forall acc z,
  Arxiv.digits_value acc s = Some z -> (0 <= acc)%Z -> (0 <= z)%Z.
Proof.
  induction s as [|c s IH]; intros acc z; cbn [Arxiv.digits_value].
  - intros [= <-] H. exact H.
  - destruct (_ && _)%N; [|discriminate]. intros H Hacc. apply (IH _ _ H). lia.
Qed.

Lemma format_02d_shape n :
  (0 <= n)%Z ->
  2 <= String.length (format_02d n) /\ Files.all_chars is_decimal (format_02d n) = true.
Proof.
  intros Hn. destruct (pretty_Z_decimal n Hn) as [Hd Hl]. unfold format_02d.
  destruct (String.length (pretty n) <? 2) eqn:E.
  - change ("0" +:+ pretty n) with (String "0" (pretty n)).
    cbn [String.length Files.all_chars]. split; [lia|].
    rewrite Hd. reflexivity.
  - apply Nat.ltb_ge in E. auto.
Qed.

Lemma month_to_number_shape month_str mm :
  _month_to_number month_str = Ok mm ->
  mm = EmptyString \/ (2 <= String.length mm /\ Files.all_chars is_decimal mm = true).
Proof.
  unfold _month_to_number.
  destruct (Html.assoc month_str month_map) as [v|] eqn:E.
  - intros [= <-]. right. unfold month_map in E. cbn [Html.assoc] in E.
    repeat match type of E with
           | (if ?c then _ else _) = _ => destruct c; [injection E as <-; split; [simpl; lia | reflexivity]|]
           end.
    discriminate.
  - destruct (isdigit month_str); [|intros [= <-]; left; reflexivity].
    unfold Arxiv.int_of_digits. destruct month_str as [|c s]; [discriminate|].
    destruct (Arxiv.digits_value 0 (String c s)) as [z|] eqn:Ez; [|discriminate].
    cbn [mbind result_bind bind]. intros [= <-]. right.
    apply format_02d_shape. apply (digits_value_nonneg _ _ _ Ez). lia.
Qed.

End PubMedDates.

(** X26: the shape of the publication date of a PubMed article.
    [_extract_pub_date] returns the year [y] (the text of [Year], or
    the first four characters of [MedlineDate]) and a date that always
    starts with that year: it is [y] alone, or [y-mm], or [y-mm-dd],
    where [mm] has at least two decimal digits (a month that is
    neither one of the twelve English abbreviations nor a number is
    dropped, never copied) and [dd] is the text of [Day] as it is,
    made of digits. *)
Theorem pubmed_publication_date_shape :
  forall (pubdate_elem : option PubMedDate.PubDate) (pub_year publication_date : string),
    PubMedDate._extract_pub_date pubdate_elem = Ok (pub_year, publication_date) ->
    publication_date = pub_year \/
    (pub_year <> EmptyString /\
     exists mm,
       2 <= String.length mm /\ Files.all_chars PubMedDate.is_decimal mm = true /\
       (publication_date = pub_year +:+ "-" +:+ mm \/
        exists dd,
          PubMedDate.isdigit dd = true /\
          publication_date = pub_year +:+ "-" +:+ mm +:+ "-" +:+ dd)).
Proof.
  intros [pubdate|] pub_year publication_date; cbn [PubMedDate._extract_pub_date];
    [|intros [= <- <-]; left; reflexivity].
  set (y := match PubMedDate.Year pubdate with
            | Some text => match text with Some s => s | None => "" end
            | None => match PubMedDate.MedlineDate pubdate with
                      | Some (Some (String c s)) => Rag.take 4 (String c s)
                      | _ => ""
                      end
            end).
  set (m := match PubMedDate.Month pubdate with
            | Some (Some (String c s)) => PubMedDate._month_to_number (String c s)
            | _ => Ok ""
            end).
  assert (Hm : forall mm, m = Ok mm ->
            mm = EmptyString \/
            (2 <= String.length mm /\ Files.all_chars PubMedDate.is_decimal mm = true)).
  { intros mm. unfold m. destruct (PubMedDate.Month pubdate) as [[[|c s]|]|];
      try (intros [= <-]; left; reflexivity).
    apply month_to_number_shape. }
  destruct m as [mm|e]; [|discriminate]. cbn [mbind result_bind bind].
  specialize (Hm mm eq_refl).
  destruct (negb (String.eqb y "") && negb (String.eqb mm "")) eqn:E.
  - apply andb_true_iff in E as [Ey Em]. apply negb_true_iff, String.eqb_neq in Ey, Em.
    destruct Hm as [->|[Hl Hd]]; [contradiction|].
    destruct (match PubMedDate.Day pubdate with Some text => text | None => Some "" end)
      as [dd|]; [|discriminate].
    destruct (PubMedDate.isdigit dd) eqn:Ed; intros [= <- <-]; right;
      (split; [exact Ey|]); exists mm; (split; [exact Hl|]); (split; [exact Hd|]).
    + right. exists dd. auto.
    + left. reflexivity.
  - intros [= <- <-]. left. reflexivity.
Qed.

Lemma pubmed_publication_date_shape_witness :
  PubMedDate._extract_pub_date
    (Some {| PubMedDate.Year := Some (Some "2023"); PubMedDate.MedlineDate := None;
             PubMedDate.Month := Some (Some "May"); PubMedDate.Day := Some (Some "7") |})
  = Ok ("2023", "2023-05-7") /\
  ("2023-05-7" = "2023" \/
   ("2023" <> EmptyString /\
    exists mm,
      2 <= String.length mm /\ Files.all_chars PubMedDate.is_decimal mm = true /\
      ("2023-05-7" = "2023" +:+ "-" +:+ mm \/
       exists dd,
         PubMedDate.isdigit dd = true /\
         "2023-05-7" = "2023" +:+ "-" +:+ mm +:+ "-" +:+ dd))).
Proof.
  split; [reflexivity|].
  apply (pubmed_publication_date_shape
           (Some {| PubMedDate.Year := Some (Some "2023"); PubMedDate.MedlineDate := None;
                    PubMedDate.Month := Some (Some "May"); PubMedDate.Day := Some (Some "7") |})).
  reflexivity.
Defined.

(** * The records of the nine adapters

    Crossref, Scopus, PubMed, SpringerNature, OpenAlex and Scholar
    (src/revsys/clients), with PLOS, arXiv and IEEE Xplore. *)

(** ** The records of PLOS, arXiv and IEEE Xplore *)

Lemma plos_complete doc : post complete (Plos.process_doc doc).
Proof.
  pose proof (plos_doc_fields doc) as H. unfold post in *.
  destruct (Plos.process_doc doc); [exact (proj1 H) | exact I].
Qed.

Lemma arxiv_record_spec int start_year end_year e r :
  Arxiv.process_entry int start_year end_year e = Ok (Some r) ->
  complete r /\ r !! "Is Open Access" = Some (PStr "Yes").
Proof.
  intros H. pose proof (arxiv_process_entry_spec int start_year end_year e) as Hspec.
  rewrite H in Hspec. cbn [post] in Hspec. destruct Hspec as (Hc & Hoa & _).
  split; assumption.
Qed.

Lemma ieee_article_fields_spec art :
  post (fun fields =>
          let '(_, _, authors_str, year, _, _, _, _, _) := fields in
          Ieee.authors_of art = Ok authors_str /\
          exists y, get art "publication_year" NA = Ok y /\ year = str y)
       (Ieee.article_fields art).
Proof. unfold Ieee.article_fields. post_steps. unfold post. eauto. Qed.

(** What the record of an article satisfies *)
Lemma ieee_process_article_record art r :
  Ieee.process_article art = Ieee.Done r ->
  complete r /\
  r !! "Is Open Access" = Some (PStr "N/A") /\
  exists authors_str year tag,
    Ieee.authors_of art = Ok authors_str /\
    (exists y, get art "publication_year" NA = Ok y /\ year = str y) /\
    Ieee.authors_year_of authors_str year = Ok tag /\
    r !! "Authors" = Some (PStr authors_str) /\
    r !! "Publication Year" = Some (PStr year) /\
    r !! "Authors Year" = Some (PStr tag).
Proof.
  unfold Ieee.process_article. pose proof (ieee_article_fields_spec art) as Hf.
  destruct (Ieee.article_fields art)
    as [[[[[[[[[title abstract] authors_str] year] pub_date] journal] doi] pdf_url] cited_by]|e];
    [|discriminate].
  cbn [Ieee.lift Ieee.try_bind Ieee.record_of post] in *. unfold Ieee.id_of.
  destruct (truthy doi) eqn:T; [|discriminate]. cbn [Ieee.try_bind].
  destruct (Ieee.authors_year_of authors_str year) as [authors_year|e] eqn:Etag; [|discriminate].
  cbn [mbind result_bind bind].
  destruct (get art "language" NA) as [language|e]; [|discriminate].
  cbn [mbind result_bind bind].
  destruct (get art "content_type" NA) as [content_type|e]; [|discriminate].
  cbn [mbind result_bind bind Ieee.lift]. intros H. apply Done_inj in H. subst r.
  split; [apply padroniza_complete|].
  split; [apply padroniza_display_lookup; reflexivity|].
  exists authors_str, year, authors_year. destruct Hf as [Ha Hy].
  split; [exact Ha|]. split; [exact Hy|]. split; [exact Etag|].
  repeat split; apply padroniza_display_lookup; reflexivity.
Qed.

(** The "DOI" of an OpenAlex record is what [w.get("doi", "N/A")]
    gives. *)
Lemma openalex_doi w abstract :
  post (fun r => forall doi, get w "doi" NA = Ok doi -> r !! "DOI" = Some doi)
       (OpenAlex.work_record w abstract).
Proof.
  unfold OpenAlex.work_record. post_steps; unfold post; intros doi Hdoi;
    match goal with
    | H : get w "doi" _ = Ok ?a |- _ => rewrite H in Hdoi; injection Hdoi as <-
    end;
    apply padroniza_display_lookup; reflexivity.
Qed.

(** ** C5: every standard field is present *)

(** C5, as the code has it.  [padroniza_registro] keeps the value of
    every standard field that a record has, [None] included, and fills
    each missing standard field with "N/A".  The record that an adapter
    builds for an item (Crossref, Scopus, PubMed, SpringerNature,
    OpenAlex, Scholar, PLOS, arXiv, IEEE Xplore) therefore has all
    twenty standard fields, and so has its row in the frame; Scholar,
    which sets neither "ID" nor "DOI", has "N/A" in both.  A field that
    the adapter did set keeps its value: the "DOI" of an OpenAlex
    record is what [w.get("doi", "N/A")] gives, so ["doi": null] gives
    [None]. *)
Theorem C5_all_standard_fields_present :
  (forall registro c, In c STANDARD_COLUMNS ->
     match registro !! c with
     | Some v => padroniza_registro registro !! c = Some v
     | None => padroniza_registro registro !! c = Some (PStr "N/A")
     end) /\
  (forall unescape item r, Crossref.process_item unescape item = Ok r -> complete r) /\
  (forall entry r, Scopus.process_entry entry = Ok r -> complete r) /\
  (forall entry r, PubMed.parse_entry entry = Ok r -> complete r) /\
  (forall rec r, SpringerNature.process_record rec = Ok r -> complete r) /\
  (forall w abstract r, OpenAlex.work_record w abstract = Ok r -> complete r) /\
  (forall url pub r url', Scholar.process_pub url pub = Ok (r, url') ->
     complete r /\ r !! "ID" = Some (PStr "N/A") /\ r !! "DOI" = Some (PStr "N/A")) /\
  (forall doc r, Plos.process_doc doc = Ok r -> complete r) /\
  (forall int start_year end_year e r,
     Arxiv.process_entry int start_year end_year e = Ok (Some r) -> complete r) /\
  (forall art r, Ieee.process_article art = Ieee.Done r -> complete r) /\
  (forall r, complete r -> complete (reindex_row r)) /\
  (forall w abstract r doi,
     OpenAlex.work_record w abstract = Ok r ->
     get w "doi" (PStr "N/A") = Ok doi ->
     r !! "DOI" = Some doi) /\
  (forall d abstract r,
     lookup_item "doi" d = Some PNone ->
     OpenAlex.work_record (PDict d) abstract = Ok r ->
     r !! "DOI" = Some PNone).
Proof.
  repeat apply conj.
  - intros registro c Hin. destruct (registro !! c) as [v|] eqn:E.
    + apply padroniza_keeps. exact E.
    + apply padroniza_fills; assumption.
  - intros unescape item r H. exact (post_Ok _ _ _ (crossref_complete unescape item) H).
  - intros entry r H. exact (post_Ok _ _ _ (scopus_complete entry) H).
  - intros entry r H. exact (post_Ok _ _ _ (pubmed_complete entry) H).
  - intros rec r H. exact (post_Ok _ _ _ (springer_complete rec) H).
  - intros w a r H. exact (post_Ok _ _ _ (openalex_complete w a) H).
  - intros url pub r url' H. exact (post_Ok _ _ _ (scholar_complete url pub) H).
  - intros doc r H. exact (post_Ok _ _ _ (plos_complete doc) H).
  - intros int start_year end_year e r H.
    exact (proj1 (arxiv_record_spec int start_year end_year e r H)).
  - intros art r H. exact (proj1 (ieee_process_article_record art r H)).
  - apply reindex_row_complete.
  - intros w a r doi H Hdoi. exact (post_Ok _ _ _ (openalex_doi w a) H doi Hdoi).
  - intros d a r Hd H. apply (post_Ok _ _ _ (openalex_doi (PDict d) a) H).
    cbn [get]. rewrite Hd. reflexivity.
Qed.

Lemma C5_all_standard_fields_present_witness :
  exists r, Crossref.process_item Html.unescape sample_crossref_item = Ok r /\ complete r.
Proof.
  assert (H : is_ok (Crossref.process_item Html.unescape sample_crossref_item) = true)
    by (vm_compute; reflexivity).
  destruct (Crossref.process_item Html.unescape sample_crossref_item) as [r|e] eqn:E.
  - exists r. split; [reflexivity|].
    exact (proj1 (proj2 C5_all_standard_fields_present) Html.unescape sample_crossref_item r E).
  - discriminate H.
Defined.

(** The statement of the specification fails on the value of a field: OpenAlex
    reports a work without DOI as ["doi": null], [w.get("doi", "N/A")]
    is then [None], and [padroniza_registro] only fills fields that are
    missing. *)
Lemma C5_counterexample_null_doi :
  column_of "DOI" (OpenAlex._process_works [work_null_doi]) = Ok [Some PNone] /\
  column_of "ID" (OpenAlex._process_works [work_null_doi]) = Ok [Some (PStr "W1")].
Proof. split; vm_compute; reflexivity. Qed.

(** ** C8: the "Is Open Access" field *)

(** With an [ArticleId] of type "pmc" that has a text, and none of that
    type after it, [is_oa] is [True]. *)
Lemma is_oa_of_pmc before a after s :
  String.eqb (PyStr.lower (match PubMed.IdType a with Some t => t | None => "" end)) "pmc"
  = true ->
  PubMed.text a = Some s -> s <> EmptyString ->
  (forall b, In b after ->
     String.eqb (PyStr.lower (match PubMed.IdType b with Some t => t | None => "" end)) "pmc"
     = false) ->
  PubMed.is_oa_of (before ++ a :: after) = true.
Proof.
  intros Ha Hs Hne Hafter. unfold PubMed.is_oa_of, PubMed.pmc_id_of.
  rewrite fold_left_app. cbn [fold_left]. rewrite pmc_fold_none by exact Hafter.
  unfold PubMed.pmc_step at 1. rewrite Ha, Hs.
  apply negb_true_iff, String.eqb_neq. exact Hne.
Qed.

(** C8, as the code has it.  Crossref writes "Yes" for a non-empty
    license list and "N/A" otherwise, in particular when the item has no
    license; Scopus, Scholar and IEEE Xplore always write "N/A".
    PubMed, SpringerNature and OpenAlex write "Yes" or "No": PubMed
    from [is_oa], which is [False] when the article has no
    PubMed-Central identifier and [True] when its last identifier of
    that type has a text;
    SpringerNature "Yes" when [str(openaccess).lower()] is "true" and
    "No" otherwise, so "No" when the record has no [openaccess] flag;
    OpenAlex "Yes" when [open_access.is_oa] is truthy and "No"
    otherwise, so "No" when the work has no [open_access] object or
    the object has no [is_oa].  arXiv and PLOS always write "Yes". *)
Theorem C8_open_access_by_adapter :
  (* Crossref *)
  (forall unescape item r lic,
     Crossref.process_item unescape item = Ok r ->
     get item "license" (PList []) = Ok lic ->
     r !! "Is Open Access" = Some (PStr (if truthy lic && is_list lic then "Yes" else "N/A"))) /\
  (forall unescape d r,
     lookup_item "license" d = None ->
     Crossref.process_item unescape (PDict d) = Ok r ->
     r !! "Is Open Access" = Some (PStr "N/A")) /\
  (* Scopus, Scholar, IEEE Xplore *)
  (forall entry r,
     Scopus.process_entry entry = Ok r -> r !! "Is Open Access" = Some (PStr "N/A")) /\
  (forall url pub r url',
     Scholar.process_pub url pub = Ok (r, url') ->
     r !! "Is Open Access" = Some (PStr "N/A")) /\
  (forall art r,
     Ieee.process_article art = Ieee.Done r -> r !! "Is Open Access" = Some (PStr "N/A")) /\
  (* PubMed *)
  (forall entry r is_oa,
     PubMed.parse_entry entry = Ok r ->
     get entry "is_oa" (PBool false) = Ok is_oa ->
     r !! "Is Open Access" = Some (PStr (if truthy is_oa then "Yes" else "No"))) /\
  (forall ids,
     (forall a, In a ids ->
        String.eqb (PyStr.lower (match PubMed.IdType a with Some t => t | None => "" end))
                   "pmc" = false) ->
     PubMed.is_oa_of ids = false) /\
  (forall before a after s,
     String.eqb (PyStr.lower (match PubMed.IdType a with Some t => t | None => "" end))
                "pmc" = true ->
     PubMed.text a = Some s -> s <> EmptyString ->
     (forall b, In b after ->
        String.eqb (PyStr.lower (match PubMed.IdType b with Some t => t | None => "" end))
                   "pmc" = false) ->
     PubMed.is_oa_of (before ++ a :: after) = true) /\
  (* SpringerNature *)
  (forall rec r openaccess,
     SpringerNature.process_record rec = Ok r ->
     get rec "openaccess" (PStr "false") = Ok openaccess ->
     r !! "Is Open Access"
     = Some (PStr (if String.eqb (PyStr.lower (str openaccess)) "true" then "Yes" else "No"))) /\
  (forall d r,
     lookup_item "openaccess" d = None ->
     SpringerNature.process_record (PDict d) = Ok r ->
     r !! "Is Open Access" = Some (PStr "No")) /\
  (* OpenAlex *)
  (forall w abstract r oa_info is_oa,
     OpenAlex.work_record w abstract = Ok r ->
     get w "open_access" (PDict []) = Ok oa_info ->
     get oa_info "is_oa" (PBool false) = Ok is_oa ->
     r !! "Is Open Access" = Some (PStr (if truthy is_oa then "Yes" else "No"))) /\
  (forall d abstract r,
     lookup_item "open_access" d = None ->
     OpenAlex.work_record (PDict d) abstract = Ok r ->
     r !! "Is Open Access" = Some (PStr "No")) /\
  (forall w abstract r info,
     get w "open_access" (PDict []) = Ok (PDict info) ->
     lookup_item "is_oa" info = None ->
     OpenAlex.work_record w abstract = Ok r ->
     r !! "Is Open Access" = Some (PStr "No")) /\
  (* arXiv, PLOS *)
  (forall int start_year end_year e r,
     Arxiv.process_entry int start_year end_year e = Ok (Some r) ->
     r !! "Is Open Access" = Some (PStr "Yes")) /\
  (forall doc r,
     Plos.process_doc doc = Ok r -> r !! "Is Open Access" = Some (PStr "Yes")).
Proof.
  repeat apply conj.
  - intros unescape item r lic H Hlic.
    exact (post_Ok _ _ _ (crossref_open_access unescape item) H lic Hlic).
  - intros unescape d r Hd H.
    exact (post_Ok _ _ _ (crossref_open_access unescape (PDict d)) H (PList [])
             (get_missing d _ _ Hd)).
  - intros entry r H. exact (post_Ok _ _ _ (scopus_open_access entry) H).
  - intros url pub r url' H. exact (post_Ok _ _ _ (scholar_open_access url pub) H).
  - intros art r H. exact (proj1 (proj2 (ieee_process_article_record art r H))).
  - intros entry r is_oa H Hoa. exact (post_Ok _ _ _ (pubmed_open_access entry) H is_oa Hoa).
  - apply is_oa_of_no_pmc.
  - apply is_oa_of_pmc.
  - intros rec r openaccess H Hoa.
    exact (post_Ok _ _ _ (springer_open_access rec) H openaccess Hoa).
  - intros d r Hd H.
    exact (post_Ok _ _ _ (springer_open_access (PDict d)) H (PStr "false")
             (get_missing d _ _ Hd)).
  - intros w a r oa_info is_oa H Hinfo Hoa.
    exact (post_Ok _ _ _ (openalex_open_access w a) H oa_info is_oa Hinfo Hoa).
  - intros d a r Hd H.
    exact (post_Ok _ _ _ (openalex_open_access (PDict d) a) H (PDict []) (PBool false)
             (get_missing d _ _ Hd) eq_refl).
  - intros w a r info Hinfo Hoa H.
    exact (post_Ok _ _ _ (openalex_open_access w a) H (PDict info) (PBool false)
             Hinfo (get_missing info _ _ Hoa)).
  - intros int start_year end_year e r H.
    exact (proj2 (arxiv_record_spec int start_year end_year e r H)).
  - intros doc r H. pose proof (post_Ok _ _ _ (plos_doc_fields doc) H) as (_ & Hoa & _).
    exact Hoa.
Qed.

Lemma C8_open_access_by_adapter_witness :
  PubMed.is_oa_of article_ids_no_pmc = false /\
  exists r, PubMed.parse_entry pubmed_entry_no_pmc = Ok r /\
            r !! "Is Open Access" = Some (PStr "No").
Proof.
  destruct C8_open_access_by_adapter as (_ & _ & _ & _ & _ & Hpubmed & Hids & _).
  split.
  - apply Hids. intros a [<- | [<- | []]]; reflexivity.
  - assert (H : is_ok (PubMed.parse_entry pubmed_entry_no_pmc) = true)
      by (vm_compute; reflexivity).
    destruct (PubMed.parse_entry pubmed_entry_no_pmc) as [r|e] eqn:E; [|discriminate H].
    exists r. split; [reflexivity|].
    exact (Hpubmed pubmed_entry_no_pmc r (PBool false) E eq_refl).
Defined.

(** The statement of the specification fails for PubMed: an article without a
    PubMed-Central identifier has [is_oa = False], and the field is
    "No". *)
Lemma C8_counterexample_pubmed_no :
  PubMed.is_oa_of article_ids_no_pmc = false /\
  column_of "Is Open Access" (PubMed._parse_data [pubmed_entry_no_pmc])
  = Ok [Some (PStr "No")].
Proof. split; vm_compute; reflexivity. Qed.

(** ** C6: the "Authors Year" tag *)

























(** ** Instances *)

Example authors_year_samples :
  (r ← Scopus.process_entry (scopus_entry "e1"); Ok (r !! "Authors Year"))
  = Ok (Some (PStr "Silva 2023")) /\
  (r ← Scopus.process_entry (PDict []); Ok (r !! "Authors Year"))
  = Ok (Some (PStr "unknown N/A")) /\
  (r ← SpringerNature.process_record
         (PDict [("creators", PList [PDict [("creator", PStr "Silva, Ana")]]);
                 ("publicationDate", PStr "2023-05-20")]);
   Ok (r !! "Authors Year"))
  = Ok (Some (PStr "Silva 2023")) /\
  (r ← SpringerNature.process_record
         (PDict [("creators", PList [PDict [("creator", PStr "Silva, Ana")]])]);
   Ok (r !! "Authors Year"))
  = Ok (Some (PStr "N/A")) /\
  (r ← Plos.process_doc (plos_doc "10.1371/a"); Ok (r !! "Authors Year"))
  = Ok (Some (PStr "Silva and Souza 2023")) /\
  (r ← Plos.process_doc (PDict []); Ok (r !! "Authors Year"))
  = Ok (Some (PStr "N/A N/A")) /\
  (r ← Arxiv.process_entry Arxiv.int_of_digits None None (arxiv_entry "2023" "2301.00001");
   Ok (r ≫= lookup "Authors Year"))
  = Ok (Some (PStr "Silva and Souza 2023")) /\
  match Ieee.process_article (ieee_article "10.1109/a") with
  | Ieee.Done r => r !! "Authors Year" = Some (PStr "Silva 2023")
  | _ => False
  end.
Proof. repeat split; vm_compute; reflexivity. Qed.

Example open_access_samples :
  (r ← SpringerNature.process_record (PDict [("openaccess", PStr "true")]);
   Ok (r !! "Is Open Access"))
  = Ok (Some (PStr "Yes")) /\
  (r ← SpringerNature.process_record (PDict [("openaccess", PBool true)]);
   Ok (r !! "Is Open Access"))
  = Ok (Some (PStr "Yes")) /\
  (r ← SpringerNature.process_record (PDict []); Ok (r !! "Is Open Access"))
  = Ok (Some (PStr "No")) /\
  (r ← Plos.process_doc (plos_doc "10.1371/a"); Ok (r !! "Is Open Access"))
  = Ok (Some (PStr "Yes")) /\
  (r ← Arxiv.process_entry Arxiv.int_of_digits None None (arxiv_entry "2023" "2301.00001");
   Ok (r ≫= lookup "Is Open Access"))
  = Ok (Some (PStr "Yes")) /\
  match Ieee.process_article (ieee_article "10.1109/a") with
  | Ieee.Done r => r !! "Is Open Access" = Some (PStr "N/A")
  | _ => False
  end.
Proof. repeat split; vm_compute; reflexivity. Qed.
